(** * Upload ingestion pipeline of the BingeIn video site

    A shallow embedding of the serverless upload handler
    ([api/upload-video.js] and its successive rewrites) together with the
    properties of the ingestion pipeline: method gate, field extraction,
    validation, the two object-storage writes, staging-file cleanup, the
    document-store write and the access-control list.

    JavaScript strings are [string]s, one character per code unit (the model
    covers code units below 256).  JavaScript [undefined]/[null] is [None].
    A Number that [parseInt] returns is [NaN], an infinity, or a double whose
    value is an integer; such a double is given by its value in [Z]. *)

From stdpp Require Import gmap strings list fin_maps.
From Stdlib Require Import ZArith Ascii String Strings.Byte.
From Stdlib Require Floats.SpecFloat.

Local Open Scope string_scope.
Local Open Scope Z_scope.

(** ** JavaScript values used by the handler *)

Module Js.

(** A value that is either [undefined] or a string. *)
Definition Val := option string.

(** [ToString] on such a value. *)
Definition ToString (v : Val) : string :=
  match v with
  | None => "undefined"
  | Some s => s
  end.

(** [ToBoolean]: [undefined] and the empty string are falsy. *)
Definition truthy (v : Val) : bool :=
  match v with
  | None => false
  | Some EmptyString => false
  | Some (String _ _) => true
  end.

(** [v === lit] for a string literal [lit]. *)
Definition strict_eq (v : Val) (lit : string) : bool :=
  match v with
  | None => false
  | Some s => String.eqb s lit
  end.

(** [a || b] on strings-or-undefined, with [b] a string. *)
Definition or_else (v : Val) (dflt : string) : string :=
  if truthy v then ToString v else dflt.

(** Numbers produced by [parseInt]: [NaN], plus or minus [Infinity], or
    a double with an integral value, given by that value (the sign of zero is
    not kept). *)
Inductive Num :=
| NaN
| Int (n : Z)
| Inf (negative : bool).

Definition isNaN (x : Num) : bool :=
  match x with
  | NaN => true
  | Int _ => false
  | Inf _ => false
  end.

(** The double nearest to an integer, ties to the even significand:
    integers below 2^53 in magnitude are doubles; a larger one keeps its 53
    leading bits, rounded on the bits dropped; from 2^1024 on the result is
    an infinity. *)
Definition round_double (x : Z) : Num :=
  let a := Z.abs x in
  if a <? 2 ^ 53 then Int x
  else
    let k := Z.log2 a - 52 in
    let q := a / 2 ^ k in
    let r := a mod 2 ^ k in
    let half := 2 ^ (k - 1) in
    let q' := if (half <? r) || ((r =? half) && Z.odd q) then q + 1 else q in
    let v := q' * 2 ^ k in
    if 2 ^ 1024 <=? v then Inf (x <? 0) else Int (Z.sgn x * v).

(** The same rounding through the Standard Library's specification of
    IEEE 754 binary64 (53 bits of precision, exponents up to 1024), to check
    [round_double] against. *)
Definition binary64_of_Z (x : Z) : SpecFloat.spec_float :=
  SpecFloat.binary_normalize 53 1024 x 0 false.

Definition Num_of_binary64 (f : SpecFloat.spec_float) : Num :=
  match f with
  | SpecFloat.S754_zero _ => Int 0
  | SpecFloat.S754_infinity s => Inf s
  | SpecFloat.S754_nan => NaN
  | SpecFloat.S754_finite s m e =>
      Int ((if s then -1 else 1)
           * (if e <? 0 then Zpos m / 2 ^ (- e) else Zpos m * 2 ^ e))
  end.

Definition Num_eqb (x y : Num) : bool :=
  match x, y with
  | NaN, NaN => true
  | Int a, Int b => a =? b
  | Inf a, Inf b => Bool.eqb a b
  | _, _ => false
  end.

(** Integers around a power of two, on both sides of the points halfway
    between two doubles, and the largest finite doubles. *)
Definition around_power_of_two (i : nat) : list Z :=
  let p := 2 ^ Z.of_nat i in
  let h := 2 ^ (Z.of_nat i - 53) in
  [p - 1; p; p + 1; p + h - 1; p + h; p + h + 1;
   p + 3 * h - 1; p + 3 * h; p + 3 * h + 1;
   2 * p - 2 * h; 2 * p - h - 1; 2 * p - h;
   - p; - (p + h); - (p + h + 1); - (p + 3 * h);
   3 ^ Z.of_nat i; - 3 ^ Z.of_nat i; 10 ^ Z.of_nat i; 10 ^ Z.of_nat i + 1]%list.

Definition around_overflow : list Z :=
  [2 ^ 1023; 2 ^ 1024 - 2 ^ 971; 2 ^ 1024 - 2 ^ 970 - 1; 2 ^ 1024 - 2 ^ 970;
   2 ^ 1024; 2 ^ 1025 + 1; - (2 ^ 1024 - 2 ^ 970 - 1); - (2 ^ 1024 - 2 ^ 970);
   10 ^ 308; 10 ^ 309; - 10 ^ 309]%list.

(** White space skipped by [parseInt] (TAB, LF, VT, FF, CR, SP, NBSP). *)
Definition is_ws (c : ascii) : bool :=
  let n := nat_of_ascii c in
  (Nat.leb 9 n && Nat.leb n 13) || Nat.eqb n 32 || Nat.eqb n 160.

(** Value of a radix-10 digit. *)
Definition digit_of (c : ascii) : option Z :=
  let n := nat_of_ascii c in
  if (Nat.leb 48 n && Nat.leb n 57)%bool then Some (Z.of_nat n - 48) else None.

Fixpoint skip_ws (s : string) : string :=
  match s with
  | EmptyString => EmptyString
  | String c r => if is_ws c then skip_ws r else s
  end.

(** Reads the longest prefix of digits; [acc] is the value read so far,
    [None] while no digit has been seen. *)
Fixpoint read_digits (s : string) (acc : option Z) : option Z :=
  match s with
  | EmptyString => acc
  | String c r =>
      match digit_of c with
      | Some d => read_digits r (Some (10 * default 0 acc + d))
      | None => acc
      end
  end.

(** Splits an optional leading sign off. *)
Definition take_sign (s : string) : Z * string :=
  match s with
  | String "-" r => (-1, r)
  | String "+" r => (1, r)
  | _ => (1, s)
  end.

(** [parseInt(v, 10)]: [ToString], skip leading white space, optional
    sign, longest prefix of decimal digits; [NaN] when that prefix is
    empty, else the double nearest to the signed integer that the digits
    denote.  Radix 10 strips no [0x] prefix. *)
Definition parseInt (v : Val) : Num :=
  let '(sign, body) := take_sign (skip_ws (ToString v)) in
  match read_digits body None with
  | None => NaN
  | Some n => round_double (sign * n)
  end.

(** [String.prototype.trim], as the upload form applies it to its text
    inputs before sending them. *)
Fixpoint trim_end (s : string) : string :=
  match s with
  | EmptyString => EmptyString
  | String c r =>
      match trim_end r with
      | EmptyString => if is_ws c then EmptyString else String c EmptyString
      | r' => String c r'
      end
  end.

Definition trim (s : string) : string := trim_end (skip_ws s).

(** [Array.isArray(x) ? x[0] : x] for a property that holds a string, an
    array of strings, or nothing. *)
Inductive FieldValue :=
| PStr (s : string)
| PArr (l : list string).

Definition first_or_self (p : option FieldValue) : Val :=
  match p with
  | None => None
  | Some (PStr s) => Some s
  | Some (PArr l) => head l
  end.

End Js.

(** ** The decimal reading of a text, stated independently of [parseInt] *)

Module Decimal.

(** The decimal digits, in order of value. *)
Definition digits : list ascii := list_ascii_of_string "0123456789".

Fixpoint position (c : ascii) (l : list ascii) (i : Z) : option Z :=
  match l with
  | [] => None
  | d :: r => if Ascii.eqb c d then Some i else position c r (i + 1)
  end.

(** The value of a digit is its place among the digits. *)
Definition digit_value (c : ascii) : option Z := position c digits 0.

Definition is_digit (c : ascii) : bool :=
  match digit_value c with
  | Some _ => true
  | None => false
  end.

(** The white-space characters: tab, line feed, vertical tab, form feed,
    carriage return, space and no-break space. *)
Definition is_space (c : ascii) : bool :=
  existsb (Ascii.eqb c)
          ["009"%char; "010"%char; "011"%char; "012"%char; "013"%char;
           " "%char; "160"%char].

Fixpoint all_digits (s : string) : bool :=
  match s with
  | EmptyString => true
  | String c r => is_digit c && all_digits r
  end.

Fixpoint all_ws (s : string) : bool :=
  match s with
  | EmptyString => true
  | String c r => is_space c && all_ws r
  end.

(** A text that does not start with a decimal digit. *)
Definition no_leading_digit (s : string) : bool :=
  match s with
  | EmptyString => true
  | String c _ => negb (is_digit c)
  end.

(** Positional value of a digit string, most significant digit first. *)
Definition value (s : string) : Z :=
  fold_left (fun acc c => 10 * acc + default 0 (digit_value c))
            (list_ascii_of_string s) 0.

Inductive Sign := Plus | Minus | NoSign.

Definition sign_text (sg : Sign) : string :=
  match sg with
  | Plus => "+"
  | Minus => "-"
  | NoSign => ""
  end.

Definition sign_factor (sg : Sign) : Z :=
  match sg with
  | Minus => -1
  | _ => 1
  end.

(** The largest magnitude up to which every integer is a double. *)
Definition exact_bound : Z := 2 ^ 53.

End Decimal.

(** ** Collaborators, events and machine state *)

(** A thrown or rejected JavaScript error; only [error.message] is read. *)
Record JsError := { message : string }.

Definition bytes := list byte.

(** A staged upload as formidable hands it over. *)
Record File := {
  filepath : string;
  originalFilename : option string;
  mimetype : option string
}.

(** A property of formidable's [files] object: one file or an array. *)
Inductive FileProp :=
| FOne (f : File)
| FMany (l : list File).

(** What [form.parse] passes to its callback on success. *)
Record Form := {
  fields : gmap string Js.FieldValue;
  files : gmap string FileProp
}.

(** A file part of the multipart body, with the [name] and [ext] that
    formidable derives for it and passes to the [filename] option. *)
Record Part := {
  part_name : string;
  part_ext : string;
  part_originalFilename : option string;
  part_mimetype : option string;
  part_data : bytes
}.

(** An incoming request: its method, the file parts of its body, and the
    outcome of formidable's parse of the body. *)
Record Request := {
  method : string;
  uploads : list Part;
  parsed : JsError + Form
}.

(** Options of [put] from [@vercel/blob]. *)
Record PutOptions := { access : string; contentType : option string }.

(** The part of [put]'s result that the handler reads. *)
Record PutBlobResult := { url : string }.

(** node-appwrite roles and permissions ([Role.any()], [Role.team(id)],
    [Permission.read(role)], ...). *)
Inductive Role :=
| RoleAny
| RoleTeam (id : string).

Inductive Action := ActRead | ActUpdate | ActDelete.

Record Permission := { perm_action : Action; perm_role : Role }.

Module PermissionApi.
Definition read (r : Role) : Permission := {| perm_action := ActRead; perm_role := r |}.
Definition update (r : Role) : Permission := {| perm_action := ActUpdate; perm_role := r |}.
Definition delete (r : Role) : Permission := {| perm_action := ActDelete; perm_role := r |}.
End PermissionApi.

Module RoleApi.
Definition any : Role := RoleAny.
(** [Role.team(id)] interpolates its argument into a template string. *)
Definition team (id : Js.Val) : Role := RoleTeam (Js.ToString id).
End RoleApi.

(** The [videoData] object literal; [V] is the type of the values that
    the form yields for its text properties. *)
Record VideoData (V : Type) := {
  vd_title : V;
  vd_description : V;
  vd_duration : Js.Num;
  vd_isPremium : bool;
  vd_genre : V;
  vd_tags : V;
  vd_thumbnailUrl : string;
  vd_videoUrl : string;
  vd_viewsCount : Z;
  vd_uploadDate : string
}.

Arguments Build_VideoData {V}.
Arguments vd_title {V}.
Arguments vd_description {V}.
Arguments vd_duration {V}.
Arguments vd_isPremium {V}.
Arguments vd_genre {V}.
Arguments vd_tags {V}.
Arguments vd_thumbnailUrl {V}.
Arguments vd_videoUrl {V}.
Arguments vd_viewsCount {V}.
Arguments vd_uploadDate {V}.

(** The document returned by [databases.createDocument]. *)
Record Document (V : Type) := {
  doc_id : string;
  doc_data : VideoData V;
  doc_permissions : list Permission
}.

Arguments Build_Document {V}.
Arguments doc_id {V}.
Arguments doc_data {V}.
Arguments doc_permissions {V}.

(** Calls that leave the handler, each with its outcome. *)
Inductive Event :=
| EvMkdir (dir : string) (r : option JsError)
| EvParse
| EvReadFile (path : string) (r : JsError + bytes)
| EvUnlink (path : string) (r : option JsError)
| EvPut (pathname : string) (body : bytes) (opts : PutOptions)
        (r : JsError + PutBlobResult)
| EvCreateDocument (databaseId collectionId : Js.Val) (documentId : string)
                   (data : VideoData Js.Val) (permissions : option (list Permission))
                   (r : JsError + Document Js.Val)
| EvWarn (label : string) (e : JsError)
| EvError (label : string) (e : JsError).

(** The outside world.  Every collaborator answers as a function of the
    calls made so far and of its arguments.  Two fields are formidable's:
    [joinDirectoryName] is the path at which it stages a file of a given
    name (the upload directory joined with the name, or with its default
    name when the join would leave the directory), and [overlapping_write]
    is what a path holds once a second part of the same body has been
    written to it, from what the first part left there and the bytes of the
    second. *)
Record World := {
  APPWRITE_DATABASE_ID : Js.Val;
  APPWRITE_COLLECTION_ID : Js.Val;
  mkdir_fault : option JsError;
  joinDirectoryName : string -> string;
  overlapping_write : bytes -> bytes -> bytes;
  unlink_fault : list Event -> string -> option JsError;
  blob_put : list Event -> string -> bytes -> PutOptions -> JsError + PutBlobResult;
  db_createDocument :
    list Event -> VideoData Js.Val -> option (list Permission) ->
    JsError + Document Js.Val;
  now_iso : list Event -> string
}.

(** The staging disk, whether [./tmp] exists, and the calls made so far. *)
Record State := {
  disk : gmap string bytes;
  tmp_exists : bool;
  trace : list Event
}.

(** The JSON body of a response. *)
Inductive Body (V : Type) :=
| ErrorBody (error : string) (msg : option string) (details : option string)
| SuccessBody (msg : string) (video : Document V)
              (videoBlobUrl thumbnailBlobUrl : string).

Arguments ErrorBody {V}.
Arguments SuccessBody {V}.

Record Response (V : Type) := { status : Z; body : Body V }.

Arguments Build_Response {V}.
Arguments status {V}.
Arguments body {V}.

(** ** State-and-exception monad of an [async] function body *)

(** A computation over a machine state [S] that returns or throws. *)
Definition Eff (S A : Type) : Type := S -> (JsError + A) * S.

#[global] Instance Eff_ret S : MRet (Eff S) := fun A a s => (inr a, s).

#[global] Instance Eff_bind S : MBind (Eff S) := fun A B k m s =>
  match m s with
  | (inl e, s') => (inl e, s')
  | (inr a, s') => k a s'
  end.

Definition throw {S A} (e : JsError) : Eff S A := fun s => (inl e, s).

(** [try { m } catch (e) { h e }], also [m.catch(h)] on a promise. *)
Definition try_catch {S A} (m : Eff S A) (h : JsError -> Eff S A) : Eff S A := fun s =>
  match m s with
  | (inl e, s') => h e s'
  | (inr a, s') => (inr a, s')
  end.

Abbreviation M := (Eff State).

Definition log (ev : Event) (s : State) : State :=
  {| disk := disk s; tmp_exists := tmp_exists s; trace := trace s ++ [ev] |}.

Definition emit (ev : Event) : M unit := fun s => (inr tt, log ev s).

Definition of_result {A} (r : JsError + A) : M A := fun s => (r, s).

Definition enoent (op path : string) : JsError :=
  {| message := "ENOENT: no such file or directory, " +:+ op +:+ " '" +:+ path +:+ "'" |}.

(** [fs.readFile(path)] *)
Definition readFile (path : string) : M bytes := fun s =>
  let r := match disk s !! path with
           | Some b => inr b
           | None => inl (enoent "open" path)
           end in
  (r, log (EvReadFile path r) s).

(** [fs.unlink(path)] *)
Definition unlink (w : World) (path : string) : M unit := fun s =>
  let r := match unlink_fault w (trace s) path with
           | Some e => Some e
           | None => match disk s !! path with
                     | Some _ => None
                     | None => Some (enoent "unlink" path)
                     end
           end in
  let d := match r with
           | None => delete path (disk s)
           | Some _ => disk s
           end in
  (match r with None => inr tt | Some e => inl e end,
   {| disk := d; tmp_exists := tmp_exists s; trace := trace s ++ [EvUnlink path r] |}).

(** [put(pathname, body, options)] of [@vercel/blob] *)
Definition put (w : World) (pathname : string) (data : bytes) (opts : PutOptions)
  : M PutBlobResult := fun s =>
  let r := blob_put w (trace s) pathname data opts in
  (r, log (EvPut pathname data opts r) s).

(** [ID.unique()] of node-appwrite *)
Definition ID_unique : string := "unique()".

(** [databases.createDocument(db, collection, id, data, permissions)] *)
Definition createDocument (w : World) (data : VideoData Js.Val)
    (perms : option (list Permission)) : M (Document Js.Val) := fun s =>
  let r := db_createDocument w (trace s) data perms in
  (r, log (EvCreateDocument (APPWRITE_DATABASE_ID w) (APPWRITE_COLLECTION_ID w)
                            ID_unique data perms r) s).

(** [new Date().toISOString()] *)
Definition toISOString_now (w : World) : M string := fun s =>
  (inr (now_iso w (trace s)), s).

Definition warn (label : string) (e : JsError) : M unit := emit (EvWarn label e).
Definition console_error (label : string) (e : JsError) : M unit := emit (EvError label e).

(** [res.status(code).json(body)] *)
Definition json {V} (code : Z) (b : Body V) : Response V :=
  {| status := code; body := b |}.

(** ** Helpers shared by the formidable-based handlers *)

(** [files.f && (Array.isArray(files.f) ? files.f[0] : files.f)] *)
Definition first_file (p : option FileProp) : option File :=
  match p with
  | None => None
  | Some (FOne f) => Some f
  | Some (FMany l) => head l
  end.

(** [Array.isArray(fields.isPremium) ? fields.isPremium[0] === 'true'
     : fields.isPremium === 'true'] *)
Definition extract_isPremium (p : option Js.FieldValue) : bool :=
  match p with
  | Some (Js.PArr l) => Js.strict_eq (head l) "true"
  | Some (Js.PStr s) => Js.strict_eq (Some s) "true"
  | None => Js.strict_eq None "true"
  end.

(** [Array.isArray(fields.g) ? fields.g[0] : fields.g || ''] *)
Definition extract_optional (p : option Js.FieldValue) : Js.Val :=
  match p with
  | Some (Js.PArr l) => head l
  | Some (Js.PStr s) => Some (Js.or_else (Some s) "")
  | None => Some (Js.or_else None "")
  end.

(** Reading a property of [f]; on [undefined] this is a [TypeError]. *)
Definition deref (f : option File) : M File :=
  match f with
  | Some x => mret x
  | None => throw {| message := "Cannot read properties of undefined" |}
  end.

(** POSIX [path.basename]: the last non-empty segment between slashes. *)
Fixpoint basename_go (s cur last : string) : string :=
  match s with
  | EmptyString => match cur with EmptyString => last | _ => cur end
  | String c r =>
      if Ascii.eqb c "/"
      then basename_go r "" (match cur with EmptyString => last | _ => cur end)
      else basename_go r (cur +:+ String c "") last
  end.

Definition basename (s : string) : string := basename_go s "" "".

(** [file.originalFilename || path.basename(file.filepath)] *)
Definition blob_name (f : File) : string :=
  Js.or_else (originalFilename f) (basename (filepath f)).

Definition public_put (w : World) (f : File) (data : bytes) : M PutBlobResult :=
  put w (blob_name f) data {| access := "public"; contentType := mimetype f |}.

(** The [uploadDir] and [filename] options given to formidable. *)
Definition uploadDir : string := "./tmp".

Definition filename (name ext : string) (part : Part) : string :=
  Js.or_else (part_originalFilename part) (name +:+ ext).

(** Where formidable writes a file part: the place it gives to the name
    computed by the [filename] option. *)
Definition staged_path (w : World) (p : Part) : string :=
  joinDirectoryName w (filename (part_name p) (part_ext p) p).

(** Writing one file part of a body: [d] is the disk and [written] the
    paths that earlier parts of this body were written to.  A path written
    for the first time in this body holds the part's bytes, whatever it held
    before; a path written again holds what the overlapping writes leave. *)
Definition stage (w : World) (acc : gmap string bytes * gset string) (p : Part)
  : gmap string bytes * gset string :=
  let '(d, written) := acc in
  let path := staged_path w p in
  let content :=
    match d !! path with
    | Some earlier =>
        if bool_decide (path ∈ written)
        then overlapping_write w earlier (part_data p)
        else part_data p
    | None => part_data p
    end in
  (<[path := content]> d, {[path]} ∪ written).

(** The disk after all file parts of a body have been written. *)
Definition staged (w : World) (parts : list Part) (d : gmap string bytes)
  : gmap string bytes :=
  fst (fold_left (stage w) parts (d, ∅)).

(** [if (!fsSync.existsSync(tmpDir)) fsSync.mkdirSync(tmpDir)] *)
Definition ensure_tmp (w : World) : M unit := fun s =>
  if tmp_exists s then (inr tt, s)
  else match mkdir_fault w with
       | Some e => (inl e, log (EvMkdir uploadDir (Some e)) s)
       | None => (inr tt, {| disk := disk s; tmp_exists := true;
                             trace := trace s ++ [EvMkdir uploadDir None] |})
       end.

(** [form.parse(req, callback)]: formidable writes every file part of the
    body to its staging path, then reports the outcome.  The handler runs
    with no other request being parsed meanwhile; what two parses under way
    at once leave at a path they share is outside the model. *)
Definition form_parse (w : World) (req : Request) : M Form := fun s =>
  (parsed req,
   {| disk := staged w (uploads req) (disk s);
      tmp_exists := tmp_exists s;
      trace := trace s ++ [EvParse] |}).

Definition parseForm (w : World) (req : Request) : M Form :=
  ensure_tmp w;;
  try_catch (form_parse w req)
            (fun err => console_error "ERROR: Formidable parsing error:" err;; throw err).

Definition method_not_allowed {V} (text : string) : Response V :=
  json 405 (ErrorBody "Method Not Allowed" (Some text) None).

Definition bad_request {V} (text : string) : Response V :=
  json 400 (ErrorBody "Bad Request" (Some text) None).

Definition server_error {V} (text : string) (error : JsError) : Response V :=
  json 500 (ErrorBody "Internal Server Error" (Some text) (Some (message error))).

Definition ok {V} (doc : Document V) (videoBlob thumbnailBlob : PutBlobResult)
  : Response V :=
  json 200 (SuccessBody "Video uploaded and metadata saved successfully!" doc
                        (url videoBlob) (url thumbnailBlob)).

(** ** The handler with access control (ESM, node-appwrite rewrite) *)

(** [if (file?.filepath) await fs.unlink(file.filepath).catch(warn)] *)
Definition unlink_if_staged (w : World) (f : option File) : M unit :=
  match f with
  | Some x =>
      if Js.truthy (Some (filepath x))
      then try_catch (unlink w (filepath x)) (warn "Cleanup failed:")
      else mret tt
  | None => mret tt
  end.

Definition videoData_of {V} (title description : V) (duration : Js.Num)
    (isPremium : bool) (genre tags : V)
    (videoBlob thumbnailBlob : PutBlobResult) (date : string) : VideoData V :=
  {| vd_title := title;
     vd_description := description;
     vd_duration := duration;
     vd_isPremium := isPremium;
     vd_genre := genre;
     vd_tags := tags;
     vd_thumbnailUrl := url thumbnailBlob;
     vd_videoUrl := url videoBlob;
     vd_viewsCount := 0;
     vd_uploadDate := date |}.

Definition permissions_for (teamId : Js.Val) : list Permission :=
  [ PermissionApi.read RoleApi.any;
    PermissionApi.update (RoleApi.team teamId);
    PermissionApi.delete (RoleApi.team teamId) ].

Definition handler (w : World) (req : Request) : M (Response Js.Val) :=
  if negb (String.eqb (method req) "POST") then
    mret (method_not_allowed
      "This endpoint only accepts POST requests for video uploads and metadata saving.")
  else
    try_catch
      (form ← parseForm w req;
       let title := Js.first_or_self (fields form !! "title") in
       let description := Js.first_or_self (fields form !! "description") in
       let duration := Js.parseInt (Js.first_or_self (fields form !! "duration")) in
       let isPremium := extract_isPremium (fields form !! "isPremium") in
       let genre := extract_optional (fields form !! "genre") in
       let tags := extract_optional (fields form !! "tags") in
       let teamId := Js.first_or_self (fields form !! "teamId") in
       let videoFile := first_file (files form !! "videoFile") in
       let thumbnailFile := first_file (files form !! "thumbnailFile") in
       if negb (Js.truthy title) || negb (Js.truthy description)
          || Js.isNaN duration
          || negb (bool_decide (is_Some videoFile))
          || negb (bool_decide (is_Some thumbnailFile))
          || negb (Js.truthy teamId)
       then
         unlink_if_staged w videoFile;;
         unlink_if_staged w thumbnailFile;;
         mret (bad_request "Missing required fields or invalid data.")
       else
         vf ← deref videoFile;
         videoFileBuffer ← readFile (filepath vf);
         videoBlob ← public_put w vf videoFileBuffer;
         tf ← deref thumbnailFile;
         thumbnailFileBuffer ← readFile (filepath tf);
         thumbnailBlob ← public_put w tf thumbnailFileBuffer;
         try_catch (unlink w (filepath vf);; unlink w (filepath tf))
                   (warn "WARNING: Failed to delete temporary files:");;
         date ← toISOString_now w;
         let videoData := videoData_of title description duration isPremium
                                       genre tags videoBlob thumbnailBlob date in
         let permissions := permissions_for teamId in
         newVideoDocument ← createDocument w videoData (Some permissions);
         mret (ok newVideoDocument videoBlob thumbnailBlob))
      (fun error =>
         console_error "Error in upload-video API:" error;;
         mret (server_error
           "Failed to process video upload and save metadata. Please check server logs for details and try again."
           error)).

(** ** Observations on runs *)

(** Calls to the object-storage and document-store collaborators. *)
Definition is_collaborator_call (ev : Event) : bool :=
  match ev with
  | EvPut _ _ _ _ => true
  | EvCreateDocument _ _ _ _ _ _ => true
  | _ => false
  end.

Definition calls (evs : list Event) : list Event :=
  List.filter is_collaborator_call evs.

(** The events of a run that starts in [s] and ends in [s']. *)
Definition events_since (s s' : State) : list Event :=
  drop (List.length (trace s)) (trace s').

(** The values the handlers extract from a parsed form. *)
Definition title_of (form : Form) : Js.Val := Js.first_or_self (fields form !! "title").
Definition description_of (form : Form) : Js.Val :=
  Js.first_or_self (fields form !! "description").
Definition duration_text_of (form : Form) : Js.Val :=
  Js.first_or_self (fields form !! "duration").
Definition duration_of (form : Form) : Js.Num := Js.parseInt (duration_text_of form).
Definition isPremium_of (form : Form) : bool := extract_isPremium (fields form !! "isPremium").
Definition genre_of (form : Form) : Js.Val := extract_optional (fields form !! "genre").
Definition tags_of (form : Form) : Js.Val := extract_optional (fields form !! "tags").
Definition teamId_of (form : Form) : Js.Val := Js.first_or_self (fields form !! "teamId").
Definition videoFile_of (form : Form) : option File := first_file (files form !! "videoFile").
Definition thumbnailFile_of (form : Form) : option File :=
  first_file (files form !! "thumbnailFile").

Definition put_options (f : File) : PutOptions :=
  {| access := "public"; contentType := mimetype f |}.

(** The record built from a form and the two stored assets. *)
Definition record_of (form : Form) (videoBlob thumbnailBlob : PutBlobResult)
    (date : string) : VideoData Js.Val :=
  videoData_of (title_of form) (description_of form) (duration_of form)
               (isPremium_of form) (genre_of form) (tags_of form)
               videoBlob thumbnailBlob date.

(** A request is rejected by validation when one of these holds. *)
Definition rejected (form : Form) : Prop :=
  Js.truthy (title_of form) = false \/
  Js.truthy (description_of form) = false \/
  Js.isNaN (duration_of form) = true \/
  videoFile_of form = None \/
  thumbnailFile_of form = None \/
  Js.truthy (teamId_of form) = false.

(** A form that passes validation, with its two files. *)
Definition well_formed (form : Form) (vf tf : File) : Prop :=
  Js.truthy (title_of form) = true /\
  Js.truthy (description_of form) = true /\
  Js.isNaN (duration_of form) = false /\
  videoFile_of form = Some vf /\
  thumbnailFile_of form = Some tf /\
  Js.truthy (teamId_of form) = true.

(** The access-control list attached to the record of a form. *)
Definition acl_of (form : Form) : option (list Permission) :=
  Some (permissions_for (teamId_of form)).

(** The runs of the storage and persistence stages on a validated form,
    from the staging disk [d] left by the parse: the collaborator calls
    made, in order, and the response sent.  [acl] is the permission list
    handed to the document store, if any. *)
Inductive pipeline (d : gmap string bytes) (form : Form) (vf tf : File)
    (acl : option (list Permission)) : list Event -> Response Js.Val -> Prop :=
| run_video_unreadable text e :
    d !! filepath vf = None ->
    pipeline d form vf tf acl [] (server_error text e)
| run_video_put_failed text vbuf e :
    d !! filepath vf = Some vbuf ->
    pipeline d form vf tf acl
      [EvPut (blob_name vf) vbuf (put_options vf) (inl e)]
      (server_error text e)
| run_thumbnail_unreadable text vbuf vb e :
    d !! filepath vf = Some vbuf ->
    d !! filepath tf = None ->
    pipeline d form vf tf acl
      [EvPut (blob_name vf) vbuf (put_options vf) (inr vb)]
      (server_error text e)
| run_thumbnail_put_failed text vbuf vb tbuf e :
    d !! filepath vf = Some vbuf ->
    d !! filepath tf = Some tbuf ->
    pipeline d form vf tf acl
      [EvPut (blob_name vf) vbuf (put_options vf) (inr vb);
       EvPut (blob_name tf) tbuf (put_options tf) (inl e)]
      (server_error text e)
| run_create_failed text vbuf vb tbuf tb db coll date e :
    d !! filepath vf = Some vbuf ->
    d !! filepath tf = Some tbuf ->
    pipeline d form vf tf acl
      [EvPut (blob_name vf) vbuf (put_options vf) (inr vb);
       EvPut (blob_name tf) tbuf (put_options tf) (inr tb);
       EvCreateDocument db coll ID_unique (record_of form vb tb date) acl (inl e)]
      (server_error text e)
| run_created vbuf vb tbuf tb db coll date doc :
    d !! filepath vf = Some vbuf ->
    d !! filepath tf = Some tbuf ->
    pipeline d form vf tf acl
      [EvPut (blob_name vf) vbuf (put_options vf) (inr vb);
       EvPut (blob_name tf) tbuf (put_options tf) (inr tb);
       EvCreateDocument db coll ID_unique (record_of form vb tb date) acl (inr doc)]
      (ok doc vb tb).

(** Every way a run of [handler] can go: the collaborator calls it makes
    and the response it sends. *)
Inductive outcome (w : World) (req : Request) (s : State)
  : list Event -> Response Js.Val -> Prop :=
| out_method_not_allowed text :
    method req <> "POST" ->
    outcome w req s [] (method_not_allowed text)
| out_parse_failed text e s1 :
    method req = "POST" ->
    parseForm w req s = (inl e, s1) ->
    outcome w req s [] (server_error text e)
| out_rejected text form s1 :
    method req = "POST" ->
    parseForm w req s = (inr form, s1) ->
    rejected form ->
    outcome w req s [] (bad_request text)
| out_pipeline form s1 vf tf cs resp :
    method req = "POST" ->
    parseForm w req s = (inr form, s1) ->
    well_formed form vf tf ->
    pipeline (disk s1) form vf tf (acl_of form) cs resp ->
    outcome w req s cs resp.

(** A collaborator call that returned normally, and one that failed. *)
Definition call_succeeded (ev : Event) : bool :=
  match ev with
  | EvPut _ _ _ (inr _) => true
  | EvCreateDocument _ _ _ _ _ (inr _) => true
  | _ => false
  end.

Definition call_failed (ev : Event) : bool :=
  match ev with
  | EvPut _ _ _ (inl _) => true
  | EvCreateDocument _ _ _ _ _ (inl _) => true
  | _ => false
  end.

Definition is_create (ev : Event) : bool :=
  match ev with
  | EvCreateDocument _ _ _ _ _ _ => true
  | _ => false
  end.

(** The stage at which a storage call failed, as a tagged error would
    name it. *)
Inductive Stage := StageVideo | StageThumbnail.

(** ** The earlier formidable handler (CommonJS rewrite, no access control) *)

Module Cjs.

(** [form.parse]'s callback here re-emits the error on the form before
    rejecting; the re-emission reaches no listener that is still armed and
    is modelled as having no effect. *)
Definition parseForm (w : World) (req : Request) : M Form :=
  ensure_tmp w;;
  try_catch (form_parse w req)
            (fun err => console_error "ERROR: Formidable parsing error:" err;; throw err).

(** [!file.filepath], evaluated only once [file] is known to be set. *)
Definition no_filepath (f : option File) : bool :=
  match f with
  | Some x => negb (Js.truthy (Some (filepath x)))
  | None => true
  end.

Definition handler (w : World) (req : Request) : M (Response Js.Val) :=
  if negb (String.eqb (method req) "POST") then
    mret (method_not_allowed
      "This endpoint only accepts POST requests for video uploads and metadata saving.")
  else
    try_catch
      (form ← parseForm w req;
       let title := Js.first_or_self (fields form !! "title") in
       let description := Js.first_or_self (fields form !! "description") in
       let duration := Js.parseInt (Js.first_or_self (fields form !! "duration")) in
       let isPremium := extract_isPremium (fields form !! "isPremium") in
       let genre := extract_optional (fields form !! "genre") in
       let tags := extract_optional (fields form !! "tags") in
       let videoFile := first_file (files form !! "videoFile") in
       let thumbnailFile := first_file (files form !! "thumbnailFile") in
       if negb (Js.truthy title) || negb (Js.truthy description)
          || Js.isNaN duration
          || negb (bool_decide (is_Some videoFile))
          || negb (bool_decide (is_Some thumbnailFile))
          || no_filepath videoFile || no_filepath thumbnailFile
       then
         mret (bad_request
           "Missing required fields or invalid data. Please ensure all mandatory fields (Title, Description, Duration) are filled, and both Video File and Thumbnail Image are selected and valid.")
       else
         vf ← deref videoFile;
         videoFileBuffer ← readFile (filepath vf);
         videoBlob ← public_put w vf videoFileBuffer;
         tf ← deref thumbnailFile;
         thumbnailFileBuffer ← readFile (filepath tf);
         thumbnailBlob ← public_put w tf thumbnailFileBuffer;
         try_catch (unlink w (filepath vf);; unlink w (filepath tf))
                   (warn "WARNING: Failed to delete temporary files:");;
         date ← toISOString_now w;
         let videoData := videoData_of title description duration isPremium
                                       genre tags videoBlob thumbnailBlob date in
         newVideoDocument ← createDocument w videoData None;
         mret (ok newVideoDocument videoBlob thumbnailBlob))
      (fun error =>
         console_error "Error in upload-video API:" error;;
         mret (server_error
           "Failed to process video upload and save metadata. Please check server logs for details and try again."
           error)).

(** Validation here has no team identifier and insists on non-empty
    staging paths. *)
Definition rejected (form : Form) : Prop :=
  Js.truthy (title_of form) = false \/
  Js.truthy (description_of form) = false \/
  Js.isNaN (duration_of form) = true \/
  videoFile_of form = None \/
  thumbnailFile_of form = None \/
  no_filepath (videoFile_of form) = true \/
  no_filepath (thumbnailFile_of form) = true.

Definition well_formed (form : Form) (vf tf : File) : Prop :=
  Js.truthy (title_of form) = true /\
  Js.truthy (description_of form) = true /\
  Js.isNaN (duration_of form) = false /\
  videoFile_of form = Some vf /\
  thumbnailFile_of form = Some tf /\
  Js.truthy (Some (filepath vf)) = true /\
  Js.truthy (Some (filepath tf)) = true.

Inductive outcome (w : World) (req : Request) (s : State)
  : list Event -> Response Js.Val -> Prop :=
| out_method_not_allowed text :
    method req <> "POST" ->
    outcome w req s [] (method_not_allowed text)
| out_parse_failed text e s1 :
    method req = "POST" ->
    parseForm w req s = (inl e, s1) ->
    outcome w req s [] (server_error text e)
| out_rejected text form s1 :
    method req = "POST" ->
    parseForm w req s = (inr form, s1) ->
    rejected form ->
    outcome w req s [] (bad_request text)
| out_pipeline form s1 vf tf cs resp :
    method req = "POST" ->
    parseForm w req s = (inr form, s1) ->
    well_formed form vf tf ->
    pipeline (disk s1) form vf tf None cs resp ->
    outcome w req s cs resp.

End Cjs.

(** ** The busboy handler ([api/upload-video.js]): uploads held in memory *)

Module Busboy.

(** The [Blob] built from a file part, with its [name] property. *)
Record Blob := { name : Js.Val; type : Js.Val; data : bytes }.

(** A value stored in the [FormData]: a text field or a file. *)
Inductive Entry :=
| EStr (s : string)
| EBlob (b : Blob).

Definition FormData := list (string * Entry).

(** [formData.get(k)]: the first value appended under [k], else [null]. *)
Fixpoint get (fd : FormData) (k : string) : option Entry :=
  match fd with
  | [] => None
  | (k', v) :: r => if String.eqb k' k then Some v else get r k
  end.

(** [formData.has(k)] *)
Definition has (fd : FormData) (k : string) : bool :=
  bool_decide (is_Some (get fd k)).

(** [ToBoolean]: [null] and the empty string are falsy, objects truthy. *)
Definition truthy (v : option Entry) : bool :=
  match v with
  | None => false
  | Some (EStr s) => Js.truthy (Some s)
  | Some (EBlob _) => true
  end.

(** [ToString] of what [get] returns. *)
Definition ToString (v : option Entry) : string :=
  match v with
  | None => "null"
  | Some (EStr s) => s
  | Some (EBlob _) => "[object Blob]"
  end.

(** [v === 'true'] *)
Definition is_true_text (v : option Entry) : bool :=
  match v with
  | Some (EStr s) => String.eqb s "true"
  | _ => false
  end.

(** [v || ''] *)
Definition or_empty (v : option Entry) : option Entry :=
  if truthy v then v else Some (EStr "").

(** [file.name] and [file.type]; both [undefined] on a string. *)
Definition name_of (e : Entry) : Js.Val :=
  match e with
  | EStr _ => None
  | EBlob b => name b
  end.

Definition type_of (e : Entry) : Js.Val :=
  match e with
  | EStr _ => None
  | EBlob b => type b
  end.

Record Request := {
  method : string;
  content_type : Js.Val;
  parsed : JsError + FormData
}.

Abbreviation Value := (option Entry).

Inductive Event :=
| EvParse
| EvPut (pathname : Js.Val) (body : Entry) (opts : PutOptions)
        (r : JsError + PutBlobResult)
| EvCreateDocument (databaseId collectionId : Js.Val) (documentId : string)
                   (data : VideoData Value) (r : JsError + Document Value)
| EvError (label : string) (e : JsError).

Record World := {
  APPWRITE_DATABASE_ID : Js.Val;
  APPWRITE_COLLECTION_ID : Js.Val;
  blob_put : list Event -> Js.Val -> Entry -> PutOptions -> JsError + PutBlobResult;
  db_createDocument : list Event -> VideoData Value -> JsError + Document Value;
  now_iso : list Event -> string
}.

(** This handler keeps nothing on disk: its state is the calls made. *)
Definition State := list Event.

Abbreviation M := (Eff State).

Definition emit (ev : Event) : M unit := fun s => (inr tt, (s ++ [ev])%list).

Definition console_error (label : string) (e : JsError) : M unit :=
  emit (EvError label e).

Definition put (w : World) (pathname : Js.Val) (data : Entry) (opts : PutOptions)
  : M PutBlobResult := fun s =>
  let r := blob_put w s pathname data opts in
  (r, (s ++ [EvPut pathname data opts r])%list).

Definition createDocument (w : World) (data : VideoData Value)
  : M (Document Value) := fun s =>
  let r := db_createDocument w s data in
  (r, (s ++ [EvCreateDocument (APPWRITE_DATABASE_ID w) (APPWRITE_COLLECTION_ID w)
                              ID_unique data r])%list).

Definition toISOString_now (w : World) : M string := fun s => (inr (now_iso w s), s).

(** Property access on [null] is a [TypeError]. *)
Definition deref (v : Value) : M Entry :=
  match v with
  | Some e => mret e
  | None => throw {| message := "Cannot read properties of null" |}
  end.

(** Rejects at once without a [Content-Type] header; otherwise busboy
    consumes the body and the promise settles with its outcome. *)
Definition parseMultipartFormData (req : Request) : M FormData :=
  if negb (Js.truthy (content_type req)) then
    let e := {| message := "Missing request headers or Content-Type for multipart form data." |} in
    console_error "ERROR: Missing request headers or Content-Type." e;;
    throw e
  else
    emit EvParse;;
    match parsed req with
    | inl err => console_error "ERROR: Busboy parsing error:" err;; throw err
    | inr fd => mret fd
    end.

Definition handler (w : World) (req : Request) : M (Response Value) :=
  if negb (String.eqb (method req) "POST") then
    mret (method_not_allowed "This endpoint only accepts POST requests.")
  else
    try_catch
      (formData ← parseMultipartFormData req;
       let title := get formData "title" in
       let description := get formData "description" in
       let duration := Js.parseInt (Some (ToString (get formData "duration"))) in
       let isPremium :=
         if has formData "isPremium" then is_true_text (get formData "isPremium")
         else false in
       let genre := or_empty (get formData "genre") in
       let tags := or_empty (get formData "tags") in
       let videoFile := get formData "videoFile" in
       let thumbnailFile := get formData "thumbnailFile" in
       if negb (truthy title) || negb (truthy description) || Js.isNaN duration
          || negb (truthy videoFile) || negb (truthy thumbnailFile)
       then
         mret (bad_request
           "Missing required fields or invalid duration. Please ensure all mandatory fields are filled and both video and thumbnail files are selected.")
       else
         vf ← deref videoFile;
         videoBlob ← put w (name_of vf) vf
                       {| access := "public"; contentType := type_of vf |};
         tf ← deref thumbnailFile;
         thumbnailBlob ← put w (name_of tf) tf
                           {| access := "public"; contentType := type_of tf |};
         date ← toISOString_now w;
         let videoData := videoData_of title description duration isPremium
                                       genre tags videoBlob thumbnailBlob date in
         newVideoDocument ← createDocument w videoData;
         mret (ok newVideoDocument videoBlob thumbnailBlob))
      (fun error =>
         console_error "Error in upload-video API:" error;;
         mret (server_error
           "Failed to process video upload and save metadata. Please try again."
           error)).

(** Calls to the object-storage and document-store collaborators. *)
Definition is_collaborator_call (ev : Event) : bool :=
  match ev with
  | EvPut _ _ _ _ => true
  | EvCreateDocument _ _ _ _ _ => true
  | _ => false
  end.

Definition calls (evs : list Event) : list Event :=
  List.filter is_collaborator_call evs.

Definition events_since (s s' : State) : list Event := drop (List.length s) s'.

Definition call_succeeded (ev : Event) : bool :=
  match ev with
  | EvPut _ _ _ (inr _) => true
  | EvCreateDocument _ _ _ _ (inr _) => true
  | _ => false
  end.

Definition duration_of (fd : FormData) : Js.Num :=
  Js.parseInt (Some (ToString (get fd "duration"))).

Definition isPremium_of (fd : FormData) : bool :=
  if has fd "isPremium" then is_true_text (get fd "isPremium") else false.

Definition rejected (fd : FormData) : Prop :=
  truthy (get fd "title") = false \/
  truthy (get fd "description") = false \/
  Js.isNaN (duration_of fd) = true \/
  truthy (get fd "videoFile") = false \/
  truthy (get fd "thumbnailFile") = false.

Definition well_formed (fd : FormData) (vf tf : Entry) : Prop :=
  truthy (get fd "title") = true /\
  truthy (get fd "description") = true /\
  Js.isNaN (duration_of fd) = false /\
  get fd "videoFile" = Some vf /\ truthy (Some vf) = true /\
  get fd "thumbnailFile" = Some tf /\ truthy (Some tf) = true.

Definition put_options (e : Entry) : PutOptions :=
  {| access := "public"; contentType := type_of e |}.

Definition record_of (fd : FormData) (videoBlob thumbnailBlob : PutBlobResult)
    (date : string) : VideoData Value :=
  videoData_of (get fd "title") (get fd "description") (duration_of fd)
               (isPremium_of fd) (or_empty (get fd "genre")) (or_empty (get fd "tags"))
               videoBlob thumbnailBlob date.

End Busboy.


(** ** Where formidable places a staged file *)

(** Node's [path] module on POSIX, for absolute paths. *)
Module Path.

(** The segments of a path between its separators; [cur] is the segment
    being read. *)
Fixpoint split (s : string) (cur : string) : list string :=
  match s with
  | EmptyString => [cur]
  | String c r =>
      if Ascii.eqb c "/" then cur :: split r "" else split r (cur +:+ String c "")
  end.

(** Empty and [.] segments are dropped, [..] removes the segment before
    it, and is dropped at the root. *)
Definition resolve_segments (segs : list string) : list string :=
  fold_left (fun acc seg =>
               if String.eqb seg "" || String.eqb seg "." then acc
               else if String.eqb seg ".." then removelast acc
               else (acc ++ [seg])%list)
            segs [].

Fixpoint ends_with_separator (p : string) : bool :=
  match p with
  | EmptyString => false
  | String c EmptyString => Ascii.eqb c "/"
  | String _ r => ends_with_separator r
  end.

(** [path.normalize] of an absolute path: a trailing separator is kept. *)
Definition normalize (p : string) : string :=
  match resolve_segments (split p "") with
  | [] => "/"
  | segs =>
      "/" +:+ String.concat "/" segs +:+ (if ends_with_separator p then "/" else "")
  end.

(** [path.join(dir, name)]: an empty argument is left out. *)
Definition join (dir name : string) : string :=
  if String.eqb name "" then normalize dir else normalize (dir +:+ "/" +:+ name).

(** [path.resolve(dir)] in a process whose working directory is [cwd],
    for a relative [dir]: no trailing separator is kept. *)
Definition resolve (cwd dir : string) : string :=
  "/" +:+ String.concat "/" (resolve_segments (split (cwd +:+ "/" +:+ dir) "")).

End Path.

(** Formidable's [_joinDirectoryName], for an upload directory resolved to
    [dir]: the directory joined with the name, unless the result does not
    start with the directory, in which case the file is named
    [defaultInvalidName]. *)
Module Formidable.

Definition defaultInvalidName : string := "invalid-name".

Definition joinDirectoryName (dir name : string) : string :=
  let newPath := Path.join dir name in
  if String.prefix dir newPath then newPath else Path.join dir defaultInvalidName.

End Formidable.

(** ** Concrete requests and worlds *)

Module Scenario.

(** The working directory of the server process, and the upload directory
    as formidable resolves it. *)
Definition cwd : string := "/srv/app".
Definition staging_dir : string := Path.resolve cwd uploadDir.

Definition video_bytes : bytes := [x00; x00; x00; x18; x66; x74; x79; x70]%list.
Definition thumb_bytes : bytes := [xff; xd8; xff; xe0]%list.

Definition trailer : File :=
  {| filepath := "/srv/app/tmp/trailer.mp4";
     originalFilename := Some "trailer.mp4";
     mimetype := Some "video/mp4" |}.

Definition poster : File :=
  {| filepath := "/srv/app/tmp/poster.jpg";
     originalFilename := Some "poster.jpg";
     mimetype := Some "image/jpeg" |}.

Definition trailer_part : Part :=
  {| part_name := "trailer"; part_ext := ".mp4";
     part_originalFilename := Some "trailer.mp4";
     part_mimetype := Some "video/mp4";
     part_data := video_bytes |}.

Definition poster_part : Part :=
  {| part_name := "poster"; part_ext := ".jpg";
     part_originalFilename := Some "poster.jpg";
     part_mimetype := Some "image/jpeg";
     part_data := thumb_bytes |}.

(** The upload of the admin form, with a chosen title and duration text. *)
Definition form_of (title duration : string) : Form :=
  {| fields := list_to_map
       [("title", Js.PArr [title]);
        ("description", Js.PArr ["A short trailer"]);
        ("duration", Js.PArr [duration]);
        ("isPremium", Js.PArr ["true"]);
        ("genre", Js.PArr ["Action"]);
        ("tags", Js.PArr ["trailer,action"]);
        ("teamId", Js.PArr ["team_1"])];
     files := list_to_map
       [("videoFile", FMany [trailer]); ("thumbnailFile", FMany [poster])] |}.

Definition request_with (verb title duration : string) : Request :=
  {| method := verb;
     uploads := [trailer_part; poster_part];
     parsed := inr (form_of title duration) |}.

Definition request (title duration : string) : Request :=
  request_with "POST" title duration.

Definition is_put (ev : Event) : bool :=
  match ev with
  | EvPut _ _ _ _ => true
  | _ => false
  end.

Definition puts_so_far (h : list Event) : nat := List.length (List.filter is_put h).

Definition unavailable : JsError := {| message := "blob store unavailable" |}.

Definition stored (pathname : string) : PutBlobResult :=
  {| url := "https://blob.example/" +:+ pathname |}.

(** A world whose object store fails on its [n]-th call, if [failing] is
    [Some n], and whose document store fails when [db_down] is set.  Of two
    parts of one body written to the same path, the path ends up holding
    the bytes of the later one, followed by what the earlier one had written
    beyond their length. *)
Definition world (failing : option nat) (db_down : bool) : World :=
  {| APPWRITE_DATABASE_ID := Some "db";
     APPWRITE_COLLECTION_ID := Some "videos";
     mkdir_fault := None;
     joinDirectoryName := Formidable.joinDirectoryName staging_dir;
     overlapping_write := fun earlier later =>
       (later ++ drop (List.length later) earlier)%list;
     unlink_fault := fun _ _ => None;
     blob_put := fun h pathname _ _ =>
       if bool_decide (failing = Some (puts_so_far h)) then inl unavailable
       else inr (stored pathname);
     db_createDocument := fun _ data acl =>
       if db_down then inl {| message := "document store unavailable" |}
       else inr {| doc_id := "65f0c0ffee"; doc_data := data;
                   doc_permissions := default [] acl |};
     now_iso := fun _ => "2025-01-01T00:00:00.000Z" |}.

Definition world_ok : World := world None false.
Definition world_video_put_fails : World := world (Some 0%nat) false.
Definition world_thumbnail_put_fails : World := world (Some 1%nat) false.

Definition state0 : State := {| disk := ∅; tmp_exists := false; trace := [] |}.

(** Two uploads by different clients that declare the same file name. *)
Definition alice_part : Part :=
  {| part_name := "clip"; part_ext := ".mp4";
     part_originalFilename := Some "clip.mp4";
     part_mimetype := Some "video/mp4";
     part_data := [x01; x02; x03]%list |}.

Definition bob_part : Part :=
  {| part_name := "clip"; part_ext := ".mp4";
     part_originalFilename := Some "clip.mp4";
     part_mimetype := Some "video/mp4";
     part_data := [x0a; x0b]%list |}.

Definition alice_request : Request :=
  {| method := "POST"; uploads := [alice_part; poster_part];
     parsed := inr (form_of "Alice's clip" "30") |}.

Definition bob_request : Request :=
  {| method := "POST"; uploads := [bob_part; poster_part];
     parsed := inr (form_of "Bob's clip" "45") |}.

(** The same upload as the busboy handler sees it. *)
Definition trailer_blob : Busboy.Entry :=
  Busboy.EBlob {| Busboy.name := Some "trailer.mp4";
                  Busboy.type := Some "video/mp4";
                  Busboy.data := video_bytes |}.

Definition poster_blob : Busboy.Entry :=
  Busboy.EBlob {| Busboy.name := Some "poster.jpg";
                  Busboy.type := Some "image/jpeg";
                  Busboy.data := thumb_bytes |}.

Definition formData_of (title duration : string) : Busboy.FormData :=
  [("title", Busboy.EStr title);
   ("description", Busboy.EStr "A short trailer");
   ("duration", Busboy.EStr duration);
   ("isPremium", Busboy.EStr "true");
   ("genre", Busboy.EStr "Action");
   ("tags", Busboy.EStr "trailer,action");
   ("videoFile", trailer_blob);
   ("thumbnailFile", poster_blob)].

Definition busboy_request_with (verb title duration : string) : Busboy.Request :=
  {| Busboy.method := verb;
     Busboy.content_type := Some "multipart/form-data; boundary=x";
     Busboy.parsed := inr (formData_of title duration) |}.

Definition busboy_world : Busboy.World :=
  {| Busboy.APPWRITE_DATABASE_ID := Some "db";
     Busboy.APPWRITE_COLLECTION_ID := Some "videos";
     Busboy.blob_put := fun _ pathname _ _ => inr (stored (Js.ToString pathname));
     Busboy.db_createDocument := fun _ data =>
       inr {| doc_id := "65f0c0ffee"; doc_data := data; doc_permissions := [] |};
     Busboy.now_iso := fun _ => "2025-01-01T00:00:00.000Z" |}.

End Scenario.

(** Whether an access-control list grants [action] to [role]. *)
Definition grants (acl : list Permission) (action : Action) (role : Role) : Prop :=
  In {| perm_action := action; perm_role := role |} acl.

(** What it would take for failure responses to be tagged with the
    storage stage that failed: some reading [classify] of the response
    tells the two stages apart on every run. *)
Definition tags_storage_stage (classify : Response Js.Val -> option Stage) : Prop :=
  forall w req s resp s',
    handler w req s = (inr resp, s') ->
    (forall n b o e,
        calls (events_since s s') = [EvPut n b o (inl e)] ->
        classify resp = Some StageVideo) /\
    (forall n1 b1 o1 vb n2 b2 o2 e,
        calls (events_since s s') = [EvPut n1 b1 o1 (inr vb); EvPut n2 b2 o2 (inl e)] ->
        classify resp = Some StageThumbnail).

(** ** Further observations on runs *)

Definition is_unlink (ev : Event) : bool :=
  match ev with
  | EvUnlink _ _ => true
  | _ => false
  end.

(** The attempts to remove a file, in order. *)
Definition unlink_events (evs : list Event) : list Event := List.filter is_unlink evs.

(** The shapes that the collaborator calls of a run of the busboy handler
    can take, each with the status it is answered with. *)
Definition busboy_in_stage_order (cs : list Busboy.Event) (code : Z) : Prop :=
  match cs with
  | [] => code = 405 \/ code = 400 \/ code = 500
  | [Busboy.EvPut _ _ _ (inl _)] => code = 500
  | [Busboy.EvPut _ _ _ (inr _); Busboy.EvPut _ _ _ (inl _)] => code = 500
  | [Busboy.EvPut _ _ _ (inr vb); Busboy.EvPut _ _ _ (inr tb);
     Busboy.EvCreateDocument _ _ _ data (inl _)] =>
      code = 500 /\ vd_videoUrl data = url vb /\ vd_thumbnailUrl data = url tb
  | [Busboy.EvPut _ _ _ (inr vb); Busboy.EvPut _ _ _ (inr tb);
     Busboy.EvCreateDocument _ _ _ data (inr _)] =>
      code = 200 /\ vd_videoUrl data = url vb /\ vd_thumbnailUrl data = url tb
  | _ => False
  end.

(** ** Further concrete requests and worlds *)

Module Cases.

(** A world whose disk refuses to make the staging directory. *)
Definition world_read_only : World :=
  {| APPWRITE_DATABASE_ID := Some "db";
     APPWRITE_COLLECTION_ID := Some "videos";
     mkdir_fault := Some {| message := "EROFS: read-only file system, mkdir './tmp'" |};
     joinDirectoryName := joinDirectoryName Scenario.world_ok;
     overlapping_write := overlapping_write Scenario.world_ok;
     unlink_fault := fun _ _ => None;
     blob_put := blob_put Scenario.world_ok;
     db_createDocument := db_createDocument Scenario.world_ok;
     now_iso := now_iso Scenario.world_ok |}.


End Cases.

Module Cases2.

(** A video and a thumbnail that their client both named [a.bin]. *)
Definition same_name_video : Part :=
  {| part_name := "a"; part_ext := ".bin";
     part_originalFilename := Some "a.bin";
     part_mimetype := Some "video/mp4";
     part_data := Scenario.video_bytes |}.

Definition same_name_thumbnail : Part :=
  {| part_name := "a"; part_ext := ".bin";
     part_originalFilename := Some "a.bin";
     part_mimetype := Some "image/jpeg";
     part_data := Scenario.thumb_bytes |}.

Definition file_of (p : Part) : File :=
  {| filepath := staged_path Scenario.world_ok p;
     originalFilename := part_originalFilename p;
     mimetype := part_mimetype p |}.

Definition same_name_request : Request :=
  {| method := "POST";
     uploads := [same_name_video; same_name_thumbnail];
     parsed := inr
       {| fields := fields (Scenario.form_of "Trailer" "120");
          files := list_to_map
            [("videoFile", FMany [file_of same_name_video]);
             ("thumbnailFile", FMany [file_of same_name_thumbnail])] |} |}.

(** The admin form's upload without the team identifier. *)
Definition form_without_team : Form :=
  {| fields := delete "teamId" (fields (Scenario.form_of "Trailer" "120"));
     files := files (Scenario.form_of "Trailer" "120") |}.

Definition request_without_team : Request :=
  {| method := "POST";
     uploads := [Scenario.trailer_part; Scenario.poster_part];
     parsed := inr form_without_team |}.

(** A world whose disk refuses to remove the staged video. *)
Definition world_video_pinned : World :=
  {| APPWRITE_DATABASE_ID := Some "db";
     APPWRITE_COLLECTION_ID := Some "videos";
     mkdir_fault := None;
     joinDirectoryName := joinDirectoryName Scenario.world_ok;
     overlapping_write := overlapping_write Scenario.world_ok;
     unlink_fault := fun _ p =>
       if String.eqb p "/srv/app/tmp/trailer.mp4"
       then Some {| message := "EBUSY: resource busy or locked" |}
       else None;
     blob_put := blob_put Scenario.world_ok;
     db_createDocument := db_createDocument Scenario.world_ok;
     now_iso := now_iso Scenario.world_ok |}.

End Cases2.

Module Cases5.

(** A duration of four hundred nines. *)
Definition nines : string := string_of_list_ascii (repeat "9"%char 400).

End Cases5.

(** ** What busboy reports while it reads a body *)

Module BusboyStream.

(** One part of the body as busboy reports it: a ['field'] event, or a
    ['file'] event followed by the ['data'] chunks of the file stream and
    then its ['end'], or its ['error'] in place of the ['end']. *)
Inductive PartEvent :=
| Field (name val : string)
| FilePart (name : string) (filename mimeType : Js.Val) (chunks : list bytes)
           (failure : option JsError).

(** How the parse ends: ['close'], or ['error'] on the parser. *)
Inductive Ending :=
| Close
| Error (e : JsError).

(** [Buffer.concat([fileBuffer, data])] over the chunks, from an empty
    buffer. *)
Definition accumulate (chunks : list bytes) : bytes :=
  fold_left (fun fileBuffer data => (fileBuffer ++ data)%list) chunks [].

(** The handlers registered on the parser, run over the parts in order:
    each completed part is appended to the [FormData]; the first file
    stream error rejects the promise, after which nothing matters. *)
Fixpoint collect (parts : list PartEvent) (formData : Busboy.FormData)
  : JsError + Busboy.FormData :=
  match parts with
  | [] => inr formData
  | Field name val :: rest =>
      collect rest (formData ++ [(name, Busboy.EStr val)])%list
  | FilePart name filename mimeType chunks None :: rest =>
      collect rest
        (formData ++ [(name, Busboy.EBlob {| Busboy.name := filename;
                                             Busboy.type := mimeType;
                                             Busboy.data := accumulate chunks |})])%list
  | FilePart _ _ _ _ (Some err) :: _ => inl err
  end.

(** How the promise of [parseMultipartFormData] settles. *)
Definition settle (parts : list PartEvent) (ending : Ending)
  : JsError + Busboy.FormData :=
  match collect parts [] with
  | inl err => inl err
  | inr formData =>
      match ending with
      | Close => inr formData
      | Error err => inl err
      end
  end.

(** The entry that a part contributes, if it completes. *)
Definition entry_of (p : PartEvent) : option (string * Busboy.Entry) :=
  match p with
  | Field name val => Some (name, Busboy.EStr val)
  | FilePart name filename mimeType chunks None =>
      Some (name, Busboy.EBlob {| Busboy.name := filename;
                                  Busboy.type := mimeType;
                                  Busboy.data := accumulate chunks |})
  | FilePart _ _ _ _ (Some _) => None
  end.

Definition part_name_of (p : PartEvent) : string :=
  match p with
  | Field name _ => name
  | FilePart name _ _ _ _ => name
  end.

Definition part_failed (p : PartEvent) : bool :=
  match p with
  | FilePart _ _ _ _ (Some _) => true
  | _ => false
  end.

End BusboyStream.

Module Cases3.

(** The admin form's upload, sent without a [Content-Type] header. *)
Definition request_without_content_type : Busboy.Request :=
  {| Busboy.method := "POST";
     Busboy.content_type := None;
     Busboy.parsed := inr (Scenario.formData_of "Trailer" "120") |}.

(** A body with two titles, a video that arrives in two chunks, and a
    thumbnail whose stream ends without any data. *)
Definition parts_two_titles : list BusboyStream.PartEvent :=
  [BusboyStream.Field "title" "First";
   BusboyStream.Field "description" "A short trailer";
   BusboyStream.Field "duration" "120";
   BusboyStream.Field "title" "Second";
   BusboyStream.FilePart "videoFile" (Some "trailer.mp4") (Some "video/mp4")
     [[x00; x00]%list; [x00; x18]%list] None;
   BusboyStream.FilePart "thumbnailFile" (Some "poster.jpg") (Some "image/jpeg")
     [] None].

Definition request_of_parts (parts : list BusboyStream.PartEvent)
    (ending : BusboyStream.Ending) : Busboy.Request :=
  {| Busboy.method := "POST";
     Busboy.content_type := Some "multipart/form-data; boundary=x";
     Busboy.parsed := BusboyStream.settle parts ending |}.

(** A body whose video stream breaks; the thumbnail that follows is fine. *)
Definition parts_broken_video : list BusboyStream.PartEvent :=
  [BusboyStream.Field "title" "Trailer";
   BusboyStream.FilePart "videoFile" (Some "trailer.mp4") (Some "video/mp4")
     [[x00; x00]%list] (Some {| message := "Unexpected end of file" |});
   BusboyStream.FilePart "thumbnailFile" (Some "poster.jpg") (Some "image/jpeg")
     [Scenario.thumb_bytes] None].

(** The admin form's fields with the video sent as a text field. *)
Definition formData_text_video : Busboy.FormData :=
  [("title", Busboy.EStr "Trailer");
   ("description", Busboy.EStr "A short trailer");
   ("duration", Busboy.EStr "120");
   ("videoFile", Busboy.EStr "not a file");
   ("thumbnailFile", Scenario.poster_blob)].

End Cases3.

(** ** More of JavaScript, as the upload form uses it *)

Module JsText.

(** Value of a radix-16 digit. *)
Definition hex_digit_of (c : ascii) : option Z :=
  let n := nat_of_ascii c in
  if (Nat.leb 48 n && Nat.leb n 57)%bool then Some (Z.of_nat n - 48)
  else if (Nat.leb 97 n && Nat.leb n 102)%bool then Some (Z.of_nat n - 87)
  else if (Nat.leb 65 n && Nat.leb n 70)%bool then Some (Z.of_nat n - 55)
  else None.

Fixpoint read_hex (s : string) (acc : option Z) : option Z :=
  match s with
  | EmptyString => acc
  | String c r =>
      match hex_digit_of c with
      | Some d => read_hex r (Some (16 * default 0 acc + d))
      | None => acc
      end
  end.

(** The text after a leading [0x] or [0X], if there is one. *)
Definition strip_hex_prefix (s : string) : option string :=
  match s with
  | String "0" (String "x" r) => Some r
  | String "0" (String "X" r) => Some r
  | _ => None
  end.

(** [parseInt(v)] without a radix: as [parseInt(v, 10)], except that a
    [0x] prefix after the sign switches to radix 16. *)
Definition parseInt_auto (v : Js.Val) : Js.Num :=
  let '(sign, text) := Js.take_sign (Js.skip_ws (Js.ToString v)) in
  match strip_hex_prefix text with
  | Some hex =>
      match read_hex hex None with
      | None => Js.NaN
      | Some n => Js.round_double (sign * n)
      end
  | None =>
      match Js.read_digits text None with
      | None => Js.NaN
      | Some n => Js.round_double (sign * n)
      end
  end.

Definition digit_char (d : Z) : ascii := ascii_of_nat (48 + Z.to_nat d).

(** The decimal digits of a non-negative integer, written in front of
    [acc]; [fuel] bounds the number of digits. *)
Fixpoint digits_of (fuel : nat) (n : Z) (acc : string) : string :=
  match fuel with
  | O => acc
  | S fuel' =>
      let acc' := String (digit_char (n mod 10)) acc in
      if n <? 10 then acc' else digits_of fuel' (n / 10) acc'
  end.

(** A non-negative integer in decimal. *)
Definition decimal (n : Z) : string := digits_of (S (Z.to_nat (Z.log2 n))) n "".

(** The number of decimal digits of a non-negative integer. *)
Definition width (n : Z) : Z := Z.of_nat (String.length (decimal n)).

(** The multiples of [10 ^ e] next to [a], below and above. *)
Definition neighbours (a e : Z) : list Z :=
  [a / 10 ^ e * 10 ^ e; (a / 10 ^ e + 1) * 10 ^ e]%list.

(** Whether [v] is nearer to [a] than [v'], or as near and with an even
    last digit at [10 ^ e]. *)
Definition nearer (a e v v' : Z) : bool :=
  (Z.abs (v - a) <? Z.abs (v' - a))
  || ((Z.abs (v - a) =? Z.abs (v' - a)) && Z.even (v / 10 ^ e)).

(** The integer with the fewest significant digits that is read back as
    the double [a], the nearest to [a] if there are several; [k] is the
    number of significant digits tried next and [w] the width of [a]. *)
Fixpoint shortest_from (fuel : nat) (a w k : Z) : Z :=
  match fuel with
  | O => a
  | S fuel' =>
      let e := w - k in
      match List.filter (fun v => Js.Num_eqb (Js.round_double v) (Js.Int a))
                        (neighbours a e) with
      | [] => shortest_from fuel' a w (k + 1)
      | [v] => v
      | v :: v' :: _ => if nearer a e v v' then v else v'
      end
  end.

Definition shortest (a : Z) : Z := shortest_from 17 a (width a) 1.

(** A text without its trailing zeros. *)
Fixpoint strip_zeros (s : string) : string :=
  match s with
  | EmptyString => EmptyString
  | String c r =>
      match strip_zeros r with
      | EmptyString => if Ascii.eqb c "0" then EmptyString else String c EmptyString
      | r' => String c r'
      end
  end.

(** The significant digits, a point after the first of them if there are
    more, then [e+] and the exponent. *)
Definition exponential (v : Z) : string :=
  match strip_zeros (decimal v) with
  | EmptyString => "0"
  | String d EmptyString => String d ("e+" +:+ decimal (width v - 1))
  | String d r => String d ("." +:+ r +:+ "e+" +:+ decimal (width v - 1))
  end.

(** [Number.prototype.toString] on a non-negative double with an integral
    value: the digits that read back as that double, written in full below
    10^21 and with an exponent from there on. *)
Definition magnitude_toString (a : Z) : string :=
  let v := if a <? 2 ^ 53 then a else shortest a in
  if v <? 10 ^ 21 then decimal v else exponential v.

Definition Number_toString (x : Js.Num) : string :=
  match x with
  | Js.NaN => "NaN"
  | Js.Inf negative => if negative then "-Infinity" else "Infinity"
  | Js.Int n => if n <? 0 then "-" +:+ magnitude_toString (- n) else magnitude_toString n
  end.

(** [Boolean.prototype.toString] *)
Definition Boolean_toString (b : bool) : string := if b then "true" else "false".

(** [s.startsWith(p)] *)
Definition startsWith (s p : string) : bool := String.prefix p s.

(** [s.split(',')]: the pieces between commas; one piece for a text
    without comma, the empty text included. *)
Fixpoint split_commas (s : string) : list string :=
  match s with
  | EmptyString => [EmptyString]
  | String c r =>
      if Ascii.eqb c ","
      then EmptyString :: split_commas r
      else match split_commas r with
           | piece :: pieces => String c piece :: pieces
           | [] => [String c EmptyString]
           end
  end.

End JsText.

(** ** The admin upload form ([AdminUploadPage]) *)

Module Admin.

(** A file chosen in a file input. *)
Record FileObj := { name : string; type : string; content : bytes }.

Record State := {
  title : string;
  description : string;
  duration : string;
  isPremium : bool;
  genre : string;
  tags : string;
  videoFile : option FileObj;
  thumbnailFile : option FileObj;
  appwriteUserId : string;
  appwriteTeamId : string;
  loading : bool;
  successMessage : string;
  errorMessage : string
}.

(** The state on first render. *)
Definition initial : State :=
  {| title := ""; description := ""; duration := ""; isPremium := false;
     genre := ""; tags := ""; videoFile := None; thumbnailFile := None;
     appwriteUserId := ""; appwriteTeamId := "";
     loading := false; successMessage := ""; errorMessage := "" |}.

(** The text inputs, each with the setter that [handleTextChange] is
    given for it. *)
Inductive TextInput :=
| Title | Description | Duration | Genre | Tags | AppwriteUserId | AppwriteTeamId.

Definition setText (input : TextInput) (value : string) (st : State) : State :=
  {| title := match input with Title => value | _ => title st end;
     description := match input with Description => value | _ => description st end;
     duration := match input with Duration => value | _ => duration st end;
     isPremium := isPremium st;
     genre := match input with Genre => value | _ => genre st end;
     tags := match input with Tags => value | _ => tags st end;
     videoFile := videoFile st;
     thumbnailFile := thumbnailFile st;
     appwriteUserId := match input with AppwriteUserId => value | _ => appwriteUserId st end;
     appwriteTeamId := match input with AppwriteTeamId => value | _ => appwriteTeamId st end;
     loading := loading st;
     successMessage := successMessage st;
     errorMessage := errorMessage st |}.

Definition setIsPremium (checked : bool) (st : State) : State :=
  {| title := title st; description := description st; duration := duration st;
     isPremium := checked;
     genre := genre st; tags := tags st;
     videoFile := videoFile st; thumbnailFile := thumbnailFile st;
     appwriteUserId := appwriteUserId st; appwriteTeamId := appwriteTeamId st;
     loading := loading st; successMessage := successMessage st;
     errorMessage := errorMessage st |}.

Definition setVideoFile (f : option FileObj) (st : State) : State :=
  {| title := title st; description := description st; duration := duration st;
     isPremium := isPremium st; genre := genre st; tags := tags st;
     videoFile := f; thumbnailFile := thumbnailFile st;
     appwriteUserId := appwriteUserId st; appwriteTeamId := appwriteTeamId st;
     loading := loading st; successMessage := successMessage st;
     errorMessage := errorMessage st |}.

Definition setThumbnailFile (f : option FileObj) (st : State) : State :=
  {| title := title st; description := description st; duration := duration st;
     isPremium := isPremium st; genre := genre st; tags := tags st;
     videoFile := videoFile st; thumbnailFile := f;
     appwriteUserId := appwriteUserId st; appwriteTeamId := appwriteTeamId st;
     loading := loading st; successMessage := successMessage st;
     errorMessage := errorMessage st |}.

Definition setLoading (b : bool) (st : State) : State :=
  {| title := title st; description := description st; duration := duration st;
     isPremium := isPremium st; genre := genre st; tags := tags st;
     videoFile := videoFile st; thumbnailFile := thumbnailFile st;
     appwriteUserId := appwriteUserId st; appwriteTeamId := appwriteTeamId st;
     loading := b; successMessage := successMessage st;
     errorMessage := errorMessage st |}.

Definition setSuccessMessage (m : string) (st : State) : State :=
  {| title := title st; description := description st; duration := duration st;
     isPremium := isPremium st; genre := genre st; tags := tags st;
     videoFile := videoFile st; thumbnailFile := thumbnailFile st;
     appwriteUserId := appwriteUserId st; appwriteTeamId := appwriteTeamId st;
     loading := loading st; successMessage := m;
     errorMessage := errorMessage st |}.

Definition setErrorMessage (m : string) (st : State) : State :=
  {| title := title st; description := description st; duration := duration st;
     isPremium := isPremium st; genre := genre st; tags := tags st;
     videoFile := videoFile st; thumbnailFile := thumbnailFile st;
     appwriteUserId := appwriteUserId st; appwriteTeamId := appwriteTeamId st;
     loading := loading st; successMessage := successMessage st;
     errorMessage := m |}.

Definition handleTextChange (input : TextInput) (value : string) (st : State) : State :=
  setSuccessMessage "" (setErrorMessage "" (setText input value st)).

(** [e.target.files ? e.target.files[0] : null] *)
Definition first_chosen (files : option (list FileObj)) : option FileObj :=
  match files with
  | Some l => head l
  | None => None
  end.

Definition handleVideoFileChange (files : option (list FileObj)) (st : State) : State :=
  match first_chosen files with
  | Some file =>
      if JsText.startsWith (type file) "video/"
      then setErrorMessage "" (setVideoFile (Some file) st)
      else setErrorMessage "Please select a valid video file (e.g., .mp4, .mov)."
                           (setVideoFile None st)
  | None =>
      setErrorMessage "Please select a valid video file (e.g., .mp4, .mov)."
                      (setVideoFile None st)
  end.

Definition handleThumbnailFileChange (files : option (list FileObj)) (st : State) : State :=
  match first_chosen files with
  | Some file =>
      if JsText.startsWith (type file) "image/"
      then setErrorMessage "" (setThumbnailFile (Some file) st)
      else setErrorMessage "Please select a valid image file (e.g., .jpg, .png)."
                           (setThumbnailFile None st)
  | None =>
      setErrorMessage "Please select a valid image file (e.g., .jpg, .png)."
                      (setThumbnailFile None st)
  end.

(** A value appended to the outgoing [FormData]. *)
Inductive FormValue :=
| Text (s : string)
| Upload (f : FileObj).

Definition FormData := list (string * FormValue).

(** What [fetch] and [response.json()] can come to: the request fails, the
    body is not JSON, or the body parses and has these [message] and
    [error] properties. *)
Inductive Fetched :=
| NetworkFailure
| Unreadable (ok : bool)
| Answer (ok : bool) (message error : Js.Val).

(** A state value appended to a [FormData]: a file as it is, [null] as
    the text "null". *)
Definition form_value (f : option FileObj) : FormValue :=
  match f with
  | Some file => Upload file
  | None => Text "null"
  end.

(** The [FormData] that [handleSubmit] builds, in the order of its
    [append] calls. *)
Definition formData_of (st : State) : FormData :=
  [("title", Text (Js.trim (title st)));
   ("description", Text (Js.trim (description st)));
   ("duration", Text (JsText.Number_toString (Js.parseInt (Some (duration st)))));
   ("isPremium", Text (JsText.Boolean_toString (isPremium st)));
   ("genre", Text (Js.trim (genre st)));
   ("tags", Text (Js.trim (tags st)));
   ("videoFile", form_value (videoFile st));
   ("thumbnailFile", form_value (thumbnailFile st));
   ("userId", Text (Js.trim (appwriteUserId st)));
   ("teamId", Text (Js.trim (appwriteTeamId st)))].

(** The resets after a successful upload. *)
Definition reset_inputs (st : State) : State :=
  setThumbnailFile None (setVideoFile None
    (setText Tags "" (setText Genre "" (setIsPremium false
      (setText Duration "" (setText Description "" (setText Title "" st))))))).

(** [handleSubmit]: the state once the handler has run to its end, and the
    [FormData] posted to [/api/upload-video], if any.  [fetch] stands for the
    network and the server. *)
Definition handleSubmit (fetch : FormData -> Fetched) (st : State)
  : State * option FormData :=
  let st1 := setErrorMessage "" (setSuccessMessage "" (setLoading true st)) in
  if negb (Js.truthy (Some (Js.trim (title st))))
     || negb (Js.truthy (Some (Js.trim (description st))))
     || Js.isNaN (JsText.parseInt_auto (Some (duration st)))
     || negb (bool_decide (is_Some (videoFile st)))
     || negb (bool_decide (is_Some (thumbnailFile st)))
     || negb (Js.truthy (Some (Js.trim (appwriteUserId st))))
     || negb (Js.truthy (Some (Js.trim (appwriteTeamId st))))
  then
    (setLoading false
       (setErrorMessage
          "Please fill in all required fields, select both files, and provide valid Appwrite User/Team IDs."
          st1),
     None)
  else
    let formData := formData_of st in
    let st2 :=
      match fetch formData with
      | Answer true _ _ =>
          reset_inputs
            (setSuccessMessage "Video uploaded and metadata saved successfully!" st1)
      | Answer false message error =>
          setErrorMessage
            (Js.or_else message
               (Js.or_else error "An unknown error occurred during upload."))
            st1
      | NetworkFailure | Unreadable _ =>
          setErrorMessage
            "Failed to connect to the upload service. Please check your network or try again."
            st1
      end in
    (setLoading false st2, Some formData).

(** What happens on the page. *)
Inductive Event :=
| TextChange (input : TextInput) (value : string)
| PremiumChange (checked : bool)
| VideoFileChange (files : option (list FileObj))
| ThumbnailFileChange (files : option (list FileObj))
| Submit (fetch : FormData -> Fetched).

Definition step (st : State) (ev : Event) : State :=
  match ev with
  | TextChange input value => handleTextChange input value st
  | PremiumChange checked => setIsPremium checked st
  | VideoFileChange files => handleVideoFileChange files st
  | ThumbnailFileChange files => handleThumbnailFileChange files st
  | Submit fetch => fst (handleSubmit fetch st)
  end.

Definition run (evs : list Event) : State := fold_left step evs initial.

(** The text sent under a name. *)
Fixpoint text_of (fd : FormData) (k : string) : option string :=
  match fd with
  | [] => None
  | (k', Text s) :: r => if String.eqb k' k then Some s else text_of r k
  | (k', Upload _) :: r => if String.eqb k' k then None else text_of r k
  end.

(** The file sent under a name. *)
Fixpoint upload_of (fd : FormData) (k : string) : option FileObj :=
  match fd with
  | [] => None
  | (k', Upload f) :: r => if String.eqb k' k then Some f else upload_of r k
  | (k', Text _) :: r => if String.eqb k' k then None else upload_of r k
  end.

(** A form parsed by formidable carries what the page sent when every text
    the page sent is the (first) value of the field of that name and both
    file parts arrived. *)
Definition delivered (fd : FormData) (form : Form) : Prop :=
  (forall k v, text_of fd k = Some v -> Js.first_or_self (fields form !! k) = Some v) /\
  is_Some (videoFile_of form) /\
  is_Some (thumbnailFile_of form).

(** The body that [response.json()] yields for an answer of the server:
    its [message] and [error] properties. *)
Definition answer_of {V} (resp : Response V) : Fetched :=
  let ok := (200 <=? status resp) && (status resp <=? 299) in
  match body resp with
  | ErrorBody error msg _ => Answer ok msg (Some error)
  | SuccessBody msg _ _ _ => Answer ok (Some msg) None
  end.

End Admin.


Module Cases4.

Definition clip : Admin.FileObj :=
  {| Admin.name := "trailer.mp4"; Admin.type := "video/mp4";
     Admin.content := Scenario.video_bytes |}.

Definition still : Admin.FileObj :=
  {| Admin.name := "poster.jpg"; Admin.type := "image/jpeg";
     Admin.content := Scenario.thumb_bytes |}.

(** The admin form filled in, with a chosen duration text. *)
Definition filled (duration : string) : Admin.State :=
  {| Admin.title := "  Trailer ";
     Admin.description := "A short trailer";
     Admin.duration := duration;
     Admin.isPremium := true;
     Admin.genre := "Action";
     Admin.tags := "trailer, action";
     Admin.videoFile := Some clip;
     Admin.thumbnailFile := Some still;
     Admin.appwriteUserId := "user_1";
     Admin.appwriteTeamId := "team_1";
     Admin.loading := false;
     Admin.successMessage := "";
     Admin.errorMessage := "" |}.

(** A server that is never reached. *)
Definition offline : Admin.FormData -> Admin.Fetched := fun _ => Admin.NetworkFailure.

(** The form that formidable makes of what the page sent. *)
Definition form_from (fd : Admin.FormData) : Form :=
  {| fields := list_to_map
       (omap (fun kv => match snd kv with
                        | Admin.Text s => Some (fst kv, Js.PArr [s])
                        | Admin.Upload _ => None
                        end) fd);
     files := list_to_map
       [("videoFile", FMany [Scenario.trailer]);
        ("thumbnailFile", FMany [Scenario.poster])] |}.

End Cases4.

Module Cases6.

(** The request that reaches the server when the page posts [fd]. *)
Definition request_from (fd : Admin.FormData) : Request :=
  {| method := "POST";
     uploads := [Scenario.trailer_part; Scenario.poster_part];
     parsed := inr (Cases4.form_from fd) |}.

(** What the page posts for the filled form with a given duration text. *)
Definition posted (duration : string) : Admin.FormData :=
  Admin.formData_of (Cases4.filled duration).

(** The network and server of the scenario: the handler run on the request
    made of what the page posts, its answer read by the page. *)
Definition served (fd : Admin.FormData) : Admin.Fetched :=
  match fst (handler Scenario.world_ok (request_from fd) Scenario.state0) with
  | inr resp => Admin.answer_of resp
  | inl _ => Admin.NetworkFailure
  end.

End Cases6.

(** The files held by the page have the types its file inputs check for. *)
Definition checked_types (st : Admin.State) : Prop :=
  (forall f, Admin.videoFile st = Some f ->
             JsText.startsWith (Admin.type f) "video/" = true) /\
  (forall f, Admin.thumbnailFile st = Some f ->
             JsText.startsWith (Admin.type f) "image/" = true).

Module Cases7.

Definition notes : Admin.FileObj :=
  {| Admin.name := "notes.txt"; Admin.type := "text/plain";
     Admin.content := [x68; x69]%list |}.

(** A visit to the page: a video is chosen, then a text file in its
    place; a text file is offered as thumbnail, then an image. *)
Definition visit : list Admin.Event :=
  [Admin.TextChange Admin.Title "Trailer";
   Admin.VideoFileChange (Some [Cases4.clip]);
   Admin.ThumbnailFileChange (Some [notes]);
   Admin.ThumbnailFileChange (Some [Cases4.still]);
   Admin.Submit Cases4.offline;
   Admin.VideoFileChange (Some [notes]);
   Admin.VideoFileChange (Some [Cases4.clip; notes])].

End Cases7.

(** ** The pages of the site ([App], [HomePage], [VideoDetailPage]) *)

(** The list of videos ([components/HomePage.jsx]). *)
Module Home.

Record State := {
  videos : list (Document Js.Val);
  loading : bool;
  error : option string
}.

(** The state on first render. *)
Definition initial : State := {| videos := []; loading := true; error := None |}.

Definition setVideos (docs : list (Document Js.Val)) (st : State) : State :=
  {| videos := docs; loading := loading st; error := error st |}.

Definition setLoading (b : bool) (st : State) : State :=
  {| videos := videos st; loading := b; error := error st |}.

Definition setError (e : option string) (st : State) : State :=
  {| videos := videos st; loading := loading st; error := e |}.

(** How [databases.listDocuments] settles. *)
Inductive Listing :=
| Listed (documents : list (Document Js.Val))
| ListFailed (e : JsError).

(** The [ReferenceError] thrown when the [catch] block reads [err], which
    no scope declares (its parameter is [error]). *)
Definition err_is_not_defined : JsError := {| message := "err is not defined" |}.

(** [fectchVideos], run to its end: the state it leaves, the texts it
    logs with [console.error], and the error its promise rejects with, if
    any.  In the [catch] block the arguments of [console.error] are
    evaluated first; reading [err] throws, so neither the log nor [setError]
    is reached, and [finally] still runs. *)
Definition fectchVideos (listing : Listing) (st : State)
  : State * list string * option JsError :=
  let st1 := setError None (setLoading true st) in
  match listing with
  | Listed documents => (setLoading false (setVideos documents st1), [], None)
  | ListFailed _ => (setLoading false st1, [], Some err_is_not_defined)
  end.

(** The blocks of the page that are rendered. *)
Record View := {
  spinner : bool;
  banner : option string;
  stay_tuned : bool;
  grid : list (Document Js.Val)
}.

(** [error && (...)]: a block rendered for a non-empty text. *)
Definition shown (e : option string) : option string :=
  if Js.truthy e then e else None.

Definition render (st : State) : View :=
  let idle := negb (loading st) && negb (Js.truthy (error st)) in
  {| spinner := loading st;
     banner := shown (error st);
     stay_tuned := idle && (List.length (videos st) =? 0)%nat;
     grid := if idle && (0 <? List.length (videos st))%nat then videos st else [] |}.

(** [video.genre || "N/A"] *)
Definition genre_label (video : Document Js.Val) : string :=
  Js.or_else (vd_genre (doc_data video)) "N/A".

End Home.

(** One video ([components/videoDetailPage.jsx]). *)
Module Detail.

Record State := {
  video : option (Document Js.Val);
  loading : bool;
  error : option string
}.

Definition initial : State := {| video := None; loading := true; error := None |}.

Definition setVideo (v : option (Document Js.Val)) (st : State) : State :=
  {| video := v; loading := loading st; error := error st |}.

Definition setLoading (b : bool) (st : State) : State :=
  {| video := video st; loading := b; error := error st |}.

Definition setError (e : option string) (st : State) : State :=
  {| video := video st; loading := loading st; error := e |}.

(** How [databases.getDocument] settles. *)
Inductive Got :=
| Found (document : Document Js.Val)
| GetFailed (e : JsError).

(** [fetchVideo] for the [videoId] prop, run to its end: the state it
    leaves and the identifiers it asked the database for. *)
Definition fetchVideo (getDocument : string -> Got) (videoId : option string)
    (st : State) : State * list string :=
  match videoId with
  | Some id =>
      if Js.truthy (Some id) then
        let st1 := setError None (setLoading true st) in
        match getDocument id with
        | Found document => (setLoading false (setVideo (Some document) st1), [id])
        | GetFailed _ =>
            (setLoading false
               (setError
                  (Some "Failed to load video. It might not exist or there's a network issue.")
                  st1),
             [id])
        end
      else (setLoading false (setError (Some "No video ID provided.") st), [])
  | None => (setLoading false (setError (Some "No video ID provided.") st), [])
  end.

Record View := {
  spinner : bool;
  banner : option string;
  details : option (Document Js.Val)
}.

Definition render (st : State) : View :=
  {| spinner := loading st;
     banner := Home.shown (error st);
     details := if negb (loading st) && negb (Js.truthy (error st))
                then video st else None |}.

(** [video.genre || 'General'] *)
Definition genre_label (v : Document Js.Val) : string :=
  Js.or_else (vd_genre (doc_data v)) "General".

(** The tag chips: [video.tags && video.tags.split(',').map(...)], each
    chip a [#] followed by the trimmed tag. *)
Definition chips (tags : Js.Val) : list string :=
  match tags with
  | Some text =>
      if Js.truthy tags
      then map (fun tag => "#" +:+ Js.trim tag) (JsText.split_commas text)
      else []
  | None => []
  end.

(** The number of commas of a text. *)
Fixpoint commas (s : string) : nat :=
  match s with
  | EmptyString => 0
  | String c r => if Ascii.eqb c "," then S (commas r) else commas r
  end.

End Detail.

(** The shell that switches between the pages ([App.jsx]). *)
Module App.

Record State := {
  currentPage : string;
  selectedVideoId : option string
}.

Definition initial : State := {| currentPage := "home"; selectedVideoId := None |}.

Definition navigateToVideoDetail (videoId : string) (st : State) : State :=
  {| currentPage := "detail"; selectedVideoId := Some videoId |}.

Definition navigateToHome (st : State) : State :=
  {| currentPage := "home"; selectedVideoId := None |}.

(** The [Upload] button: [setCurrentPage('upload')]. *)
Definition openUpload (st : State) : State :=
  {| currentPage := "upload"; selectedVideoId := selectedVideoId st |}.

(** The branch of the [switch] in [renderPage]. *)
Inductive Branch := CaseHome | CaseUpload | CaseDetail | CaseDefault.

Definition branch (st : State) : Branch :=
  if String.eqb (currentPage st) "home" then CaseHome
  else if String.eqb (currentPage st) "upload" then CaseUpload
  else if String.eqb (currentPage st) "detail" then CaseDetail
  else CaseDefault.

(** The page rendered, with the props it is given. *)
Inductive Page :=
| HomePage
| AdminUploadPage
| VideoDetailPage (videoId : option string).

Definition renderPage (st : State) : Page :=
  match branch st with
  | CaseHome => HomePage
  | CaseUpload => AdminUploadPage
  | CaseDetail => VideoDetailPage (selectedVideoId st)
  | CaseDefault => HomePage
  end.

(** What a visitor can do: the two buttons of the navigation bar, a click
    on a video of the home page, and the back button of the detail page. *)
Inductive Event :=
| ClickHome
| ClickUpload
| ClickVideo (video : Document Js.Val)
| ClickBack.

(** A click on a page that is not rendered cannot happen and changes
    nothing. *)
Definition step (st : State) (ev : Event) : State :=
  match ev with
  | ClickHome => navigateToHome st
  | ClickUpload => openUpload st
  | ClickVideo video =>
      match renderPage st with
      | HomePage => navigateToVideoDetail (doc_id video) st
      | _ => st
      end
  | ClickBack =>
      match renderPage st with
      | VideoDetailPage _ => navigateToHome st
      | _ => st
      end
  end.

Definition run (evs : list Event) : State := fold_left step evs initial.

End App.

Module Cases8.

(** A stored video, as the database lists it. *)
Definition stored_video (id : string) : Document Js.Val :=
  {| doc_id := id;
     doc_data := record_of (Scenario.form_of "Trailer" "120")
                           (Scenario.stored "trailer.mp4") (Scenario.stored "poster.jpg")
                           "2025-01-01T00:00:00.000Z";
     doc_permissions := [] |}.

Definition database_down : JsError := {| message := "Network request failed" |}.

(** A database that holds one video. *)
Definition getDocument (id : string) : Detail.Got :=
  if String.eqb id "v1" then Detail.Found (stored_video "v1")
  else Detail.GetFailed {| message := "Document with the requested ID could not be found." |}.

End Cases8.

(** * Properties *)

(** ** [parseInt] reads the longest leading decimal prefix *)

Lemma digit_value_digit_of c : Decimal.digit_value c = Js.digit_of c.
Proof. destruct c as [[] [] [] [] [] [] [] []]; reflexivity. Qed.

Lemma is_space_is_ws c : Decimal.is_space c = Js.is_ws c.
Proof. destruct c as [[] [] [] [] [] [] [] []]; reflexivity. Qed.

Lemma digit_not_ws c : Decimal.is_digit c = true -> Js.is_ws c = false.
Proof.
  destruct c as [[] [] [] [] [] [] [] []]; vm_compute; congruence.
Qed.

Lemma digit_not_sign c :
  Decimal.is_digit c = true -> c <> "-"%char /\ c <> "+"%char.
Proof.
  intros H; split; intros ->; vm_compute in H; discriminate.
Qed.

Lemma skip_ws_app ws r :
  Decimal.all_ws ws = true -> Js.skip_ws (ws +:+ r) = Js.skip_ws r.
Proof.
  induction ws as [|c ws IH]; simpl; [done|].
  intros [Hc Hws]%andb_prop. rewrite <- is_space_is_ws, Hc. auto.
Qed.

Lemma read_digits_app ds rest a :
  Decimal.all_digits ds = true ->
  Decimal.no_leading_digit rest = true ->
  Js.read_digits (ds +:+ rest) (Some a)
  = Some (fold_left (fun acc c => 10 * acc + default 0 (Decimal.digit_value c))
                    (list_ascii_of_string ds) a).
Proof.
  revert a. induction ds as [|c ds IH]; simpl; intros a Hd Hr.
  - destruct rest as [|c r]; simpl in *; [done|].
    unfold Decimal.is_digit in Hr. rewrite digit_value_digit_of in Hr.
    by destruct (Js.digit_of c).
  - apply andb_prop in Hd as [Hc Hd]. unfold Decimal.is_digit in Hc.
    rewrite digit_value_digit_of in *.
    destruct (Js.digit_of c) as [k|]; [|done]. simpl. by rewrite IH.
Qed.

Lemma read_digits_none s :
  Js.read_digits s None = None <-> Decimal.no_leading_digit s = true.
Proof.
  destruct s as [|c r]; simpl; [done|].
  unfold Decimal.is_digit. rewrite digit_value_digit_of.
  destruct (Js.digit_of c) as [k|]; simpl; [|done].
  split; [|done]. intros H. exfalso. revert H.
  generalize (10 * 0 + k). clear. induction r as [|c r IH]; simpl; intros a; [done|].
  destruct (Js.digit_of c); [apply IH|done].
Qed.

(** Every integer up to 2^53 in magnitude is a double. *)
Lemma round_double_exact x :
  Z.abs x <= Decimal.exact_bound -> Js.round_double x = Js.Int x.
Proof.
  unfold Decimal.exact_bound, Js.round_double. intros Hx.
  destruct (Z.abs x <? 2 ^ 53) eqn:Hlt; [done|].
  apply Z.ltb_ge in Hlt. assert (Habs : Z.abs x = 2 ^ 53) by lia.
  rewrite Habs.
  destruct (Z.abs_eq_or_opp x) as [E|E]; rewrite E in Habs.
  - subst x. reflexivity.
  - assert (x = - 2 ^ 53) as -> by lia. reflexivity.
Qed.

(** [round_double] agrees with IEEE 754 binary64 rounding to nearest, ties
    to even, around every power of two up to 2^130 and where doubles
    overflow. *)
Lemma round_double_is_binary64_rounding :
  forallb (fun x => Js.Num_eqb (Js.round_double x)
                               (Js.Num_of_binary64 (Js.binary64_of_Z x)))
          (List.concat (map Js.around_power_of_two (seq 0 130)) ++ Js.around_overflow)
  = true.
Proof. vm_compute. reflexivity. Qed.

(** A double is never [NaN] when it rounds an integer. *)
Lemma round_double_not_NaN x : Js.isNaN (Js.round_double x) = false.
Proof.
  unfold Js.round_double. cbv zeta.
  repeat match goal with
         | |- context [if ?c then _ else _] => destruct c
         end; reflexivity.
Qed.

(** On texts made of white space, an optional sign, a non-empty run of
    digits and a rest that starts with no digit, [parseInt] gives the double
    nearest to the signed decimal value of the run. *)
Lemma parseInt_decimal ws sg ds rest :
  Decimal.all_ws ws = true ->
  ds <> "" ->
  Decimal.all_digits ds = true ->
  Decimal.no_leading_digit rest = true ->
  Js.parseInt (Some (ws +:+ Decimal.sign_text sg +:+ ds +:+ rest))
  = Js.round_double (Decimal.sign_factor sg * Decimal.value ds).
Proof.
  intros Hws Hne Hds Hrest. unfold Js.parseInt, Js.ToString.
  rewrite (skip_ws_app _ _ Hws).
  destruct ds as [|c ds]; [done|]. simpl in Hds.
  apply andb_prop in Hds as [Hc Hds].
  pose proof (digit_not_ws _ Hc) as Hnw.
  pose proof (digit_not_sign _ Hc) as [Hm Hp].
  assert (Hbody : forall sign,
    match Js.read_digits (String c ds +:+ rest) None with
    | Some n => Js.round_double (sign * n) | None => Js.NaN end
    = Js.round_double (sign * Decimal.value (String c ds))).
  { intros sign. simpl. unfold Decimal.is_digit in Hc.
    rewrite digit_value_digit_of in Hc.
    destruct (Js.digit_of c) as [k|] eqn:Hk; [|done].
    rewrite read_digits_app by done. unfold Decimal.value. simpl.
    by rewrite digit_value_digit_of, Hk. }
  destruct sg; simpl Decimal.sign_text; simpl Decimal.sign_factor.
  - simpl Js.skip_ws. simpl Js.take_sign. cbv iota beta. apply Hbody.
  - simpl Js.skip_ws. simpl Js.take_sign. cbv iota beta. apply Hbody.
  - change ("" +:+ String c ds +:+ rest) with (String c (ds +:+ rest)).
    simpl Js.skip_ws. rewrite Hnw.
    assert (Hts : Js.take_sign (String c (ds +:+ rest)) = (1, String c (ds +:+ rest))).
    { unfold Js.take_sign.
      destruct c as [[] [] [] [] [] [] [] []]; try reflexivity; congruence. }
    rewrite Hts. apply Hbody.
Qed.

Lemma digit_value_nonneg c : 0 <= default 0 (Decimal.digit_value c).
Proof. destruct c as [[] [] [] [] [] [] [] []]; apply Z.leb_le; reflexivity. Qed.

Lemma value_nonneg ds : 0 <= Decimal.value ds.
Proof.
  unfold Decimal.value.
  assert (H : forall l a, 0 <= a ->
            0 <= fold_left (fun acc c => 10 * acc + default 0 (Decimal.digit_value c)) l a).
  { induction l as [|c l IH]; simpl; intros a Ha; [done|].
    apply IH. pose proof (digit_value_nonneg c). lia. }
  apply H. lia.
Qed.

(** Up to 2^53 that double is the value itself. *)
Lemma parseInt_decimal_exact ws sg ds rest :
  Decimal.all_ws ws = true ->
  ds <> "" ->
  Decimal.all_digits ds = true ->
  Decimal.no_leading_digit rest = true ->
  Decimal.value ds <= Decimal.exact_bound ->
  Js.parseInt (Some (ws +:+ Decimal.sign_text sg +:+ ds +:+ rest))
  = Js.Int (Decimal.sign_factor sg * Decimal.value ds).
Proof.
  intros Hws Hne Hds Hrest Hb. rewrite parseInt_decimal by done.
  apply round_double_exact. pose proof (value_nonneg ds).
  destruct sg; simpl; lia.
Qed.

Lemma parseInt_NaN_iff v :
  Js.parseInt v = Js.NaN <->
  Decimal.no_leading_digit (snd (Js.take_sign (Js.skip_ws (Js.ToString v)))) = true.
Proof.
  unfold Js.parseInt. destruct (Js.take_sign _) as [sign rest]. simpl.
  rewrite <- read_digits_none.
  destruct (Js.read_digits rest None) as [n|]; [|done].
  pose proof (round_double_not_NaN (sign * n)) as Hn.
  split; [|done]. intros E. rewrite E in Hn. discriminate.
Qed.

Lemma isNaN_parseInt v : Js.isNaN (Js.parseInt v) = true <-> Js.parseInt v = Js.NaN.
Proof. destruct (Js.parseInt v); simpl; split; congruence. Qed.

(** ** Runs of the handlers *)

Lemma events_since_app s s' evs :
  trace s' = (trace s ++ evs)%list -> events_since s s' = evs.
Proof.
  intros H. unfold events_since. rewrite H. by rewrite drop_app_length.
Qed.

Lemma calls_app evs1 evs2 : calls (evs1 ++ evs2) = (calls evs1 ++ calls evs2)%list.
Proof. apply List.filter_app. Qed.

(** Unfolds the monad and the primitive operations. *)
Ltac unfold_run :=
  unfold unlink_if_staged, public_put, deref, warn, console_error;
  unfold mbind, Eff_bind, mret, Eff_ret, readFile, put, unlink, try_catch, emit,
    toISOString_now, createDocument, log, throw; simpl.

(** Case analysis on the innermost scrutinee, until none is left. *)
Ltac case_innermost :=
  repeat match goal with
  | |- context [match ?x with _ => _ end] =>
      lazymatch x with
      | context [match _ with _ => _ end] => fail
      | _ => destruct x eqn:?; simpl
      end
  end.

(** Reads the events of a finished run off its final trace. *)
Ltac read_events :=
  erewrite events_since_app by (simpl; rewrite <- ?app_assoc; reflexivity).

Section Parse.
Context (w : World) (req : Request) (s : State).

Lemma parseForm_trace r s1 :
  parseForm w req s = (r, s1) ->
  exists evs, trace s1 = (trace s ++ evs)%list /\ calls evs = [].
Proof.
  unfold parseForm, ensure_tmp, form_parse. unfold_run. intros H.
  destruct (tmp_exists s); [|destruct (mkdir_fault w)]; simpl in H;
    destruct (parsed req); simpl in H; inversion H; subst; clear H; simpl;
    rewrite <- ?app_assoc; eexists; split; try reflexivity; reflexivity.
Qed.

Lemma parseForm_parsed form s1 :
  parseForm w req s = (inr form, s1) -> parsed req = inr form.
Proof.
  unfold parseForm, ensure_tmp, form_parse. unfold_run. intros H.
  destruct (tmp_exists s); [|destruct (mkdir_fault w)]; simpl in H;
    destruct (parsed req); simpl in H; congruence.
Qed.

(** The parse stage stages every file part of the body, whatever its
    outcome, unless the staging directory could not be made. *)
Lemma parseForm_disk r s1 :
  parseForm w req s = (r, s1) ->
  disk s1 = staged w (uploads req) (disk s) \/
  (tmp_exists s = false /\ is_Some (mkdir_fault w) /\ disk s1 = disk s).
Proof.
  unfold parseForm, ensure_tmp, form_parse. unfold_run. intros H.
  destruct (tmp_exists s); [|destruct (mkdir_fault w)]; simpl in H;
    destruct (parsed req); simpl in H; inversion H; subst; clear H; simpl; eauto.
Qed.

End Parse.

Lemma rejected_or_well_formed form :
  rejected form \/ exists vf tf, well_formed form vf tf.
Proof.
  unfold rejected, well_formed.
  destruct (Js.truthy (title_of form)); [|tauto].
  destruct (Js.truthy (description_of form)); [|tauto].
  destruct (Js.isNaN (duration_of form)); [tauto|].
  destruct (videoFile_of form) as [vf|]; [|tauto].
  destruct (thumbnailFile_of form) as [tf|]; [|tauto].
  destruct (Js.truthy (teamId_of form)); [|tauto].
  right. exists vf, tf. tauto.
Qed.

Lemma rejected_not_well_formed form vf tf :
  rejected form -> well_formed form vf tf -> False.
Proof.
  unfold rejected, well_formed. intros H (H1 & H2 & H3 & H4 & H5 & H6).
  rewrite H1, H2, H3, H4, H5, H6 in H. intuition congruence.
Qed.

Section Handler.
Context (w : World) (req : Request) (s : State).

Lemma handler_not_post :
  method req <> "POST" ->
  handler w req s
  = (inr (method_not_allowed
       "This endpoint only accepts POST requests for video uploads and metadata saving."),
     s).
Proof.
  intros H. unfold handler.
  destruct (String.eqb_spec (method req) "POST") as [E|E]; [done|reflexivity].
Qed.

Lemma handler_parse_failed e s1 :
  method req = "POST" ->
  parseForm w req s = (inl e, s1) ->
  handler w req s
  = (inr (server_error
       "Failed to process video upload and save metadata. Please check server logs for details and try again."
       e),
     log (EvError "Error in upload-video API:" e) s1).
Proof.
  intros Hm Hp. unfold handler. rewrite Hm. simpl.
  unfold try_catch at 1. unfold mbind at 1, Eff_bind at 1. rewrite Hp. reflexivity.
Qed.

Lemma handler_rejected form s1 :
  method req = "POST" ->
  parseForm w req s = (inr form, s1) ->
  rejected form ->
  exists s',
    handler w req s = (inr (bad_request "Missing required fields or invalid data."), s')
    /\ calls (events_since s s') = []
    /\ tmp_exists s' = tmp_exists s1.
Proof.
  intros Hm Hp Hrej.
  destruct (parseForm_trace _ _ _ _ _ Hp) as (evs0 & Htr & Hc0).
  unfold handler. rewrite Hm. simpl.
  unfold try_catch at 1. unfold mbind at 1, Eff_bind at 1. rewrite Hp.
  fold (title_of form) (description_of form) (duration_text_of form) (teamId_of form)
       (videoFile_of form) (thumbnailFile_of form).
  fold (duration_of form).
  match goal with
  | |- context [if ?c then _ else _] => assert (Hc : c = true)
  end.
  { unfold rejected in Hrej.
    destruct Hrej as [H|[H|[H|[H|[H|H]]]]]; rewrite H; simpl;
      rewrite ?orb_true_r; reflexivity. }
  rewrite Hc. clear Hc Hrej.
  destruct s1 as [d1 x1 t1]; simpl in Htr; subst t1.
  destruct s as [d0 x0 t0]; simpl in *.
  unfold_run. case_innermost.
  all: eexists; (split; [reflexivity|]).
  all: read_events.
  all: rewrite ?calls_app, Hc0; split; reflexivity.
Qed.

Lemma handler_well_formed form s1 vf tf :
  method req = "POST" ->
  parseForm w req s = (inr form, s1) ->
  well_formed form vf tf ->
  exists resp s',
    handler w req s = (inr resp, s')
    /\ pipeline (disk s1) form vf tf (acl_of form) (calls (events_since s s')) resp.
Proof.
  intros Hm Hp (Ht & Hd & Hn & Hv & Hth & Hteam).
  destruct (parseForm_trace _ _ _ _ _ Hp) as (evs0 & Htr & Hc0).
  unfold handler. rewrite Hm. simpl.
  unfold try_catch at 1. unfold mbind at 1, Eff_bind at 1. rewrite Hp.
  fold (title_of form) (description_of form) (duration_text_of form) (teamId_of form)
       (videoFile_of form) (thumbnailFile_of form).
  fold (duration_of form).
  rewrite Ht, Hd, Hn, Hv, Hth, Hteam. simpl.
  destruct s1 as [d1 x1 t1]; simpl in Htr; subst t1.
  destruct s as [d0 x0 t0]; simpl in *.
  unfold_run. case_innermost.
  all: eexists _, _; (split; [reflexivity|]).
  all: read_events.
  all: rewrite calls_app, Hc0; simpl.
  all: econstructor; done.
Qed.

(** Every run ends with a response, and goes one of the ways of [outcome]. *)
Lemma handler_outcome r s' :
  handler w req s = (r, s') ->
  exists resp, r = inr resp /\ outcome w req s (calls (events_since s s')) resp.
Proof.
  intros Hrun.
  destruct (decide (method req = "POST")) as [Hm|Hm].
  - destruct (parseForm w req s) as [[e|form] s1] eqn:Hp.
    + rewrite (handler_parse_failed _ _ Hm Hp) in Hrun. inversion Hrun; subst.
      destruct (parseForm_trace _ _ _ _ _ Hp) as (evs0 & Htr & Hc0).
      eexists; split; [reflexivity|].
      erewrite events_since_app
        by (simpl; rewrite Htr, <- app_assoc; reflexivity).
      rewrite calls_app, Hc0. simpl. by eapply out_parse_failed.
    + destruct (rejected_or_well_formed form) as [Hrej|(vf & tf & Hwf)].
      * destruct (handler_rejected _ _ Hm Hp Hrej) as (s2 & Hrun' & Hc & _).
        rewrite Hrun' in Hrun. inversion Hrun; subst.
        eexists; split; [reflexivity|]. rewrite Hc. by eapply out_rejected.
      * destruct (handler_well_formed _ _ _ _ Hm Hp Hwf) as (resp & s2 & Hrun' & Hpipe).
        rewrite Hrun' in Hrun. inversion Hrun; subst.
        eexists; split; [reflexivity|]. by eapply out_pipeline.
  - rewrite (handler_not_post Hm) in Hrun. inversion Hrun; subst.
    eexists; split; [reflexivity|].
    erewrite events_since_app by (rewrite app_nil_r; reflexivity).
    by apply out_method_not_allowed.
Qed.

End Handler.

(** The handler always answers: no error escapes its [catch]. *)
Lemma handler_returns w req s : exists resp s', handler w req s = (inr resp, s').
Proof.
  destruct (handler w req s) as [r s'] eqn:Hrun.
  destruct (handler_outcome _ _ _ _ _ Hrun) as (resp & -> & _). eauto.
Qed.

(** ** The method gate *)

(** C9. A request whose method is not POST is answered 405 by every
    version of the handler and leaves the machine state as it was: no
    staging directory made, nothing parsed or staged, no storage call and no
    document-store call. *)
Theorem non_post_is_refused (verb : string) (Hverb : verb <> "POST") :
  (forall w req s, method req = verb ->
     exists resp, handler w req s = (inr resp, s) /\ status resp = 405) /\
  (forall w req s, method req = verb ->
     exists resp, Cjs.handler w req s = (inr resp, s) /\ status resp = 405) /\
  (forall w req s, Busboy.method req = verb ->
     exists resp, Busboy.handler w req s = (inr resp, s) /\ status resp = 405).
Proof.
  repeat split; intros w req s Hm; subst verb.
  - rewrite handler_not_post by done. eauto.
  - unfold Cjs.handler.
    destruct (String.eqb_spec (method req) "POST") as [E|E]; [done|]. simpl. eauto.
  - unfold Busboy.handler.
    destruct (String.eqb_spec (Busboy.method req) "POST") as [E|E]; [done|]. simpl. eauto.
Qed.

Lemma non_post_is_refused_witness :
  exists resp,
    handler Scenario.world_ok (Scenario.request_with "GET" "Trailer" "120") Scenario.state0
    = (inr resp, Scenario.state0) /\ status resp = 405.
Proof.
  apply (proj1 (non_post_is_refused "GET" ltac:(discriminate))). reflexivity.
Defined.

(** ** Validation *)

(** C1 (as the code has it). A POST request whose parse succeeds and in
    which the title or the description is missing or empty, the duration
    text has no leading integer, or a file part is missing, is answered 400
    without any call to the object store or the document store.  Texts are
    not trimmed and the duration need not be positive. *)
Theorem invalid_input_is_rejected w req s form s1 :
  method req = "POST" ->
  parseForm w req s = (inr form, s1) ->
  Js.truthy (title_of form) = false \/
  Js.truthy (description_of form) = false \/
  Js.parseInt (duration_text_of form) = Js.NaN \/
  videoFile_of form = None \/
  thumbnailFile_of form = None ->
  exists resp s',
    handler w req s = (inr resp, s') /\
    status resp = 400 /\
    calls (events_since s s') = [].
Proof.
  intros Hm Hp Hbad.
  assert (Hrej : rejected form).
  { unfold rejected. fold (duration_of form) in Hbad.
    destruct Hbad as [H|[H|[H|[H|H]]]]; try tauto.
    right; right; left. by rewrite H. }
  destruct (handler_rejected _ _ _ _ _ Hm Hp Hrej) as (s' & Hrun & Hc & _).
  eauto.
Qed.

Lemma invalid_input_is_rejected_witness :
  exists resp s',
    handler Scenario.world_ok (Scenario.request "Trailer" "abc") Scenario.state0
    = (inr resp, s') /\
    status resp = 400 /\
    calls (events_since Scenario.state0 s') = [].
Proof.
  apply (invalid_input_is_rejected Scenario.world_ok (Scenario.request "Trailer" "abc")
           Scenario.state0 (Scenario.form_of "Trailer" "abc")
           (snd (parseForm Scenario.world_ok (Scenario.request "Trailer" "abc")
                           Scenario.state0))).
  - reflexivity.
  - vm_compute. reflexivity.
  - right; right; left. vm_compute. reflexivity.
Defined.

(** C1 (as stated) fails: a title that is empty after trimming, and a
    duration that parses to zero or to a negative integer, pass validation;
    the uploads and the record are made and the answer is 200. *)
Lemma blank_title_and_nonpositive_duration_accepted :
  (Js.trim "   " = "" /\
   exists resp s',
     handler Scenario.world_ok (Scenario.request "   " "120") Scenario.state0
     = (inr resp, s') /\
     status resp = 200 /\
     List.length (calls (events_since Scenario.state0 s')) = 3%nat) /\
  (Js.parseInt (Some "-5") = Js.Int (-5) /\
   exists resp s',
     handler Scenario.world_ok (Scenario.request "Trailer" "-5") Scenario.state0
     = (inr resp, s') /\
     status resp = 200 /\
     List.length (calls (events_since Scenario.state0 s')) = 3%nat) /\
  (Js.parseInt (Some "0") = Js.Int 0 /\
   exists resp s',
     handler Scenario.world_ok (Scenario.request "Trailer" "0") Scenario.state0
     = (inr resp, s') /\
     status resp = 200 /\
     List.length (calls (events_since Scenario.state0 s')) = 3%nat).
Proof.
  repeat split; try reflexivity.
  all: eexists _, _; split; [vm_compute; reflexivity|].
  all: split; vm_compute; reflexivity.
Qed.

(** ** Order of the stages *)

Lemma pipeline_calls_shape d form vf tf acl cs resp :
  pipeline d form vf tf acl cs resp ->
  Forall (fun ev => is_collaborator_call ev = true) cs.
Proof. destruct 1; repeat constructor. Qed.

(** Splits [pre ++ ev :: post = l] for a list [l] of known length. *)
Ltac split_list H :=
  match type of H with
  | (?pre ++ _ :: _)%list = _ =>
      destruct pre as [|? [|? [|? [|? ?]]]]; simpl in H; inversion H; subst; clear H
  end.

Lemma pipeline_order d form vf tf acl cs resp :
  pipeline d form vf tf acl cs resp ->
  (forall pre db coll id data acl' res post,
      cs = (pre ++ EvCreateDocument db coll id data acl' res :: post)%list ->
      post = [] /\
      exists vbuf vb tbuf tb,
        pre = [EvPut (blob_name vf) vbuf (put_options vf) (inr vb);
               EvPut (blob_name tf) tbuf (put_options tf) (inr tb)]) /\
  (forall pre ev post,
      cs = (pre ++ ev :: post)%list -> call_failed ev = true -> post = []) /\
  (forall pre n b o res post,
      cs = (pre ++ EvPut n b o res :: post)%list ->
      Forall (fun ev => call_succeeded ev = true) pre).
Proof.
  intros Hpipe.
  inversion Hpipe; subst; repeat split; intros;
    match goal with
    | H : _ = (_ ++ _ :: _)%list |- _ => symmetry in H; split_list H
    end;
    simpl in *; try done; try (repeat constructor; done).
  all: eexists _, _, _, _; done.
Qed.

(** C7. In every run the document-store write comes last and only after
    two successful storage calls, the first for the video file and the
    second for the thumbnail file; and nothing follows a failed call. *)
Theorem persist_only_after_both_uploads w req s r s' :
  handler w req s = (r, s') ->
  (forall pre db coll id data acl res post,
      calls (events_since s s')
      = (pre ++ EvCreateDocument db coll id data acl res :: post)%list ->
      post = [] /\
      exists form vf tf vbuf vb tbuf tb,
        parsed req = inr form /\
        videoFile_of form = Some vf /\
        thumbnailFile_of form = Some tf /\
        pre = [EvPut (blob_name vf) vbuf (put_options vf) (inr vb);
               EvPut (blob_name tf) tbuf (put_options tf) (inr tb)]) /\
  (forall pre ev post,
      calls (events_since s s') = (pre ++ ev :: post)%list ->
      call_failed ev = true ->
      post = []) /\
  (forall pre n b o res post,
      calls (events_since s s') = (pre ++ EvPut n b o res :: post)%list ->
      Forall (fun ev => call_succeeded ev = true) pre).
Proof.
  intros Hrun.
  destruct (handler_outcome _ _ _ _ _ Hrun) as (resp & -> & Hout).
  inversion Hout as [ | | | form s1 vf tf cs resp' Hm Hp Hwf Hpipe]; subst.
  1-3: repeat split; intros; match goal with
       | H : [] = (_ ++ _ :: _)%list |- _ => by destruct pre
       end.
  pose proof (parseForm_parsed _ _ _ _ _ Hp) as Hparsed.
  destruct Hwf as (_ & _ & _ & Hv & Hth & _).
  destruct (pipeline_order _ _ _ _ _ _ _ Hpipe) as (Hcreate & Hfail & Hput).
  repeat split; eauto.
  - eapply Hcreate; eauto.
  - destruct (Hcreate _ _ _ _ _ _ _ _ H) as (_ & vbuf & vb & tbuf & tb & ->).
    eexists form, vf, tf, _, _, _, _; done.
Qed.

Lemma persist_only_after_both_uploads_witness :
  ([] : list Event) = [] /\
  exists form vf tf vbuf vb tbuf tb,
    parsed (Scenario.request "Trailer" "120") = inr form /\
    videoFile_of form = Some vf /\
    thumbnailFile_of form = Some tf /\
    [EvPut "trailer.mp4" Scenario.video_bytes (put_options Scenario.trailer)
           (inr (Scenario.stored "trailer.mp4"));
     EvPut "poster.jpg" Scenario.thumb_bytes (put_options Scenario.poster)
           (inr (Scenario.stored "poster.jpg"))]
    = [EvPut (blob_name vf) vbuf (put_options vf) (inr vb);
       EvPut (blob_name tf) tbuf (put_options tf) (inr tb)].
Proof.
  refine (proj1 (persist_only_after_both_uploads
                   Scenario.world_ok (Scenario.request "Trailer" "120") Scenario.state0
                   (fst (handler Scenario.world_ok (Scenario.request "Trailer" "120")
                                 Scenario.state0))
                   (snd (handler Scenario.world_ok (Scenario.request "Trailer" "120")
                                 Scenario.state0))
                   _)
                _ (Some "db") (Some "videos") ID_unique
                (record_of (Scenario.form_of "Trailer" "120")
                           (Scenario.stored "trailer.mp4") (Scenario.stored "poster.jpg")
                           "2025-01-01T00:00:00.000Z")
                (acl_of (Scenario.form_of "Trailer" "120"))
                (inr {| doc_id := "65f0c0ffee";
                        doc_data := record_of (Scenario.form_of "Trailer" "120")
                                      (Scenario.stored "trailer.mp4")
                                      (Scenario.stored "poster.jpg")
                                      "2025-01-01T00:00:00.000Z";
                        doc_permissions := permissions_for (Some "team_1") |})
                [] _).
  - vm_compute. reflexivity.
  - vm_compute. reflexivity.
Defined.

(** ** Failure of the thumbnail upload *)

(** C3 (as the code has it). When the video storage call succeeds and the
    thumbnail storage call that follows it fails, the run makes no further
    collaborator call (no document-store write, no removal of the stored
    video) and answers 500 with the thumbnail call's error message as
    details; the answer carries no stage tag. *)
Theorem thumbnail_failure_stops_pipeline w req s r s' n1 b1 o1 vb n2 b2 o2 e rest :
  handler w req s = (r, s') ->
  calls (events_since s s')
  = EvPut n1 b1 o1 (inr vb) :: EvPut n2 b2 o2 (inl e) :: rest ->
  rest = [] /\
  exists text,
    r = inr {| status := 500;
               body := ErrorBody "Internal Server Error" (Some text) (Some (message e)) |}.
Proof.
  intros Hrun Hcalls.
  destruct (handler_outcome _ _ _ _ _ Hrun) as (resp & -> & Hout).
  rewrite Hcalls in Hout.
  inversion Hout as [ | | | form s1 vf tf cs resp' Hm Hp Hwf Hpipe]; subst.
  inversion Hpipe; subst. split; [done|]. eexists. reflexivity.
Qed.

Lemma thumbnail_failure_stops_pipeline_witness :
  exists text,
    fst (handler Scenario.world_thumbnail_put_fails (Scenario.request "Trailer" "120")
                 Scenario.state0)
    = inr {| status := 500;
             body := ErrorBody "Internal Server Error" (Some text)
                               (Some "blob store unavailable") |}.
Proof.
  eapply (thumbnail_failure_stops_pipeline
            Scenario.world_thumbnail_put_fails (Scenario.request "Trailer" "120")
            Scenario.state0 _
            (snd (handler Scenario.world_thumbnail_put_fails
                          (Scenario.request "Trailer" "120") Scenario.state0))
            _ _ _ _ _ _ _ Scenario.unavailable []).
  - vm_compute. reflexivity.
  - vm_compute. reflexivity.
Defined.

(** C3 (as stated) fails: the answer to a failed thumbnail upload is the
    very answer given to a failed video upload, so nothing in it names the
    stage. *)
Lemma failure_response_has_no_stage_tag :
  (exists resp s1 s2 vb,
     handler Scenario.world_thumbnail_put_fails (Scenario.request "Trailer" "120")
             Scenario.state0 = (inr resp, s1) /\
     handler Scenario.world_video_put_fails (Scenario.request "Trailer" "120")
             Scenario.state0 = (inr resp, s2) /\
     calls (events_since Scenario.state0 s1)
     = [EvPut "trailer.mp4" Scenario.video_bytes (put_options Scenario.trailer) (inr vb);
        EvPut "poster.jpg" Scenario.thumb_bytes (put_options Scenario.poster)
              (inl Scenario.unavailable)] /\
     calls (events_since Scenario.state0 s2)
     = [EvPut "trailer.mp4" Scenario.video_bytes (put_options Scenario.trailer)
              (inl Scenario.unavailable)]) /\
  ~ exists classify, tags_storage_stage classify.
Proof.
  match goal with |- ?runs /\ _ => assert (Hruns : runs) end.
  { eexists _, _, _, _. repeat split; vm_compute; reflexivity. }
  split; [exact Hruns|].
  destruct Hruns as (resp & s1 & s2 & vb & Ha & Hb & Hca & Hcb).
  intros (classify & Htag).
  destruct (Htag _ _ _ _ _ Ha) as [_ Hthumb].
  destruct (Htag _ _ _ _ _ Hb) as [Hvideo _].
  specialize (Hthumb _ _ _ _ _ _ _ _ Hca).
  specialize (Hvideo _ _ _ _ Hcb).
  congruence.
Qed.

(** ** The record of a successful run *)

(** C4. On a well-formed request whose staged files are readable and whose
    collaborator calls all succeed, the run makes exactly three collaborator
    calls: the video upload, the thumbnail upload, and one document-store
    write whose [videoUrl] and [thumbnailUrl] are the urls returned by those
    two uploads and whose [viewsCount] is 0; the answer is 200 and carries
    the same two urls. *)
Theorem record_carries_storage_urls w req s form s1 vf tf r s' :
  method req = "POST" ->
  parseForm w req s = (inr form, s1) ->
  well_formed form vf tf ->
  is_Some (disk s1 !! filepath vf) ->
  is_Some (disk s1 !! filepath tf) ->
  handler w req s = (r, s') ->
  Forall (fun ev => call_succeeded ev = true) (calls (events_since s s')) ->
  exists vbuf vb tbuf tb db coll data doc,
    calls (events_since s s')
    = [EvPut (blob_name vf) vbuf (put_options vf) (inr vb);
       EvPut (blob_name tf) tbuf (put_options tf) (inr tb);
       EvCreateDocument db coll ID_unique data (acl_of form) (inr doc)] /\
    vd_videoUrl data = url vb /\
    vd_thumbnailUrl data = url tb /\
    vd_viewsCount data = 0 /\
    r = inr {| status := 200;
               body := SuccessBody "Video uploaded and metadata saved successfully!"
                                   doc (url vb) (url tb) |}.
Proof.
  intros Hm Hp Hwf [vbuf Hvbuf] [tbuf Htbuf] Hrun Hok.
  destruct (handler_well_formed _ _ _ _ _ _ _ Hm Hp Hwf) as (resp & s2 & Hrun' & Hpipe).
  rewrite Hrun' in Hrun. inversion Hrun; subst; clear Hrun.
  inversion Hpipe as [ | ? ? ? ? Hc | | ? ? ? ? ? ? ? Hc | ? ? ? ? ? ? ? ? ? ? ? Hc | ? ? ? ? ? ? ? ? ? ? Hc];
    try congruence;
    rewrite <- Hc in Hok;
    repeat match goal with
    | H : Forall _ (_ :: _) |- _ => inversion H; subst; clear H
    end; simpl in *; try discriminate.
  eexists _, _, _, _, _, _, _, _. repeat split; reflexivity.
Qed.

Lemma record_carries_storage_urls_witness :
  exists vbuf vb tbuf tb db coll data doc,
    calls (events_since Scenario.state0
             (snd (handler Scenario.world_ok (Scenario.request "Trailer" "120")
                           Scenario.state0)))
    = [EvPut "trailer.mp4" vbuf (put_options Scenario.trailer) (inr vb);
       EvPut "poster.jpg" tbuf (put_options Scenario.poster) (inr tb);
       EvCreateDocument db coll ID_unique data
         (acl_of (Scenario.form_of "Trailer" "120")) (inr doc)] /\
    vd_videoUrl data = url vb /\
    vd_thumbnailUrl data = url tb /\
    vd_viewsCount data = 0 /\
    fst (handler Scenario.world_ok (Scenario.request "Trailer" "120") Scenario.state0)
    = inr {| status := 200;
             body := SuccessBody "Video uploaded and metadata saved successfully!"
                                 doc (url vb) (url tb) |}.
Proof.
  apply (record_carries_storage_urls
           Scenario.world_ok (Scenario.request "Trailer" "120") Scenario.state0
           (Scenario.form_of "Trailer" "120")
           (snd (parseForm Scenario.world_ok (Scenario.request "Trailer" "120")
                           Scenario.state0))
           Scenario.trailer Scenario.poster).
  - reflexivity.
  - vm_compute. reflexivity.
  - vm_compute. repeat split; reflexivity.
  - vm_compute. eauto.
  - vm_compute. eauto.
  - vm_compute. reflexivity.
  - vm_compute. repeat constructor.
Defined.

(** ** The access-control list *)

(** C5. On every run answered 200 the record was submitted with an
    access-control list made from the form's team identifier: read for any
    principal, update and delete for that team and for no one else. *)
Theorem record_acl_from_team w req s resp s' :
  handler w req s = (inr resp, s') ->
  status resp = 200 ->
  exists form team put1 put2 db coll id data doc,
    parsed req = inr form /\
    teamId_of form = Some team /\
    team <> "" /\
    let acl := [ {| perm_action := ActRead; perm_role := RoleAny |};
                 {| perm_action := ActUpdate; perm_role := RoleTeam team |};
                 {| perm_action := ActDelete; perm_role := RoleTeam team |} ] in
    calls (events_since s s')
    = [put1; put2; EvCreateDocument db coll id data (Some acl) (inr doc)] /\
    (forall role, grants acl ActRead role <-> role = RoleAny) /\
    (forall role, grants acl ActUpdate role <-> role = RoleTeam team) /\
    (forall role, grants acl ActDelete role <-> role = RoleTeam team).
Proof.
  intros Hrun Hst.
  destruct (handler_outcome _ _ _ _ _ Hrun) as (resp' & Heq & Hout).
  inversion Heq; subst resp'; clear Heq.
  inversion Hout as [ ? ? Hc | ? ? ? ? ? Hc | ? ? ? ? ? ? Hc
                    | form s1 vf tf cs resp' Hm Hp Hwf Hpipe]; subst;
    try (simpl in Hst; discriminate).
  pose proof (parseForm_parsed _ _ _ _ _ Hp) as Hparsed.
  destruct Hwf as (_ & _ & _ & _ & _ & Hteam).
  inversion Hpipe; subst; try (simpl in Hst; discriminate).
  destruct (teamId_of form) as [[|c team]|] eqn:Ht; try discriminate.
  eexists form, (String c team), _, _, _, _, _, _, _.
  split; [done|]. split; [exact Ht|]. split; [done|].
  cbv zeta. split.
  - unfold acl_of, permissions_for. rewrite Ht. reflexivity.
  - unfold grants. simpl.
    repeat split; intros; intuition (try discriminate; try congruence).
Qed.

Lemma record_acl_from_team_witness :
  exists form team put1 put2 db coll id data doc,
    parsed (Scenario.request "Trailer" "120") = inr form /\
    teamId_of form = Some team /\
    team <> "" /\
    let acl := [ {| perm_action := ActRead; perm_role := RoleAny |};
                 {| perm_action := ActUpdate; perm_role := RoleTeam team |};
                 {| perm_action := ActDelete; perm_role := RoleTeam team |} ] in
    calls (events_since Scenario.state0
             (snd (handler Scenario.world_ok (Scenario.request "Trailer" "120")
                           Scenario.state0)))
    = [put1; put2; EvCreateDocument db coll id data (Some acl) (inr doc)] /\
    (forall role, grants acl ActRead role <-> role = RoleAny) /\
    (forall role, grants acl ActUpdate role <-> role = RoleTeam team) /\
    (forall role, grants acl ActDelete role <-> role = RoleTeam team).
Proof.
  eapply (record_acl_from_team Scenario.world_ok (Scenario.request "Trailer" "120")
            Scenario.state0).
  - vm_compute. reflexivity.
  - reflexivity.
Defined.

(** ** Extraction of [duration] and [isPremium] *)

Lemma pipeline_status d form vf tf acl cs resp :
  pipeline d form vf tf acl cs resp -> status resp = 500 \/ status resp = 200.
Proof. destruct 1; simpl; auto. Qed.

Lemma pipeline_record d form vf tf acl cs resp db coll id data acl' res :
  pipeline d form vf tf acl cs resp ->
  In (EvCreateDocument db coll id data acl' res) cs ->
  exists vb tb date, data = record_of form vb tb date.
Proof.
  destruct 1; simpl; intros Hin;
    repeat (destruct Hin as [Hin|Hin]; [try discriminate|]); try done;
    inversion Hin; subst; eauto.
Qed.

(** C10 (as the code has it). With the other requirements met, a
    duration text is accepted exactly when [parseInt] finds a leading
    integer in it, and every record submitted carries what [parseInt]
    returned.  For a text made of white space, an optional sign, a
    non-empty run of digits and a rest that starts with no digit, that is
    the double nearest to the signed decimal value of the run, which is the
    value itself as long as it does not exceed 2^53: "120abc" gives 120 and
    "12.9" gives 12.  The request is answered 400 on account of its
    duration only when there is no such run. *)
Theorem duration_is_leading_integer w req s form s1 vf tf r s' :
  method req = "POST" ->
  parseForm w req s = (inr form, s1) ->
  Js.truthy (title_of form) = true ->
  Js.truthy (description_of form) = true ->
  videoFile_of form = Some vf ->
  thumbnailFile_of form = Some tf ->
  Js.truthy (teamId_of form) = true ->
  handler w req s = (r, s') ->
  (forall ws sg ds rest,
      duration_text_of form = Some (ws +:+ Decimal.sign_text sg +:+ ds +:+ rest) ->
      Decimal.all_ws ws = true ->
      ds <> "" ->
      Decimal.all_digits ds = true ->
      Decimal.no_leading_digit rest = true ->
      (exists resp, r = inr resp /\ status resp <> 400) /\
      (forall db coll id data acl res,
          In (EvCreateDocument db coll id data acl res) (calls (events_since s s')) ->
          vd_duration data = Js.round_double (Decimal.sign_factor sg * Decimal.value ds) /\
          (Decimal.value ds <= Decimal.exact_bound ->
           vd_duration data = Js.Int (Decimal.sign_factor sg * Decimal.value ds)))) /\
  (Js.parseInt (duration_text_of form) <> Js.NaN ->
   (exists resp, r = inr resp /\ status resp <> 400) /\
   (forall db coll id data acl res,
       In (EvCreateDocument db coll id data acl res) (calls (events_since s s')) ->
       vd_duration data = Js.parseInt (duration_text_of form))) /\
  (Js.parseInt (duration_text_of form) = Js.NaN <->
   exists resp, r = inr resp /\ status resp = 400) /\
  (forall v,
      Js.parseInt v = Js.NaN <->
      Decimal.no_leading_digit (snd (Js.take_sign (Js.skip_ws (Js.ToString v)))) = true) /\
  Js.parseInt (Some "120abc") = Js.Int 120 /\
  Js.parseInt (Some "12.9") = Js.Int 12.
Proof.
  intros Hm Hp Ht Hd Hv Hth Hteam Hrun.
  assert (Hacc : Js.parseInt (duration_text_of form) <> Js.NaN ->
    (exists resp, r = inr resp /\ status resp <> 400) /\
    (forall db coll id data acl res,
       In (EvCreateDocument db coll id data acl res) (calls (events_since s s')) ->
       vd_duration data = Js.parseInt (duration_text_of form))).
  { intros Hn.
    assert (Hwf : well_formed form vf tf).
    { unfold well_formed, duration_of.
      destruct (Js.parseInt (duration_text_of form)); simpl; tauto. }
    destruct (handler_well_formed _ _ _ _ _ _ _ Hm Hp Hwf) as (resp & s2 & Hrun' & Hpipe).
    rewrite Hrun' in Hrun. inversion Hrun; subst; clear Hrun. split.
    + exists resp. split; [done|].
      destruct (pipeline_status _ _ _ _ _ _ _ Hpipe) as [E|E]; rewrite E; done.
    + intros db coll id data acl res Hin.
      destruct (pipeline_record _ _ _ _ _ _ _ _ _ _ _ _ _ Hpipe Hin) as (vb & tb & date & ->).
      reflexivity. }
  split; [|split; [|split; [|split; [|split]]]]; try reflexivity.
  - intros ws sg ds rest Htext Hws Hne Hds Hrest.
    pose proof (parseInt_decimal ws sg ds rest Hws Hne Hds Hrest) as Hval.
    rewrite <- Htext in Hval.
    destruct Hacc as [Hresp Hrec].
    { intros E. rewrite Hval in E.
      pose proof (round_double_not_NaN (Decimal.sign_factor sg * Decimal.value ds)) as Hn.
      rewrite E in Hn. discriminate. }
    split; [exact Hresp|].
    intros db coll id data acl res Hin.
    rewrite (Hrec _ _ _ _ _ _ Hin), Hval. split; [reflexivity|].
    intros Hb. apply round_double_exact. pose proof (value_nonneg ds).
    destruct sg; simpl; lia.
  - exact Hacc.
  - split.
    + intros Hnan.
      assert (Hrej : rejected form).
      { unfold rejected, duration_of. rewrite Hnan. simpl. tauto. }
      destruct (handler_rejected _ _ _ _ _ Hm Hp Hrej) as (s2 & Hrun' & _).
      rewrite Hrun' in Hrun. inversion Hrun; subst. eauto.
    + intros (resp & -> & Hst).
      destruct (Js.parseInt (duration_text_of form)) eqn:Hn; [done|exfalso..].
      all: destruct Hacc as [(resp' & Hr & Hne) _]; [done|].
      all: inversion Hr; subst; done.
  - apply parseInt_NaN_iff.
Qed.

Lemma duration_is_leading_integer_witness :
  (exists resp,
     fst (handler Scenario.world_ok (Scenario.request "Trailer" "120abc") Scenario.state0)
     = inr resp /\ status resp <> 400) /\
  (forall db coll id data acl res,
      In (EvCreateDocument db coll id data acl res)
         (calls (events_since Scenario.state0
                   (snd (handler Scenario.world_ok (Scenario.request "Trailer" "120abc")
                                 Scenario.state0)))) ->
      vd_duration data = Js.round_double (1 * Decimal.value "120") /\
      (Decimal.value "120" <= Decimal.exact_bound ->
       vd_duration data = Js.Int (1 * Decimal.value "120"))).
Proof.
  refine (proj1 (duration_is_leading_integer
                   Scenario.world_ok (Scenario.request "Trailer" "120abc") Scenario.state0
                   (Scenario.form_of "Trailer" "120abc")
                   (snd (parseForm Scenario.world_ok (Scenario.request "Trailer" "120abc")
                                   Scenario.state0))
                   Scenario.trailer Scenario.poster
                   (fst (handler Scenario.world_ok (Scenario.request "Trailer" "120abc")
                                 Scenario.state0))
                   (snd (handler Scenario.world_ok (Scenario.request "Trailer" "120abc")
                                 Scenario.state0))
                   _ _ _ _ _ _ _ _)
                "" Decimal.NoSign "120" "abc" _ _ _ _ _).
  - reflexivity.
  - vm_compute. reflexivity.
  - reflexivity.
  - reflexivity.
  - reflexivity.
  - reflexivity.
  - reflexivity.
  - vm_compute. reflexivity.
  - reflexivity.
  - reflexivity.
  - discriminate.
  - reflexivity.
  - reflexivity.
Defined.

(** C10 (as stated) fails beyond 2^53: the duration text
    "9007199254740993" is all digits and denotes 2^53 + 1; the request is
    answered 200 and the record submitted carries 9007199254740992, the
    nearest double, not the value of the digits. *)
Lemma duration_beyond_exact_range_is_rounded :
  Decimal.all_digits "9007199254740993" = true /\
  Decimal.value "9007199254740993" = 2 ^ 53 + 1 /\
  exists resp s' db coll id data acl res,
    handler Scenario.world_ok (Scenario.request "Trailer" "9007199254740993")
            Scenario.state0 = (inr resp, s') /\
    status resp = 200 /\
    In (EvCreateDocument db coll id data acl res)
       (calls (events_since Scenario.state0 s')) /\
    vd_duration data = Js.Int (2 ^ 53) /\
    vd_duration data <> Js.Int (Decimal.value "9007199254740993").
Proof.
  split; [reflexivity|]. split; [reflexivity|].
  eexists _, _, _, _, _, _, _, _.
  split; [vm_compute; reflexivity|].
  split; [reflexivity|].
  split; [vm_compute; do 2 right; left; reflexivity|].
  split; [vm_compute; reflexivity|].
  vm_compute. discriminate.
Qed.

Lemma extract_isPremium_true p :
  extract_isPremium p = true <-> Js.first_or_self p = Some "true".
Proof.
  unfold extract_isPremium, Js.first_or_self, Js.strict_eq.
  destruct p as [[s|l]|]; try (split; congruence).
  - rewrite String.eqb_eq. split; congruence.
  - destruct (head l) as [s|]; [|split; congruence].
    rewrite String.eqb_eq. split; congruence.
Qed.

Lemma busboy_isPremium_true fd :
  Busboy.isPremium_of fd = true <-> Busboy.get fd "isPremium" = Some (Busboy.EStr "true").
Proof.
  unfold Busboy.isPremium_of, Busboy.has, Busboy.is_true_text.
  destruct (Busboy.get fd "isPremium") as [[s|b]|]; simpl;
    rewrite ?String.eqb_eq; split; congruence.
Qed.

(** C6. The extracted [isPremium] is [true] exactly when the (first) value
    of the [isPremium] field is the text "true"; absence, "1", "TRUE" and
    every other value give [false]; and that is the value every submitted
    record carries. *)
Theorem isPremium_only_for_literal_true :
  (forall p, extract_isPremium p = true <-> Js.first_or_self p = Some "true") /\
  (forall fd, Busboy.isPremium_of fd = true <->
              Busboy.get fd "isPremium" = Some (Busboy.EStr "true")) /\
  extract_isPremium None = false /\
  extract_isPremium (Some (Js.PStr "1")) = false /\
  extract_isPremium (Some (Js.PStr "TRUE")) = false /\
  extract_isPremium (Some (Js.PArr ["1"])) = false /\
  extract_isPremium (Some (Js.PArr ["TRUE"])) = false /\
  extract_isPremium (Some (Js.PStr "true")) = true /\
  extract_isPremium (Some (Js.PArr ["true"])) = true /\
  (forall w req s r s' form db coll id data acl res,
      handler w req s = (r, s') ->
      parsed req = inr form ->
      In (EvCreateDocument db coll id data acl res) (calls (events_since s s')) ->
      vd_isPremium data = extract_isPremium (fields form !! "isPremium")).
Proof.
  split; [exact extract_isPremium_true|].
  split; [exact busboy_isPremium_true|].
  repeat (split; [reflexivity|]).
  intros w req s r s' form db coll id data acl res Hrun Hparsed Hin.
  destruct (handler_outcome _ _ _ _ _ Hrun) as (resp & -> & Hout).
  inversion Hout as [ ? ? Hc | ? ? ? ? ? Hc | ? ? ? ? ? ? Hc
                    | form' s1 vf tf cs resp' Hm Hp Hwf Hpipe]; subst;
    try (rewrite <- Hc in Hin; destruct Hin).
  pose proof (parseForm_parsed _ _ _ _ _ Hp) as Hparsed'.
  rewrite Hparsed in Hparsed'. inversion Hparsed'; subst form'.
  destruct (pipeline_record _ _ _ _ _ _ _ _ _ _ _ _ _ Hpipe Hin) as (vb & tb & date & ->).
  reflexivity.
Qed.

Lemma isPremium_only_for_literal_true_witness :
  vd_isPremium (record_of (Scenario.form_of "Trailer" "120")
                          (Scenario.stored "trailer.mp4") (Scenario.stored "poster.jpg")
                          "2025-01-01T00:00:00.000Z")
  = extract_isPremium (fields (Scenario.form_of "Trailer" "120") !! "isPremium").
Proof.
  refine (proj2 (proj2 (proj2 (proj2 (proj2 (proj2 (proj2 (proj2 (proj2
            isPremium_only_for_literal_true))))))))
            Scenario.world_ok (Scenario.request "Trailer" "120") Scenario.state0
            (fst (handler Scenario.world_ok (Scenario.request "Trailer" "120")
                          Scenario.state0))
            (snd (handler Scenario.world_ok (Scenario.request "Trailer" "120")
                          Scenario.state0))
            (Scenario.form_of "Trailer" "120")
            (Some "db") (Some "videos") ID_unique _
            (acl_of (Scenario.form_of "Trailer" "120"))
            (inr {| doc_id := "65f0c0ffee";
                    doc_data := record_of (Scenario.form_of "Trailer" "120")
                                  (Scenario.stored "trailer.mp4")
                                  (Scenario.stored "poster.jpg")
                                  "2025-01-01T00:00:00.000Z";
                    doc_permissions := permissions_for (Some "team_1") |})
            _ _ _).
  - vm_compute. reflexivity.
  - reflexivity.
  - vm_compute. right. right. left. reflexivity.
Defined.

(** ** Staging files *)

Section Staging.
Context (w : World) (req : Request) (s : State).

(** A run that stops before the document-store write leaves the staging
    disk exactly as the parse left it. *)
Lemma storage_failure_keeps_staged_files form s1 vf tf r s' :
  method req = "POST" ->
  parseForm w req s = (inr form, s1) ->
  well_formed form vf tf ->
  handler w req s = (r, s') ->
  existsb is_create (calls (events_since s s')) = false ->
  disk s' = disk s1.
Proof.
  intros Hm Hp (Ht & Hd & Hn & Hv & Hth & Hteam).
  destruct (parseForm_trace _ _ _ _ _ Hp) as (evs0 & Htr & Hc0).
  unfold handler. rewrite Hm. simpl.
  unfold try_catch at 1. unfold mbind at 1, Eff_bind at 1. rewrite Hp.
  fold (title_of form) (description_of form) (duration_text_of form) (teamId_of form)
       (videoFile_of form) (thumbnailFile_of form).
  fold (duration_of form).
  rewrite Ht, Hd, Hn, Hv, Hth, Hteam. simpl.
  destruct s1 as [d1 x1 t1]; simpl in Htr; subst t1.
  destruct s as [d0 x0 t0]; simpl in *.
  unfold_run. case_innermost.
  all: intros Hrun; inversion Hrun; subst; clear Hrun; simpl.
  all: try reflexivity.
  all: read_events.
  all: rewrite calls_app, Hc0; simpl; discriminate.
Qed.

(** A run that reaches the document-store write has removed both staged
    files by then, provided removal itself does not fail. *)
Lemma staged_files_removed_before_persist form s1 vf tf r s' :
  method req = "POST" ->
  parseForm w req s = (inr form, s1) ->
  well_formed form vf tf ->
  (forall h p, unlink_fault w h p = None) ->
  handler w req s = (r, s') ->
  existsb is_create (calls (events_since s s')) = true ->
  disk s' !! filepath vf = None /\ disk s' !! filepath tf = None.
Proof.
  intros Hm Hp (Ht & Hd & Hn & Hv & Hth & Hteam) Hnofault.
  destruct (parseForm_trace _ _ _ _ _ Hp) as (evs0 & Htr & Hc0).
  unfold handler. rewrite Hm. simpl.
  unfold try_catch at 1. unfold mbind at 1, Eff_bind at 1. rewrite Hp.
  fold (title_of form) (description_of form) (duration_text_of form) (teamId_of form)
       (videoFile_of form) (thumbnailFile_of form).
  fold (duration_of form).
  rewrite Ht, Hd, Hn, Hv, Hth, Hteam. simpl.
  destruct s1 as [d1 x1 t1]; simpl in Htr; subst t1.
  destruct s as [d0 x0 t0]; simpl in *.
  unfold_run. case_innermost.
  all: try match goal with
       | H : unlink_fault _ _ _ = Some _ |- _ => rewrite Hnofault in H; discriminate
       end.
  all: intros Hrun; inversion Hrun; subst; clear Hrun; simpl.
  all: read_events.
  all: rewrite calls_app, Hc0; simpl; try discriminate; intros _.
  all: repeat match goal with
       | H : delete ?p ?d !! ?q = None |- _ =>
           rewrite lookup_delete in H; case_decide; subst
       end.
  all: try congruence.
  all: rewrite ?lookup_delete; repeat case_decide; try done; congruence.
Qed.

(** A rejected request has its staged video and thumbnail removed before
    the answer, provided removal itself does not fail. *)
Lemma rejected_request_unstaged form s1 f :
  method req = "POST" ->
  parseForm w req s = (inr form, s1) ->
  rejected form ->
  (forall h p, unlink_fault w h p = None) ->
  videoFile_of form = Some f \/ thumbnailFile_of form = Some f ->
  filepath f <> "" ->
  exists r s', handler w req s = (r, s') /\ disk s' !! filepath f = None.
Proof.
  intros Hm Hp Hrej Hnofault Hf Hpath.
  unfold handler. rewrite Hm. simpl.
  unfold try_catch at 1. unfold mbind at 1, Eff_bind at 1. rewrite Hp.
  fold (title_of form) (description_of form) (duration_text_of form) (teamId_of form)
       (videoFile_of form) (thumbnailFile_of form).
  fold (duration_of form).
  match goal with
  | |- context [if ?c then _ else _] => assert (Hc : c = true)
  end.
  { unfold rejected in Hrej.
    destruct Hrej as [H|[H|[H|[H|[H|H]]]]]; rewrite H; simpl;
      rewrite ?orb_true_r; reflexivity. }
  rewrite Hc. clear Hc Hrej.
  destruct s1 as [d1 x1 t1]. destruct s as [d0 x0 t0]; simpl in *.
  unfold_run.
  destruct (videoFile_of form) as [vf|], (thumbnailFile_of form) as [tf|];
    destruct Hf as [Hf|Hf]; inversion Hf; subst; clear Hf; simpl.
  all: repeat match goal with
       | |- context [filepath ?x] =>
           lazymatch goal with
           | H : filepath x = _ |- _ => fail
           | _ => destruct (filepath x) eqn:?
           end
       end; try done; simpl.
  all: case_innermost.
  all: try match goal with
       | H : unlink_fault _ _ _ = Some _ |- _ => rewrite Hnofault in H; discriminate
       end.
  all: eexists _, _; (split; [reflexivity|]); simpl.
  all: repeat match goal with
       | H : delete _ _ !! _ = _ |- _ => rewrite lookup_delete in H
       end.
  all: rewrite ?lookup_delete; repeat case_decide; try done; try congruence.
Qed.

End Staging.

(** C2 fails on the storage-failure paths.  When the video upload is
    refused, and likewise when the thumbnail upload is refused, the answer
    is 500 and both files that the parse staged are still on disk when the
    handler returns. *)
Theorem staged_files_survive_storage_failure :
  (forall failing db_down,
      map (staged_path (Scenario.world failing db_down))
          (uploads (Scenario.request "Trailer" "120"))
      = ["/srv/app/tmp/trailer.mp4"; "/srv/app/tmp/poster.jpg"]) /\
  (exists resp s',
     handler Scenario.world_video_put_fails (Scenario.request "Trailer" "120")
             Scenario.state0 = (inr resp, s') /\
     status resp = 500 /\
     disk s' !! "/srv/app/tmp/trailer.mp4" = Some Scenario.video_bytes /\
     disk s' !! "/srv/app/tmp/poster.jpg" = Some Scenario.thumb_bytes) /\
  (exists resp s',
     handler Scenario.world_thumbnail_put_fails (Scenario.request "Trailer" "120")
             Scenario.state0 = (inr resp, s') /\
     status resp = 500 /\
     disk s' !! "/srv/app/tmp/trailer.mp4" = Some Scenario.video_bytes /\
     disk s' !! "/srv/app/tmp/poster.jpg" = Some Scenario.thumb_bytes).
Proof.
  split; [intros; vm_compute; reflexivity|].
  split; eexists _, _; (split; [vm_compute; reflexivity|]);
    repeat split; vm_compute; reflexivity.
Qed.

(** ** Staging names *)

(** C8 (as the code has it). The staging file name of a file part is the
    file name its client declared, whatever the request it belongs to: two
    parts that declare the same name, of the same request or of two, are
    given the same staging file name, and formidable places them at the same
    path. *)
Theorem staging_name_is_declared_name (w : World) (p q : Part) (declared : string) :
  declared <> "" ->
  part_originalFilename p = Some declared ->
  part_originalFilename q = Some declared ->
  filename (part_name p) (part_ext p) p = declared /\
  filename (part_name q) (part_ext q) q = declared /\
  staged_path w p = joinDirectoryName w declared /\
  staged_path w q = staged_path w p.
Proof.
  intros Hne Hp Hq.
  assert (Hname : forall x, part_originalFilename x = Some declared ->
                            filename (part_name x) (part_ext x) x = declared).
  { intros x Hx. unfold filename, Js.or_else. rewrite Hx.
    destruct declared; [done|reflexivity]. }
  unfold staged_path. rewrite (Hname p Hp), (Hname q Hq). done.
Qed.

Lemma staging_name_is_declared_name_witness :
  filename (part_name Scenario.alice_part) (part_ext Scenario.alice_part)
           Scenario.alice_part = "clip.mp4" /\
  filename (part_name Scenario.bob_part) (part_ext Scenario.bob_part)
           Scenario.bob_part = "clip.mp4" /\
  staged_path Scenario.world_ok Scenario.alice_part
  = joinDirectoryName Scenario.world_ok "clip.mp4" /\
  staged_path Scenario.world_ok Scenario.bob_part
  = staged_path Scenario.world_ok Scenario.alice_part.
Proof.
  apply (staging_name_is_declared_name
           Scenario.world_ok Scenario.alice_part Scenario.bob_part "clip.mp4").
  - discriminate.
  - reflexivity.
  - reflexivity.
Defined.

(** C8 (as stated) fails: two distinct requests that carry different
    videos have their videos staged under one and the same file name, at
    one and the same path. *)
Lemma same_named_uploads_share_a_staging_path :
  Scenario.alice_request <> Scenario.bob_request /\
  In Scenario.alice_part (uploads Scenario.alice_request) /\
  In Scenario.bob_part (uploads Scenario.bob_request) /\
  part_data Scenario.alice_part <> part_data Scenario.bob_part /\
  filename (part_name Scenario.alice_part) (part_ext Scenario.alice_part)
           Scenario.alice_part
  = filename (part_name Scenario.bob_part) (part_ext Scenario.bob_part)
             Scenario.bob_part /\
  staged_path Scenario.world_ok Scenario.alice_part = "/srv/app/tmp/clip.mp4" /\
  staged_path Scenario.world_ok Scenario.bob_part = "/srv/app/tmp/clip.mp4".
Proof.
  split; [intros H; apply (f_equal uploads) in H; discriminate|].
  split; [left; reflexivity|]. split; [left; reflexivity|].
  split; [discriminate|].
  split; [reflexivity|]. split; vm_compute; reflexivity.
Qed.

(** ** The earlier formidable handler *)

Section CjsRuns.
Context (w : World) (req : Request) (s : State).

(** Validation failure here answers 400 straight after the parse: nothing
    is removed from the staging disk. *)
Lemma cjs_rejected_keeps_staged_files form s1 :
  method req = "POST" ->
  Cjs.parseForm w req s = (inr form, s1) ->
  Cjs.rejected form ->
  Cjs.handler w req s
  = (inr (bad_request
       "Missing required fields or invalid data. Please ensure all mandatory fields (Title, Description, Duration) are filled, and both Video File and Thumbnail Image are selected and valid."),
     s1).
Proof.
  intros Hm Hp Hrej.
  unfold Cjs.handler. rewrite Hm. simpl.
  unfold try_catch at 1. unfold mbind at 1, Eff_bind at 1. rewrite Hp.
  fold (title_of form) (description_of form) (duration_text_of form)
       (videoFile_of form) (thumbnailFile_of form).
  fold (duration_of form).
  match goal with
  | |- context [if ?c then _ else _] => assert (Hc : c = true)
  end.
  { unfold Cjs.rejected in Hrej.
    destruct Hrej as [H|[H|[H|[H|[H|[H|H]]]]]]; rewrite H; simpl;
      rewrite ?orb_true_r; reflexivity. }
  rewrite Hc. reflexivity.
Qed.

Lemma cjs_handler_well_formed form s1 vf tf :
  method req = "POST" ->
  Cjs.parseForm w req s = (inr form, s1) ->
  Cjs.well_formed form vf tf ->
  exists resp s',
    Cjs.handler w req s = (inr resp, s')
    /\ pipeline (disk s1) form vf tf None (calls (events_since s s')) resp.
Proof.
  intros Hm Hp (Ht & Hd & Hn & Hv & Hth & Hvp & Htp).
  destruct (parseForm_trace _ _ _ _ _ Hp) as (evs0 & Htr & Hc0).
  unfold Cjs.handler. rewrite Hm. simpl.
  unfold try_catch at 1. unfold mbind at 1, Eff_bind at 1. rewrite Hp.
  fold (title_of form) (description_of form) (duration_text_of form)
       (videoFile_of form) (thumbnailFile_of form).
  fold (duration_of form).
  rewrite Ht, Hd, Hn, Hv, Hth. unfold Cjs.no_filepath. rewrite Hvp, Htp. simpl.
  destruct s1 as [d1 x1 t1]; simpl in Htr; subst t1.
  destruct s as [d0 x0 t0]; simpl in *.
  unfold_run. case_innermost.
  all: eexists _, _; (split; [reflexivity|]).
  all: read_events.
  all: rewrite calls_app, Hc0; simpl.
  all: econstructor; done.
Qed.

End CjsRuns.

Section CjsOutcome.
Context (w : World) (req : Request) (s : State).

Lemma cjs_rejected_or_well_formed form :
  Cjs.rejected form \/ exists vf tf, Cjs.well_formed form vf tf.
Proof.
  unfold Cjs.rejected, Cjs.well_formed, Cjs.no_filepath.
  destruct (Js.truthy (title_of form)); [|tauto].
  destruct (Js.truthy (description_of form)); [|tauto].
  destruct (Js.isNaN (duration_of form)); [tauto|].
  destruct (videoFile_of form) as [vf|]; [|tauto].
  destruct (thumbnailFile_of form) as [tf|]; [|tauto].
  destruct (Js.truthy (Some (filepath vf))) eqn:Hv; [|tauto].
  destruct (Js.truthy (Some (filepath tf))) eqn:Ht; [|tauto].
  right. exists vf, tf. tauto.
Qed.

Lemma cjs_handler_outcome r s' :
  Cjs.handler w req s = (r, s') ->
  exists resp, r = inr resp /\ Cjs.outcome w req s (calls (events_since s s')) resp.
Proof.
  intros Hrun.
  destruct (decide (method req = "POST")) as [Hm|Hm].
  - destruct (Cjs.parseForm w req s) as [[e|form] s1] eqn:Hp.
    + destruct (parseForm_trace _ _ _ _ _ Hp) as (evs0 & Htr & Hc0).
      revert Hrun. unfold Cjs.handler. rewrite Hm. simpl.
      unfold try_catch at 1. unfold mbind at 1, Eff_bind at 1. rewrite Hp.
      intros Hrun. inversion Hrun; subst; clear Hrun.
      eexists; split; [reflexivity|].
      erewrite events_since_app
        by (simpl; rewrite Htr, <- app_assoc; reflexivity).
      rewrite calls_app, Hc0. simpl. by eapply Cjs.out_parse_failed.
    + destruct (cjs_rejected_or_well_formed form) as [Hrej|(vf & tf & Hwf)].
      * rewrite (cjs_rejected_keeps_staged_files _ _ _ _ _ Hm Hp Hrej) in Hrun.
        inversion Hrun; subst.
        destruct (parseForm_trace _ _ _ _ _ Hp) as (evs0 & Htr & Hc0).
        eexists; split; [reflexivity|].
        erewrite events_since_app by exact Htr. rewrite Hc0.
        by eapply Cjs.out_rejected.
      * destruct (cjs_handler_well_formed _ _ _ _ _ _ _ Hm Hp Hwf)
          as (resp & s2 & Hrun' & Hpipe).
        rewrite Hrun' in Hrun. inversion Hrun; subst.
        eexists; split; [reflexivity|]. by eapply Cjs.out_pipeline.
  - revert Hrun. unfold Cjs.handler.
    destruct (String.eqb_spec (method req) "POST") as [E|E]; [done|]. simpl.
    intros Hrun. inversion Hrun; subst.
    eexists; split; [reflexivity|].
    erewrite events_since_app by (rewrite app_nil_r; reflexivity).
    by apply Cjs.out_method_not_allowed.
Qed.

(** The order of the stages is the same in the earlier handler. *)
Lemma cjs_stage_order r s' :
  Cjs.handler w req s = (r, s') ->
  (forall pre db coll id data acl res post,
      calls (events_since s s')
      = (pre ++ EvCreateDocument db coll id data acl res :: post)%list ->
      post = [] /\ exists put1 put2, pre = [put1; put2]
                   /\ call_succeeded put1 = true /\ call_succeeded put2 = true) /\
  (forall pre ev post,
      calls (events_since s s') = (pre ++ ev :: post)%list ->
      call_failed ev = true ->
      post = []).
Proof.
  intros Hrun.
  destruct (cjs_handler_outcome _ _ Hrun) as (resp & -> & Hout).
  inversion Hout as [ | | | form s1 vf tf cs resp' Hm Hp Hwf Hpipe]; subst.
  1-3: repeat split; intros; match goal with
       | H : [] = (_ ++ _ :: _)%list |- _ => by destruct pre
       end.
  destruct (pipeline_order _ _ _ _ _ _ _ Hpipe) as (Hcreate & Hfail & Hput).
  repeat split; eauto.
  - eapply Hcreate; eauto.
  - destruct (Hcreate _ _ _ _ _ _ _ _ H) as (_ & vbuf & vb & tbuf & tb & ->).
    eexists _, _; done.
Qed.

End CjsOutcome.

Lemma cjs_handler_returns w req s : exists resp s', Cjs.handler w req s = (inr resp, s').
Proof.
  destruct (Cjs.handler w req s) as [r s'] eqn:Hrun.
  destruct (cjs_handler_outcome _ _ _ _ _ Hrun) as (resp & -> & _). eauto.
Qed.

(** ** The busboy handler *)

Ltac unfold_busboy :=
  unfold Busboy.parseMultipartFormData, Busboy.deref, Busboy.console_error;
  unfold mbind, Eff_bind, mret, Eff_ret, Busboy.put, Busboy.createDocument,
    Busboy.toISOString_now, Busboy.emit, try_catch, throw; simpl.

Lemma busboy_events_since_app (s : Busboy.State) evs :
  Busboy.events_since s (s ++ evs)%list = evs.
Proof. unfold Busboy.events_since. by rewrite drop_app_length. Qed.

Ltac read_busboy_events :=
  rewrite <- ?app_assoc; rewrite busboy_events_since_app.

Section BusboyRuns.
Context (w : Busboy.World) (req : Busboy.Request) (s : Busboy.State).

(** A field that fails validation is answered 400 with no collaborator
    call; the texts are not trimmed and zero or negative durations pass. *)
Lemma busboy_rejects_invalid_input fd :
  Busboy.method req = "POST" ->
  Js.truthy (Busboy.content_type req) = true ->
  Busboy.parsed req = inr fd ->
  Busboy.rejected fd ->
  exists resp s',
    Busboy.handler w req s = (inr resp, s') /\
    status resp = 400 /\
    Busboy.calls (Busboy.events_since s s') = [].
Proof.
  intros Hm Hct Hp Hrej.
  unfold Busboy.handler. rewrite Hm. simpl. unfold_busboy. rewrite Hct, Hp. simpl.
  fold (Busboy.duration_of fd).
  match goal with
  | |- context [if ?c then _ else _] => assert (Hc : c = true)
  end.
  { unfold Busboy.rejected in Hrej.
    destruct Hrej as [H|[H|[H|[H|H]]]]; rewrite H; simpl;
      rewrite ?orb_true_r; reflexivity. }
  rewrite Hc. eexists _, _. split; [reflexivity|]. split; [reflexivity|].
  by rewrite busboy_events_since_app.
Qed.

(** With every call succeeding, the record carries the urls that the two
    uploads returned, and a zero view count. *)
Lemma busboy_record_urls fd vf tf r s' :
  Busboy.method req = "POST" ->
  Js.truthy (Busboy.content_type req) = true ->
  Busboy.parsed req = inr fd ->
  Busboy.well_formed fd vf tf ->
  Busboy.handler w req s = (r, s') ->
  Forall (fun ev => Busboy.call_succeeded ev = true)
         (Busboy.calls (Busboy.events_since s s')) ->
  exists vb tb db coll data doc,
    Busboy.calls (Busboy.events_since s s')
    = [Busboy.EvPut (Busboy.name_of vf) vf (Busboy.put_options vf) (inr vb);
       Busboy.EvPut (Busboy.name_of tf) tf (Busboy.put_options tf) (inr tb);
       Busboy.EvCreateDocument db coll ID_unique data (inr doc)] /\
    vd_videoUrl data = url vb /\
    vd_thumbnailUrl data = url tb /\
    vd_viewsCount data = 0 /\
    vd_duration data = Busboy.duration_of fd /\
    vd_isPremium data = Busboy.isPremium_of fd /\
    r = inr (ok doc vb tb).
Proof.
  intros Hm Hct Hp (Ht & Hd & Hn & Hv & Hvt & Hth & Htt).
  unfold Busboy.handler. rewrite Hm. simpl. unfold_busboy. rewrite Hct, Hp. simpl.
  fold (Busboy.duration_of fd). fold (Busboy.isPremium_of fd).
  rewrite Ht, Hd, Hn, Hv, Hth, Hvt, Htt. simpl.
  generalize (Busboy.isPremium_of fd) (Busboy.duration_of fd). intros premium duration.
  case_innermost.
  all: intros Hrun; inversion Hrun; subst; clear Hrun.
  all: read_busboy_events; simpl; intros Hok.
  all: repeat match goal with
       | H : Forall _ (_ :: _) |- _ => inversion H; subst; clear H
       end; simpl in *; try discriminate.
  eexists _, _, _, _, _, _. repeat split; reflexivity.
Qed.

End BusboyRuns.

(** The busboy handler, too, accepts blank titles and non-positive
    durations. *)
Lemma busboy_accepts_blank_and_nonpositive :
  (exists resp s',
     Busboy.handler Scenario.busboy_world
       (Scenario.busboy_request_with "POST" "   " "-5") [] = (inr resp, s') /\
     status resp = 200) /\
  (exists resp s',
     Busboy.handler Scenario.busboy_world
       (Scenario.busboy_request_with "POST" "Trailer" "0") [] = (inr resp, s') /\
     status resp = 200).
Proof.
  split; eexists _, _; split; vm_compute; reflexivity.
Qed.

(** ** Failures before validation *)



(** X2. When the staging directory is missing and cannot be made, the
    request is answered 500 with that error's message before anything is
    parsed: nothing is staged and the only events are the failed [mkdir]
    and the error log. *)
Theorem unmakeable_staging_dir_is_server_error w req s e r s' :
  method req = "POST" ->
  tmp_exists s = false ->
  mkdir_fault w = Some e ->
  handler w req s = (r, s') ->
  (exists text,
     r = inr {| status := 500;
                body := ErrorBody "Internal Server Error" (Some text) (Some (message e)) |}) /\
  events_since s s'
  = [EvMkdir uploadDir (Some e); EvError "Error in upload-video API:" e] /\
  disk s' = disk s.
Proof.
  intros Hm Htmp Hfault Hrun.
  assert (Hp : parseForm w req s = (inl e, log (EvMkdir uploadDir (Some e)) s)).
  { unfold parseForm, ensure_tmp, form_parse. unfold_run. by rewrite Htmp, Hfault. }
  rewrite (handler_parse_failed _ _ _ _ _ Hm Hp) in Hrun. inversion Hrun; subst.
  split; [eexists; reflexivity|]. split; [|reflexivity].
  apply events_since_app. simpl. by rewrite <- app_assoc.
Qed.

Lemma unmakeable_staging_dir_is_server_error_witness :
  (exists text,
     fst (handler Cases.world_read_only (Scenario.request "Trailer" "120") Scenario.state0)
     = inr {| status := 500;
              body := ErrorBody "Internal Server Error" (Some text)
                        (Some "EROFS: read-only file system, mkdir './tmp'") |}) /\
  events_since Scenario.state0
    (snd (handler Cases.world_read_only (Scenario.request "Trailer" "120") Scenario.state0))
  = [EvMkdir uploadDir (Some {| message := "EROFS: read-only file system, mkdir './tmp'" |});
     EvError "Error in upload-video API:"
             {| message := "EROFS: read-only file system, mkdir './tmp'" |}] /\
  disk (snd (handler Cases.world_read_only (Scenario.request "Trailer" "120")
                     Scenario.state0))
  = disk Scenario.state0.
Proof.
  apply (unmakeable_staging_dir_is_server_error Cases.world_read_only
           (Scenario.request "Trailer" "120") Scenario.state0
           {| message := "EROFS: read-only file system, mkdir './tmp'" |}).
  - reflexivity.
  - reflexivity.
  - reflexivity.
  - vm_compute. reflexivity.
Defined.

(** ** Validation of the team identifier *)

(** X3. The handler with access control answers 400, without any
    collaborator call, to a request that lacks a team identifier and is
    otherwise complete; the earlier handler, which has no such check, lets
    the same request through to the storage stage. *)
Theorem team_identifier_is_required w req s form s1 vf tf :
  method req = "POST" ->
  parseForm w req s = (inr form, s1) ->
  Js.truthy (teamId_of form) = false ->
  Cjs.well_formed form vf tf ->
  (exists resp s',
     handler w req s = (inr resp, s') /\ status resp = 400 /\
     calls (events_since s s') = []) /\
  (exists resp s',
     Cjs.handler w req s = (inr resp, s') /\ status resp <> 400).
Proof.
  intros Hm Hp Hteam Hwf. split.
  - assert (Hrej : rejected form) by (unfold rejected; tauto).
    destruct (handler_rejected _ _ _ _ _ Hm Hp Hrej) as (s' & Hrun & Hc & _). eauto.
  - destruct (cjs_handler_well_formed _ _ _ _ _ _ _ Hm Hp Hwf) as (resp & s' & Hrun & Hpipe).
    exists resp, s'. split; [done|].
    destruct (pipeline_status _ _ _ _ _ _ _ Hpipe) as [E|E]; rewrite E; done.
Qed.

Lemma team_identifier_is_required_witness :
  (exists resp s',
     handler Scenario.world_ok Cases2.request_without_team Scenario.state0
     = (inr resp, s') /\ status resp = 400 /\
     calls (events_since Scenario.state0 s') = []) /\
  (exists resp s',
     Cjs.handler Scenario.world_ok Cases2.request_without_team Scenario.state0
     = (inr resp, s') /\ status resp <> 400).
Proof.
  apply (team_identifier_is_required Scenario.world_ok Cases2.request_without_team
           Scenario.state0 Cases2.form_without_team
           (snd (parseForm Scenario.world_ok Cases2.request_without_team Scenario.state0))
           Scenario.trailer Scenario.poster).
  - reflexivity.
  - vm_compute. reflexivity.
  - vm_compute. reflexivity.
  - vm_compute. repeat split; reflexivity.
Defined.

(** ** Staged files that share a path *)

Lemma staged_two_at_one_path w d pv pt :
  staged_path w pv = staged_path w pt ->
  staged w [pv; pt] d !! staged_path w pt
  = Some (overlapping_write w (part_data pv) (part_data pt)).
Proof.
  intros Hsame. unfold staged. cbn [fold_left]. unfold stage. rewrite Hsame.
  rewrite lookup_insert_eq. cbn [fst].
  rewrite lookup_insert_eq.
  rewrite (bool_decide_eq_true_2 (staged_path w pt ∈ _)) by set_solver.
  destruct (d !! staged_path w pt); [|reflexivity].
  rewrite bool_decide_eq_false_2 by set_solver. reflexivity.
Qed.

(** X4. When the video part and the thumbnail part are staged at the same
    path, which happens when their declared file names agree, the two
    storage calls carry the same bytes, namely what the two overlapping
    writes left at that path: the asset stored as the video and the asset
    stored as the thumbnail are one and the same content. *)
Theorem shared_staging_path_uploads_same_bytes
    w req s form vf tf pv pt r s' n1 b1 o1 r1 n2 b2 o2 r2 rest :
  handler w req s = (r, s') ->
  tmp_exists s = true \/ mkdir_fault w = None ->
  parsed req = inr form ->
  videoFile_of form = Some vf ->
  thumbnailFile_of form = Some tf ->
  uploads req = [pv; pt] ->
  filepath vf = staged_path w pv ->
  filepath tf = staged_path w pt ->
  staged_path w pv = staged_path w pt ->
  calls (events_since s s') = EvPut n1 b1 o1 r1 :: EvPut n2 b2 o2 r2 :: rest ->
  b1 = overlapping_write w (part_data pv) (part_data pt) /\ b2 = b1.
Proof.
  intros Hrun Htmp Hparsed Hv Hth Hup Hpv Hpt Hsame Hcalls.
  destruct (handler_outcome _ _ _ _ _ Hrun) as (resp & -> & Hout).
  rewrite Hcalls in Hout.
  inversion Hout as [ | | | form' s1 vf' tf' cs resp' Hm Hp Hwf Hpipe]; subst.
  pose proof (parseForm_parsed _ _ _ _ _ Hp) as Hparsed'.
  rewrite Hparsed in Hparsed'. inversion Hparsed'; subst form'.
  destruct Hwf as (_ & _ & _ & Hv' & Hth' & _).
  rewrite Hv in Hv'. rewrite Hth in Hth'. inversion Hv'. inversion Hth'. subst vf' tf'.
  assert (Hdisk : disk s1 = staged w (uploads req) (disk s)).
  { destruct (parseForm_disk _ _ _ _ _ Hp) as [H|(H1 & [e H2] & _)]; [done|].
    destruct Htmp; congruence. }
  assert (Hlook : disk s1 !! staged_path w pt
                  = Some (overlapping_write w (part_data pv) (part_data pt))).
  { rewrite Hdisk, Hup. by apply staged_two_at_one_path. }
  assert (Hvl : disk s1 !! filepath vf
                = Some (overlapping_write w (part_data pv) (part_data pt)))
    by (rewrite Hpv, Hsame; exact Hlook).
  assert (Htl : disk s1 !! filepath tf
                = Some (overlapping_write w (part_data pv) (part_data pt)))
    by (rewrite Hpt; exact Hlook).
  inversion Hpipe; subst; split; congruence.
Qed.

Lemma shared_staging_path_uploads_same_bytes_witness :
  exists n1 b1 o1 r1 n2 b2 o2 r2 rest,
    calls (events_since Scenario.state0
             (snd (handler Scenario.world_ok Cases2.same_name_request Scenario.state0)))
    = EvPut n1 b1 o1 r1 :: EvPut n2 b2 o2 r2 :: rest /\
    b1 = overlapping_write Scenario.world_ok (part_data Cases2.same_name_video)
                           (part_data Cases2.same_name_thumbnail) /\
    b2 = b1.
Proof.
  eexists _, _, _, _, _, _, _, _, _. split; [vm_compute; reflexivity|].
  eapply (shared_staging_path_uploads_same_bytes
            Scenario.world_ok Cases2.same_name_request Scenario.state0
            _ (Cases2.file_of Cases2.same_name_video)
            (Cases2.file_of Cases2.same_name_thumbnail)
            Cases2.same_name_video Cases2.same_name_thumbnail
            (fst (handler Scenario.world_ok Cases2.same_name_request Scenario.state0))
            (snd (handler Scenario.world_ok Cases2.same_name_request Scenario.state0))).
  - vm_compute. reflexivity.
  - right. reflexivity.
  - reflexivity.
  - reflexivity.
  - reflexivity.
  - reflexivity.
  - reflexivity.
  - reflexivity.
  - reflexivity.
  - vm_compute. reflexivity.
Defined.

(** ** Removal of the staged files, when removal fails *)

(** X5. After the two uploads the staged files are removed inside one
    [try] block: when removing the video's file fails, removing the
    thumbnail's file is not attempted, the disk is left as the parse left
    it, the failure is logged as a warning, and the run goes on to the
    document-store write. *)
Theorem failed_video_unlink_skips_thumbnail_unlink w req s form s1 vf tf r s' e :
  method req = "POST" ->
  parseForm w req s = (inr form, s1) ->
  well_formed form vf tf ->
  handler w req s = (r, s') ->
  head (unlink_events (events_since s s')) = Some (EvUnlink (filepath vf) (Some e)) ->
  unlink_events (events_since s s') = [EvUnlink (filepath vf) (Some e)] /\
  disk s' = disk s1 /\
  In (EvWarn "WARNING: Failed to delete temporary files:" e) (events_since s s') /\
  existsb is_create (calls (events_since s s')) = true.
Proof.
  intros Hm Hp (Ht & Hd & Hn & Hv & Hth & Hteam).
  destruct (parseForm_trace _ _ _ _ _ Hp) as (evs0 & Htr & Hc0).
  assert (Hu0 : unlink_events evs0 = []).
  { revert Hp Htr. unfold parseForm, ensure_tmp, form_parse. unfold_run.
    destruct (tmp_exists s); [|destruct (mkdir_fault w)]; simpl;
      destruct (parsed req); simpl; intros H; inversion H; subst; clear H; simpl;
      rewrite <- ?app_assoc; intros Htr; apply app_inv_head in Htr; subst; reflexivity. }
  unfold handler. rewrite Hm. simpl.
  unfold try_catch at 1. unfold mbind at 1, Eff_bind at 1. rewrite Hp.
  fold (title_of form) (description_of form) (duration_text_of form) (teamId_of form)
       (videoFile_of form) (thumbnailFile_of form).
  fold (duration_of form).
  rewrite Ht, Hd, Hn, Hv, Hth, Hteam. simpl.
  destruct s1 as [d1 x1 t1]; simpl in Htr; subst t1.
  destruct s as [d0 x0 t0]; simpl in *.
  unfold_run. case_innermost.
  all: intros Hrun; inversion Hrun; subst; clear Hrun; simpl.
  all: read_events.
  all: unfold unlink_events, calls; rewrite !List.filter_app;
    fold (unlink_events evs0) (calls evs0); rewrite Hu0, Hc0; simpl.
  all: intros Hhead; inversion Hhead; subst; clear Hhead.
  all: repeat split; try reflexivity.
  all: rewrite in_app_iff; right; simpl; tauto.
Qed.

Lemma failed_video_unlink_skips_thumbnail_unlink_witness :
  unlink_events
    (events_since Scenario.state0
       (snd (handler Cases2.world_video_pinned (Scenario.request "Trailer" "120")
                     Scenario.state0)))
  = [EvUnlink (filepath Scenario.trailer)
              (Some {| message := "EBUSY: resource busy or locked" |})] /\
  disk (snd (handler Cases2.world_video_pinned (Scenario.request "Trailer" "120")
                     Scenario.state0))
  = disk (snd (parseForm Cases2.world_video_pinned (Scenario.request "Trailer" "120")
                         Scenario.state0)) /\
  In (EvWarn "WARNING: Failed to delete temporary files:"
             {| message := "EBUSY: resource busy or locked" |})
     (events_since Scenario.state0
        (snd (handler Cases2.world_video_pinned (Scenario.request "Trailer" "120")
                      Scenario.state0))) /\
  existsb is_create
    (calls (events_since Scenario.state0
              (snd (handler Cases2.world_video_pinned (Scenario.request "Trailer" "120")
                            Scenario.state0)))) = true.
Proof.
  apply (failed_video_unlink_skips_thumbnail_unlink
           Cases2.world_video_pinned (Scenario.request "Trailer" "120") Scenario.state0
           (Scenario.form_of "Trailer" "120") _ Scenario.trailer Scenario.poster
           (fst (handler Cases2.world_video_pinned (Scenario.request "Trailer" "120")
                         Scenario.state0))).
  - reflexivity.
  - vm_compute. reflexivity.
  - vm_compute. repeat split; reflexivity.
  - vm_compute. reflexivity.
  - vm_compute. reflexivity.
Defined.

(** X6. On the validation-failure path each staged file is removed under
    its own [catch]: both removals are attempted, in the order video then
    thumbnail, whatever the outcome of the first, and the answer is 400
    either way. *)
Theorem rejected_cleanup_attempts_both w req s form s1 vf tf :
  method req = "POST" ->
  parseForm w req s = (inr form, s1) ->
  rejected form ->
  videoFile_of form = Some vf ->
  thumbnailFile_of form = Some tf ->
  filepath vf <> "" ->
  filepath tf <> "" ->
  exists resp s' rv rt,
    handler w req s = (inr resp, s') /\
    status resp = 400 /\
    unlink_events (events_since s s')
    = [EvUnlink (filepath vf) rv; EvUnlink (filepath tf) rt] /\
    (rt = None -> disk s' !! filepath tf = None).
Proof.
  intros Hm Hp Hrej Hv Hth Hvp Htp.
  destruct (parseForm_trace _ _ _ _ _ Hp) as (evs0 & Htr & Hc0).
  assert (Hu0 : unlink_events evs0 = []).
  { revert Hp Htr. unfold parseForm, ensure_tmp, form_parse. unfold_run.
    destruct (tmp_exists s); [|destruct (mkdir_fault w)]; simpl;
      destruct (parsed req); simpl; intros H; inversion H; subst; clear H; simpl;
      rewrite <- ?app_assoc; intros Htr; apply app_inv_head in Htr; subst; reflexivity. }
  unfold handler. rewrite Hm. simpl.
  unfold try_catch at 1. unfold mbind at 1, Eff_bind at 1. rewrite Hp.
  fold (title_of form) (description_of form) (duration_text_of form) (teamId_of form)
       (videoFile_of form) (thumbnailFile_of form).
  fold (duration_of form).
  match goal with
  | |- context [if ?c then _ else _] => assert (Hc : c = true)
  end.
  { unfold rejected in Hrej.
    destruct Hrej as [H|[H|[H|[H|[H|H]]]]]; rewrite H; simpl;
      rewrite ?orb_true_r; reflexivity. }
  rewrite Hc, Hv, Hth. clear Hc Hrej.
  destruct s1 as [d1 x1 t1]; simpl in Htr; subst t1.
  destruct s as [d0 x0 t0]; simpl in *.
  unfold_run.
  destruct (filepath vf) as [|cv pv] eqn:Ev; [done|].
  destruct (filepath tf) as [|ct pt] eqn:Et; [done|]. simpl.
  case_innermost.
  all: eexists _, _, _, _; (split; [reflexivity|]); (split; [reflexivity|]).
  all: read_events.
  all: unfold unlink_events; rewrite !List.filter_app;
    fold (unlink_events evs0); rewrite Hu0; simpl.
  all: split; [reflexivity|]; intros Hrt; try discriminate.
  all: apply lookup_delete_eq.
Qed.

Lemma rejected_cleanup_attempts_both_witness :
  exists resp s' rv rt,
    handler Cases2.world_video_pinned (Scenario.request "Trailer" "abc") Scenario.state0
    = (inr resp, s') /\
    status resp = 400 /\
    unlink_events (events_since Scenario.state0 s')
    = [EvUnlink (filepath Scenario.trailer) rv; EvUnlink (filepath Scenario.poster) rt] /\
    (rt = None -> disk s' !! filepath Scenario.poster = None).
Proof.
  apply (rejected_cleanup_attempts_both
           Cases2.world_video_pinned (Scenario.request "Trailer" "abc") Scenario.state0
           (Scenario.form_of "Trailer" "abc")
           (snd (parseForm Cases2.world_video_pinned (Scenario.request "Trailer" "abc")
                           Scenario.state0))).
  - reflexivity.
  - vm_compute. reflexivity.
  - right; right; left. vm_compute. reflexivity.
  - reflexivity.
  - reflexivity.
  - discriminate.
  - discriminate.
Defined.

(** ** The busboy handler: order of the stages and early failures *)

Section BusboyOrder.
Context (w : Busboy.World) (req : Busboy.Request) (s : Busboy.State).

(** X7. Without a [Content-Type] header the busboy handler never starts
    the parser: it answers 500 with a fixed message as details, and the only
    events of the run are the two error logs. *)
Theorem busboy_requires_content_type r s' :
  Busboy.method req = "POST" ->
  Js.truthy (Busboy.content_type req) = false ->
  Busboy.handler w req s = (r, s') ->
  r = inr {| status := 500;
             body := ErrorBody "Internal Server Error"
                       (Some "Failed to process video upload and save metadata. Please try again.")
                       (Some "Missing request headers or Content-Type for multipart form data.") |} /\
  Busboy.events_since s s'
  = [Busboy.EvError "ERROR: Missing request headers or Content-Type."
       {| message := "Missing request headers or Content-Type for multipart form data." |};
     Busboy.EvError "Error in upload-video API:"
       {| message := "Missing request headers or Content-Type for multipart form data." |}].
Proof.
  intros Hm Hct. unfold Busboy.handler. rewrite Hm. simpl. unfold_busboy. rewrite Hct. simpl.
  intros Hrun. inversion Hrun; subst. split; [reflexivity|].
  rewrite <- app_assoc. apply busboy_events_since_app.
Qed.

(** X8. Every run of the busboy handler ends with an answer, and its
    collaborator calls are, in order, the video upload, the thumbnail upload
    and the document-store write, cut short at the first failure: the write
    is attempted only after both uploads succeeded, it carries the urls they
    returned, and the answer is 200 only when all three succeeded. *)
Theorem busboy_stages_in_order r s' :
  Busboy.handler w req s = (r, s') ->
  exists resp,
    r = inr resp /\
    busboy_in_stage_order (Busboy.calls (Busboy.events_since s s')) (status resp).
Proof.
  unfold Busboy.handler.
  destruct (String.eqb (Busboy.method req) "POST"); simpl.
  2:{ intros Hrun; inversion Hrun; subst. eexists; split; [reflexivity|].
      rewrite <- (app_nil_r s') at 2. rewrite busboy_events_since_app. simpl. tauto. }
  unfold_busboy.
  destruct (Js.truthy (Busboy.content_type req)); simpl.
  2:{ intros Hrun; inversion Hrun; subst. eexists; split; [reflexivity|].
      read_busboy_events. simpl. tauto. }
  destruct (Busboy.parsed req) as [e|fd]; simpl.
  { intros Hrun; inversion Hrun; subst. eexists; split; [reflexivity|].
    read_busboy_events. simpl. tauto. }
  fold (Busboy.duration_of fd). fold (Busboy.isPremium_of fd).
  generalize (Busboy.isPremium_of fd) (Busboy.duration_of fd). intros premium duration.
  destruct (_ || _) eqn:Hvalid; simpl.
  { intros Hrun; inversion Hrun; subst. eexists; split; [reflexivity|].
    read_busboy_events. simpl. tauto. }
  case_innermost.
  all: try (simpl in Hvalid;
            repeat (rewrite orb_true_r in Hvalid; simpl in Hvalid); discriminate).
  all: intros Hrun; inversion Hrun; subst; clear Hrun.
  all: eexists; (split; [reflexivity|]).
  all: read_busboy_events; simpl; try tauto; repeat split; reflexivity.
Qed.

End BusboyOrder.

Lemma busboy_requires_content_type_witness :
  fst (Busboy.handler Scenario.busboy_world Cases3.request_without_content_type [])
  = inr {| status := 500;
           body := ErrorBody "Internal Server Error"
                     (Some "Failed to process video upload and save metadata. Please try again.")
                     (Some "Missing request headers or Content-Type for multipart form data.") |}.
Proof.
  refine (proj1 (busboy_requires_content_type
                   Scenario.busboy_world Cases3.request_without_content_type []
                   (fst (Busboy.handler Scenario.busboy_world
                           Cases3.request_without_content_type []))
                   (snd (Busboy.handler Scenario.busboy_world
                           Cases3.request_without_content_type []))
                   _ _ _)).
  - reflexivity.
  - reflexivity.
  - vm_compute. reflexivity.
Defined.

Lemma busboy_stages_in_order_witness :
  exists resp,
    fst (Busboy.handler Scenario.busboy_world
           (Scenario.busboy_request_with "POST" "Trailer" "120") [])
    = inr resp /\
    busboy_in_stage_order
      (Busboy.calls (Busboy.events_since []
         (snd (Busboy.handler Scenario.busboy_world
                 (Scenario.busboy_request_with "POST" "Trailer" "120") []))))
      (status resp).
Proof.
  apply (busboy_stages_in_order Scenario.busboy_world
           (Scenario.busboy_request_with "POST" "Trailer" "120") []).
  vm_compute. reflexivity.
Defined.

(** ** What the busboy handler reads from the body *)

Lemma accumulate_from (chunks : list bytes) (acc : bytes) :
  fold_left (fun fileBuffer data => (fileBuffer ++ data)%list) chunks acc
  = (acc ++ List.concat chunks)%list.
Proof.
  revert acc. induction chunks as [|c chunks IH]; intros acc; simpl.
  - by rewrite app_nil_r.
  - by rewrite IH, app_assoc.
Qed.

Lemma accumulate_concat chunks : BusboyStream.accumulate chunks = List.concat chunks.
Proof. unfold BusboyStream.accumulate. by rewrite accumulate_from. Qed.

Lemma busboy_get_app (fd1 fd2 : Busboy.FormData) k :
  Busboy.get (fd1 ++ fd2)%list k
  = match Busboy.get fd1 k with
    | Some v => Some v
    | None => Busboy.get fd2 k
    end.
Proof.
  induction fd1 as [|[k' v] fd1 IH]; simpl; [done|].
  by destruct (String.eqb k' k).
Qed.

Lemma collect_entries parts (fd : Busboy.FormData) :
  forallb (fun p => negb (BusboyStream.part_failed p)) parts = true ->
  BusboyStream.collect parts fd
  = inr (fd ++ omap BusboyStream.entry_of parts)%list.
Proof.
  revert fd. induction parts as [|p parts IH]; intros fd Hok; simpl.
  - by rewrite app_nil_r.
  - simpl in Hok. apply andb_prop in Hok as [Hp Hok].
    destruct p as [n v|n f m c [e|]]; simpl in *; try discriminate;
      rewrite IH by done; by rewrite <- app_assoc.
Qed.

Lemma get_omap_entries parts k :
  forallb (fun p => negb (BusboyStream.part_failed p)) parts = true ->
  Busboy.get (omap BusboyStream.entry_of parts) k
  = snd <$> (List.find (fun p => String.eqb (BusboyStream.part_name_of p) k) parts
             ≫= BusboyStream.entry_of).
Proof.
  induction parts as [|p parts IH]; intros Hok; simpl; [done|].
  simpl in Hok. apply andb_prop in Hok as [Hp Hok].
  destruct p as [n v|n f m c [e|]]; simpl in *; try discriminate;
    destruct (String.eqb n k); simpl; auto.
Qed.

(** X9. When no file stream fails and the parser closes, the promise
    resolves with one entry per part, in the order of the body, and what the
    handler reads under a name is the first part sent under that name: later
    parts of the same name are ignored. *)
Theorem busboy_reads_first_part_of_a_name parts k :
  forallb (fun p => negb (BusboyStream.part_failed p)) parts = true ->
  exists formData,
    BusboyStream.settle parts BusboyStream.Close = inr formData /\
    formData = omap BusboyStream.entry_of parts /\
    Busboy.get formData k
    = snd <$> (List.find (fun p => String.eqb (BusboyStream.part_name_of p) k) parts
               ≫= BusboyStream.entry_of).
Proof.
  intros Hok. unfold BusboyStream.settle. rewrite collect_entries by done. simpl.
  eexists. split; [reflexivity|]. split; [reflexivity|]. by apply get_omap_entries.
Qed.

Lemma busboy_reads_first_part_of_a_name_witness :
  exists formData,
    BusboyStream.settle Cases3.parts_two_titles BusboyStream.Close = inr formData /\
    formData = omap BusboyStream.entry_of Cases3.parts_two_titles /\
    Busboy.get formData "title"
    = snd <$> (List.find (fun p => String.eqb (BusboyStream.part_name_of p) "title")
                         Cases3.parts_two_titles
               ≫= BusboyStream.entry_of).
Proof.
  apply (busboy_reads_first_part_of_a_name Cases3.parts_two_titles "title").
  reflexivity.
Defined.

Section BusboyBody.
Context (w : Busboy.World) (s : Busboy.State).

Lemma busboy_first_call req fd vf tf r s' :
  Busboy.method req = "POST" ->
  Js.truthy (Busboy.content_type req) = true ->
  Busboy.parsed req = inr fd ->
  Busboy.well_formed fd vf tf ->
  Busboy.handler w req s = (r, s') ->
  exists res rest,
    Busboy.calls (Busboy.events_since s s')
    = Busboy.EvPut (Busboy.name_of vf) vf (Busboy.put_options vf) res :: rest /\
    (forall vb, res = inr vb ->
       exists res2 rest2,
         rest = Busboy.EvPut (Busboy.name_of tf) tf (Busboy.put_options tf) res2 :: rest2).
Proof.
  intros Hm Hct Hp (Ht & Hd & Hn & Hv & Hvt & Hth & Htt).
  unfold Busboy.handler. rewrite Hm. simpl. unfold_busboy. rewrite Hct, Hp. simpl.
  fold (Busboy.duration_of fd). fold (Busboy.isPremium_of fd).
  rewrite Ht, Hd, Hn, Hv, Hth, Hvt, Htt. simpl.
  generalize (Busboy.isPremium_of fd) (Busboy.duration_of fd). intros premium duration.
  case_innermost.
  all: intros Hrun; inversion Hrun; subst; clear Hrun.
  all: read_busboy_events; simpl.
  all: eexists _, _; (split; [reflexivity|]); intros vb Hvb; try discriminate.
  all: eexists _, _; reflexivity.
Qed.

(** X10. The bytes that the busboy handler sends to storage for a file are
    the chunks of that file's stream, concatenated in the order they
    arrived; a file whose stream ends without any chunk is not rejected but
    uploaded as an empty blob. *)
Theorem busboy_uploads_concatenated_chunks
    req parts fd vname vtype vchunks tname ttype tchunks r s' :
  Busboy.method req = "POST" ->
  Js.truthy (Busboy.content_type req) = true ->
  Busboy.parsed req = BusboyStream.settle parts BusboyStream.Close ->
  forallb (fun p => negb (BusboyStream.part_failed p)) parts = true ->
  BusboyStream.settle parts BusboyStream.Close = inr fd ->
  List.find (fun p => String.eqb (BusboyStream.part_name_of p) "videoFile") parts
  = Some (BusboyStream.FilePart "videoFile" vname vtype vchunks None) ->
  List.find (fun p => String.eqb (BusboyStream.part_name_of p) "thumbnailFile") parts
  = Some (BusboyStream.FilePart "thumbnailFile" tname ttype tchunks None) ->
  Busboy.truthy (Busboy.get fd "title") = true ->
  Busboy.truthy (Busboy.get fd "description") = true ->
  Js.isNaN (Busboy.duration_of fd) = false ->
  Busboy.handler w req s = (r, s') ->
  exists res rest,
    Busboy.calls (Busboy.events_since s s')
    = Busboy.EvPut vname
        (Busboy.EBlob {| Busboy.name := vname; Busboy.type := vtype;
                         Busboy.data := List.concat vchunks |})
        {| access := "public"; contentType := vtype |} res :: rest /\
    (forall vb, res = inr vb ->
       exists res2 rest2,
         rest = Busboy.EvPut tname
                  (Busboy.EBlob {| Busboy.name := tname; Busboy.type := ttype;
                                   Busboy.data := List.concat tchunks |})
                  {| access := "public"; contentType := ttype |} res2 :: rest2).
Proof.
  intros Hm Hct Hparsed Hok Hsettle Hv Hth Ht Hd Hn Hrun.
  destruct (busboy_reads_first_part_of_a_name parts "videoFile" Hok)
    as (fd1 & Hs1 & _ & Hgv).
  destruct (busboy_reads_first_part_of_a_name parts "thumbnailFile" Hok)
    as (fd2 & Hs2 & _ & Hgt).
  rewrite Hsettle in Hs1, Hs2. inversion Hs1; subst fd1. inversion Hs2; subst fd2.
  rewrite Hv in Hgv. rewrite Hth in Hgt. simpl in Hgv, Hgt.
  rewrite accumulate_concat in Hgv, Hgt.
  rewrite Hsettle in Hparsed.
  assert (Hwf : Busboy.well_formed fd
            (Busboy.EBlob {| Busboy.name := vname; Busboy.type := vtype;
                             Busboy.data := List.concat vchunks |})
            (Busboy.EBlob {| Busboy.name := tname; Busboy.type := ttype;
                             Busboy.data := List.concat tchunks |})).
  { unfold Busboy.well_formed. repeat split; done. }
  destruct (busboy_first_call req fd _ _ r s' Hm Hct Hparsed Hwf Hrun)
    as (res & rest & Hc & Hnext).
  exists res, rest. split; [exact Hc|exact Hnext].
Qed.

(** X11. A file stream that fails rejects the promise with that error,
    however the parse ends and whatever parts follow: the handler answers 500
    with the stream error's message as details and calls no collaborator. *)
Theorem busboy_file_stream_error_aborts
    req before name filename mimeType chunks err after ending r s' :
  Busboy.method req = "POST" ->
  Js.truthy (Busboy.content_type req) = true ->
  Busboy.parsed req
  = BusboyStream.settle
      (before ++ BusboyStream.FilePart name filename mimeType chunks (Some err) :: after)
      ending ->
  forallb (fun p => negb (BusboyStream.part_failed p)) before = true ->
  Busboy.handler w req s = (r, s') ->
  Busboy.parsed req = inl err /\
  (exists text,
     r = inr {| status := 500;
                body := ErrorBody "Internal Server Error" (Some text)
                                  (Some (message err)) |}) /\
  Busboy.calls (Busboy.events_since s s') = [].
Proof.
  intros Hm Hct Hparsed Hok.
  assert (Hsettle : Busboy.parsed req = inl err).
  { rewrite Hparsed. unfold BusboyStream.settle.
    assert (H : forall fd, BusboyStream.collect
              (before ++ BusboyStream.FilePart name filename mimeType chunks (Some err)
                      :: after) fd = inl err).
    { clear -Hok. induction before as [|p before IH]; intros fd; simpl; [done|].
      simpl in Hok. apply andb_prop in Hok as [Hp Hok].
      destruct p as [n v|n f m c [e|]]; simpl in *; try discriminate; by apply IH. }
    by rewrite H. }
  unfold Busboy.handler. rewrite Hm. simpl. unfold_busboy.
  rewrite Hct, Hsettle. simpl.
  intros Hrun; inversion Hrun; subst. split; [done|]. split; [eexists; reflexivity|].
  read_busboy_events. reflexivity.
Qed.

(** X12. A non-empty text field sent under the name [videoFile] passes the
    busboy handler's validation as if it were the file: the text is handed to
    the object store as the body, with no name and no content type. *)
Theorem busboy_text_field_passes_as_video req fd text tf r s' :
  Busboy.method req = "POST" ->
  Js.truthy (Busboy.content_type req) = true ->
  Busboy.parsed req = inr fd ->
  Busboy.truthy (Busboy.get fd "title") = true ->
  Busboy.truthy (Busboy.get fd "description") = true ->
  Js.isNaN (Busboy.duration_of fd) = false ->
  Busboy.get fd "videoFile" = Some (Busboy.EStr text) ->
  text <> "" ->
  Busboy.get fd "thumbnailFile" = Some tf ->
  Busboy.truthy (Some tf) = true ->
  Busboy.handler w req s = (r, s') ->
  exists res rest,
    Busboy.calls (Busboy.events_since s s')
    = Busboy.EvPut None (Busboy.EStr text)
        {| access := "public"; contentType := None |} res :: rest.
Proof.
  intros Hm Hct Hp Ht Hd Hn Hv Htext Hth Htt Hrun.
  assert (Hwf : Busboy.well_formed fd (Busboy.EStr text) tf).
  { unfold Busboy.well_formed. repeat split; try done. by destruct text. }
  destruct (busboy_first_call req fd _ _ r s' Hm Hct Hp Hwf Hrun) as (res & rest & Hc & _).
  eauto.
Qed.

End BusboyBody.

Lemma busboy_uploads_concatenated_chunks_witness :
  exists res rest,
    Busboy.calls (Busboy.events_since []
      (snd (Busboy.handler Scenario.busboy_world
              (Cases3.request_of_parts Cases3.parts_two_titles BusboyStream.Close) [])))
    = Busboy.EvPut (Some "trailer.mp4")
        (Busboy.EBlob {| Busboy.name := Some "trailer.mp4";
                         Busboy.type := Some "video/mp4";
                         Busboy.data := List.concat [[x00; x00]%list; [x00; x18]%list] |})
        {| access := "public"; contentType := Some "video/mp4" |} res :: rest /\
    (forall vb, res = inr vb ->
       exists res2 rest2,
         rest = Busboy.EvPut (Some "poster.jpg")
                  (Busboy.EBlob {| Busboy.name := Some "poster.jpg";
                                   Busboy.type := Some "image/jpeg";
                                   Busboy.data := List.concat [] |})
                  {| access := "public"; contentType := Some "image/jpeg" |}
                  res2 :: rest2).
Proof.
  apply (busboy_uploads_concatenated_chunks
           Scenario.busboy_world []
           (Cases3.request_of_parts Cases3.parts_two_titles BusboyStream.Close)
           Cases3.parts_two_titles
           (omap BusboyStream.entry_of Cases3.parts_two_titles)
           _ _ _ _ _ _
           (fst (Busboy.handler Scenario.busboy_world
                   (Cases3.request_of_parts Cases3.parts_two_titles BusboyStream.Close) []))).
  - reflexivity.
  - reflexivity.
  - reflexivity.
  - reflexivity.
  - reflexivity.
  - reflexivity.
  - reflexivity.
  - reflexivity.
  - reflexivity.
  - reflexivity.
  - vm_compute. reflexivity.
Defined.

Lemma busboy_file_stream_error_aborts_witness :
  Busboy.parsed (Cases3.request_of_parts Cases3.parts_broken_video BusboyStream.Close)
  = inl {| message := "Unexpected end of file" |} /\
  (exists text,
     fst (Busboy.handler Scenario.busboy_world
            (Cases3.request_of_parts Cases3.parts_broken_video BusboyStream.Close) [])
     = inr {| status := 500;
              body := ErrorBody "Internal Server Error" (Some text)
                                (Some "Unexpected end of file") |}) /\
  Busboy.calls (Busboy.events_since []
    (snd (Busboy.handler Scenario.busboy_world
            (Cases3.request_of_parts Cases3.parts_broken_video BusboyStream.Close) [])))
  = [].
Proof.
  apply (busboy_file_stream_error_aborts
           Scenario.busboy_world []
           (Cases3.request_of_parts Cases3.parts_broken_video BusboyStream.Close)
           [BusboyStream.Field "title" "Trailer"]
           "videoFile" (Some "trailer.mp4") (Some "video/mp4") [[x00; x00]%list]
           {| message := "Unexpected end of file" |}
           [BusboyStream.FilePart "thumbnailFile" (Some "poster.jpg") (Some "image/jpeg")
              [Scenario.thumb_bytes] None]
           BusboyStream.Close).
  - reflexivity.
  - reflexivity.
  - reflexivity.
  - reflexivity.
  - vm_compute. reflexivity.
Defined.

Lemma busboy_text_field_passes_as_video_witness :
  exists res rest,
    Busboy.calls (Busboy.events_since []
      (snd (Busboy.handler Scenario.busboy_world
              {| Busboy.method := "POST";
                 Busboy.content_type := Some "multipart/form-data; boundary=x";
                 Busboy.parsed := inr Cases3.formData_text_video |} [])))
    = Busboy.EvPut None (Busboy.EStr "not a file")
        {| access := "public"; contentType := None |} res :: rest.
Proof.
  apply (busboy_text_field_passes_as_video
           Scenario.busboy_world []
           {| Busboy.method := "POST";
              Busboy.content_type := Some "multipart/form-data; boundary=x";
              Busboy.parsed := inr Cases3.formData_text_video |}
           Cases3.formData_text_video "not a file" Scenario.poster_blob
           (fst (Busboy.handler Scenario.busboy_world
                   {| Busboy.method := "POST";
                      Busboy.content_type := Some "multipart/form-data; boundary=x";
                      Busboy.parsed := inr Cases3.formData_text_video |} []))).
  - reflexivity.
  - reflexivity.
  - reflexivity.
  - reflexivity.
  - reflexivity.
  - reflexivity.
  - reflexivity.
  - discriminate.
  - reflexivity.
  - reflexivity.
  - vm_compute. reflexivity.
Defined.

(** ** Durations beyond the range of doubles *)

Lemma round_double_overflow x :
  2 ^ 1024 <= Z.abs x -> Js.round_double x = Js.Inf (x <? 0).
Proof.
  intros Hx. unfold Js.round_double. cbv zeta.
  assert (H53 : 2 ^ 53 < 2 ^ 1024) by (apply Z.pow_lt_mono_r; lia).
  destruct (Z.abs x <? 2 ^ 53) eqn:Hlt; [apply Z.ltb_lt in Hlt; lia|].
  set (a := Z.abs x) in *.
  assert (Ha : 0 < a) by lia.
  pose proof (Z.log2_spec a Ha) as [Hlo _].
  assert (Hlog : 1024 <= Z.log2 a).
  { rewrite <- (Z.log2_pow2 1024) by lia. apply Z.log2_le_mono. lia. }
  set (k := Z.log2 a - 52) in *.
  assert (Hk : 0 <= k) by lia.
  assert (Hpk : 0 < 2 ^ k) by (apply Z.pow_pos_nonneg; lia).
  assert (Hsplit : 2 ^ Z.log2 a = 2 ^ 52 * 2 ^ k).
  { rewrite <- Z.pow_add_r by lia. f_equal. lia. }
  assert (Hq : 2 ^ 52 <= a / 2 ^ k).
  { apply Z.div_le_lower_bound; [lia|]. rewrite Z.mul_comm. lia. }
  assert (Hmono : 2 ^ 1024 <= 2 ^ Z.log2 a) by (apply Z.pow_le_mono_r; lia).
  match goal with
  | |- (if 2 ^ 1024 <=? ?v then _ else _) = _ => assert (Hv : 2 ^ 1024 <= v)
  end.
  { destruct (_ || _); nia. }
  apply Z.leb_le in Hv. rewrite Hv. reflexivity.
Qed.

(** X13. A duration whose digits denote 2^1024 or more is not rejected:
    [parseInt] gives an infinity, [isNaN] is false of it, and with the other
    requirements met the request goes on to storage and every record
    submitted carries [Infinity] (with the sign of the text) as its
    duration. *)
Theorem duration_beyond_doubles_is_stored_infinite
    w req s form s1 vf tf r s' ws sg ds rest :
  method req = "POST" ->
  parseForm w req s = (inr form, s1) ->
  Js.truthy (title_of form) = true ->
  Js.truthy (description_of form) = true ->
  videoFile_of form = Some vf ->
  thumbnailFile_of form = Some tf ->
  Js.truthy (teamId_of form) = true ->
  handler w req s = (r, s') ->
  duration_text_of form = Some (ws +:+ Decimal.sign_text sg +:+ ds +:+ rest) ->
  Decimal.all_ws ws = true ->
  Decimal.all_digits ds = true ->
  Decimal.no_leading_digit rest = true ->
  2 ^ 1024 <= Decimal.value ds ->
  (exists resp, r = inr resp /\ status resp <> 400) /\
  (forall db coll id data acl res,
      In (EvCreateDocument db coll id data acl res) (calls (events_since s s')) ->
      vd_duration data
      = Js.Inf match sg with Decimal.Minus => true | _ => false end).
Proof.
  intros Hm Hp Ht Hd Hv Hth Hteam Hrun Htext Hws Hds Hrest Hbig.
  assert (Hne : ds <> "") by (intros ->; vm_compute in Hbig; congruence).
  pose proof (parseInt_decimal ws sg ds rest Hws Hne Hds Hrest) as Hval.
  rewrite <- Htext in Hval.
  assert (Hinf : Js.parseInt (duration_text_of form)
                 = Js.Inf match sg with Decimal.Minus => true | _ => false end).
  { rewrite Hval, round_double_overflow by (destruct sg; simpl; lia).
    f_equal. destruct sg; simpl; [apply Z.ltb_ge; lia|apply Z.ltb_lt; lia|apply Z.ltb_ge; lia]. }
  assert (Hwf : well_formed form vf tf).
  { unfold well_formed, duration_of. rewrite Hinf. simpl. tauto. }
  destruct (handler_well_formed _ _ _ _ _ _ _ Hm Hp Hwf) as (resp & s2 & Hrun' & Hpipe).
  rewrite Hrun' in Hrun. inversion Hrun; subst; clear Hrun. split.
  - exists resp. split; [done|].
    destruct (pipeline_status _ _ _ _ _ _ _ Hpipe) as [E|E]; rewrite E; done.
  - intros db coll id data acl res Hin.
    destruct (pipeline_record _ _ _ _ _ _ _ _ _ _ _ _ _ Hpipe Hin) as (vb & tb & date & ->).
    exact Hinf.
Qed.

Lemma duration_beyond_doubles_is_stored_infinite_witness :
  (exists resp,
     fst (handler Scenario.world_ok (Scenario.request "Trailer" Cases5.nines) Scenario.state0)
     = inr resp /\ status resp <> 400) /\
  (forall db coll id data acl res,
      In (EvCreateDocument db coll id data acl res)
         (calls (events_since Scenario.state0
                   (snd (handler Scenario.world_ok (Scenario.request "Trailer" Cases5.nines)
                                 Scenario.state0)))) ->
      vd_duration data = Js.Inf false).
Proof.
  apply (duration_beyond_doubles_is_stored_infinite
           Scenario.world_ok (Scenario.request "Trailer" Cases5.nines) Scenario.state0
           (Scenario.form_of "Trailer" Cases5.nines)
           (snd (parseForm Scenario.world_ok (Scenario.request "Trailer" Cases5.nines)
                           Scenario.state0))
           Scenario.trailer Scenario.poster
           (fst (handler Scenario.world_ok (Scenario.request "Trailer" Cases5.nines)
                         Scenario.state0))
           (snd (handler Scenario.world_ok (Scenario.request "Trailer" Cases5.nines)
                         Scenario.state0))
           "" Decimal.NoSign Cases5.nines "").
  - reflexivity.
  - vm_compute. reflexivity.
  - reflexivity.
  - reflexivity.
  - reflexivity.
  - reflexivity.
  - reflexivity.
  - vm_compute. reflexivity.
  - vm_compute. reflexivity.
  - reflexivity.
  - vm_compute. reflexivity.
  - reflexivity.
  - vm_compute. discriminate.
Defined.

(** ** Numbers written and read back *)

Lemma digit_char_value d :
  0 <= d < 10 -> Decimal.digit_value (JsText.digit_char d) = Some d.
Proof.
  intros Hd.
  assert (H : d = 0 \/ d = 1 \/ d = 2 \/ d = 3 \/ d = 4 \/ d = 5 \/ d = 6 \/ d = 7
              \/ d = 8 \/ d = 9) by lia.
  repeat (destruct H as [->|H]; [reflexivity|]). subst. reflexivity.
Qed.

Lemma digit_char_is_digit d :
  0 <= d < 10 -> Decimal.is_digit (JsText.digit_char d) = true.
Proof.
  intros Hd. unfold Decimal.is_digit. by rewrite digit_char_value.
Qed.

Lemma digits_of_all_digits fuel n acc :
  0 <= n -> Decimal.all_digits acc = true ->
  Decimal.all_digits (JsText.digits_of fuel n acc) = true.
Proof.
  revert n acc. induction fuel as [|fuel IH]; intros n acc Hn Hacc; [done|].
  cbn [JsText.digits_of].
  assert (Hmod : 0 <= n mod 10 < 10) by (apply Z.mod_pos_bound; lia).
  assert (Hacc' : Decimal.all_digits (String (JsText.digit_char (n mod 10)) acc) = true).
  { cbn [Decimal.all_digits]. by rewrite digit_char_is_digit, Hacc. }
  destruct (n <? 10); [done|]. apply IH; [|done]. apply Z.div_pos; lia.
Qed.

Lemma digits_of_head fuel n acc :
  (0 < fuel)%nat -> 0 <= n ->
  exists d r, 0 <= d < 10 /\ JsText.digits_of fuel n acc = String (JsText.digit_char d) r.
Proof.
  revert n acc. induction fuel as [|fuel IH]; intros n acc Hf Hn; [lia|].
  cbn [JsText.digits_of].
  destruct (n <? 10) eqn:Hlt.
  - exists (n mod 10), acc. split; [|reflexivity]. apply Z.mod_pos_bound. lia.
  - destruct fuel as [|fuel].
    + cbn [JsText.digits_of].
      exists (n mod 10), acc. split; [|reflexivity]. apply Z.mod_pos_bound. lia.
    + apply IH; [lia|]. apply Z.div_pos; lia.
Qed.

(** Reading the digits of [n] amounts to starting from [n]. *)
Lemma digits_of_value fuel n acc a0 :
  0 <= n -> Z.log2 n < Z.of_nat fuel -> a0 = 0 ->
  fold_left (fun acc c => 10 * acc + default 0 (Decimal.digit_value c))
            (list_ascii_of_string (JsText.digits_of fuel n acc)) a0
  = fold_left (fun acc c => 10 * acc + default 0 (Decimal.digit_value c))
              (list_ascii_of_string acc) n.
Proof.
  revert n acc. induction fuel as [|fuel IH]; intros n acc Hn Hlog ->.
  { pose proof (Z.log2_nonneg n). lia. }
  cbn [JsText.digits_of].
  assert (Hmod : 0 <= n mod 10 < 10) by (apply Z.mod_pos_bound; lia).
  destruct (Z.ltb_spec n 10) as [Hlt|Hge].
  - cbn [list_ascii_of_string fold_left]. rewrite Z.mod_small by lia.
    rewrite digit_char_value by lia. cbn [default id]. f_equal; lia.
  - assert (Hdiv : 0 <= n / 10) by (apply Z.div_pos; lia).
    assert (Hlog' : Z.log2 (n / 10) < Z.of_nat fuel).
    { assert (Hle : n / 10 <= n / 2).
      { apply Z.div_le_lower_bound; [lia|].
        pose proof (Z.mul_div_le n 10 ltac:(lia)). lia. }
      pose proof (Z.log2_le_mono _ _ Hle) as Hmono.
      assert (Hhalf : Z.log2 (n / 2) = Z.log2 n - 1).
      { rewrite <- Z.div2_div, Z.div2_spec, Z.log2_shiftr by lia.
        pose proof (Z.log2_le_mono 10 n Hge) as H10.
        change (Z.log2 10) with 3 in H10. lia. }
      lia. }
    rewrite IH by done.
    cbn [list_ascii_of_string fold_left]. rewrite digit_char_value by lia.
    cbn [default id]. f_equal. pose proof (Z.div_mod n 10 ltac:(lia)). lia.
Qed.

Lemma decimal_all_digits n : 0 <= n -> Decimal.all_digits (JsText.decimal n) = true.
Proof. intros Hn. by apply digits_of_all_digits. Qed.

Lemma decimal_head n :
  0 <= n -> exists d r, 0 <= d < 10 /\ JsText.decimal n = String (JsText.digit_char d) r.
Proof. intros Hn. apply digits_of_head; [lia|done]. Qed.

Lemma decimal_value n : 0 <= n -> Decimal.value (JsText.decimal n) = n.
Proof.
  intros Hn. unfold Decimal.value, JsText.decimal.
  rewrite digits_of_value; [reflexivity|done| |done].
  pose proof (Z.log2_nonneg n). lia.
Qed.

Lemma append_empty_r (s : string) : s +:+ "" = s.
Proof.
  induction s as [|c s IH]; [reflexivity|].
  change (String c (s +:+ "") = String c s). by rewrite IH.
Qed.

(** [parseInt] reads a number written in decimal back, up to rounding. *)
Lemma parseInt_decimal_text (negative : bool) n :
  0 <= n ->
  Js.parseInt (Some ((if negative then "-" else "") +:+ JsText.decimal n))
  = Js.round_double ((if negative then -1 else 1) * n).
Proof.
  intros Hn.
  destruct (decimal_head n Hn) as (d & r & Hd & Heq).
  pose proof (parseInt_decimal "" (if negative then Decimal.Minus else Decimal.NoSign)
                (JsText.decimal n) "") as H.
  rewrite decimal_value in H by done.
  rewrite append_empty_r in H.
  destruct negative; cbn [Decimal.sign_text Decimal.sign_factor] in H;
    apply H; try reflexivity; try (by apply decimal_all_digits);
    rewrite Heq; discriminate.
Qed.
Lemma pow_2_53_lt_10_21 : 2 ^ 53 < 10 ^ 21.
Proof. reflexivity. Qed.

(** Up to 2^53 a Number is written as the decimal digits of its value. *)
Lemma Number_toString_exact n :
  Z.abs n <= 2 ^ 53 ->
  JsText.Number_toString (Js.Int n)
  = (if n <? 0 then "-" else "") +:+ JsText.decimal (Z.abs n).
Proof.
  intros Hn. unfold JsText.Number_toString.
  assert (Hmag : forall a, 0 <= a <= 2 ^ 53 ->
                           JsText.magnitude_toString a = JsText.decimal a).
  { intros a Ha. unfold JsText.magnitude_toString.
    destruct (Z.ltb_spec a (2 ^ 53)) as [Hlt|Hge].
    - pose proof pow_2_53_lt_10_21.
      destruct (Z.ltb_spec a (10 ^ 21)); [reflexivity|lia].
    - assert (a = 2 ^ 53) as -> by lia. vm_compute. reflexivity. }
  destruct (Z.ltb_spec n 0).
  - rewrite Hmag by lia. f_equal. f_equal. lia.
  - rewrite Hmag by lia. change ("" +:+ ?s) with s. f_equal. lia.
Qed.

(** What [toString] writes for a Number up to 2^53, [parseInt] reads back. *)
Lemma parseInt_Number_toString n :
  Z.abs n <= 2 ^ 53 ->
  Js.parseInt (Some (JsText.Number_toString (Js.Int n))) = Js.Int n.
Proof.
  intros Hn. rewrite Number_toString_exact by done.
  rewrite (parseInt_decimal_text (n <? 0) (Z.abs n)) by lia.
  assert (E : (if n <? 0 then -1 else 1) * Z.abs n = n)
    by (destruct (Z.ltb_spec n 0); lia).
  rewrite E. apply round_double_exact. exact Hn.
Qed.

Lemma shortest_from_nonneg fuel a w k : 0 <= a -> 0 <= JsText.shortest_from fuel a w k.
Proof.
  intros Ha. revert k. induction fuel as [|fuel IH]; intros k; [done|].
  cbn [JsText.shortest_from].
  assert (H10 : 0 <= 10 ^ (w - k)) by (apply Z.pow_nonneg; lia).
  assert (Hq : 0 <= a / 10 ^ (w - k)) by (apply Z_div_nonneg_nonneg; lia).
  unfold JsText.neighbours. cbn [List.filter].
  destruct (Js.Num_eqb _ _); destruct (Js.Num_eqb _ _);
    try apply IH; try destruct (JsText.nearer _ _ _ _); nia.
Qed.

Lemma strip_zeros_head c r :
  JsText.strip_zeros (String c r) = "" \/
  exists r', JsText.strip_zeros (String c r) = String c r'.
Proof.
  cbn [JsText.strip_zeros]. destruct (JsText.strip_zeros r).
  - destruct (Ascii.eqb c "0"); eauto.
  - eauto.
Qed.

(** A finite Number is written with a digit first, after its sign. *)
Lemma magnitude_toString_head a :
  0 <= a ->
  exists d r, 0 <= d < 10 /\ JsText.magnitude_toString a = String (JsText.digit_char d) r.
Proof.
  intros Ha. unfold JsText.magnitude_toString.
  set (v := if a <? 2 ^ 53 then a else JsText.shortest a).
  assert (Hv : 0 <= v).
  { unfold v. destruct (a <? 2 ^ 53); [done|]. by apply shortest_from_nonneg. }
  destruct (decimal_head v Hv) as (d & r & Hd & Heq).
  destruct (v <? 10 ^ 21); [eauto|].
  unfold JsText.exponential. rewrite Heq.
  destruct (strip_zeros_head (JsText.digit_char d) r) as [->|[r' ->]].
  - exists 0, "". split; [lia|reflexivity].
  - destruct r'; eauto.
Qed.

Lemma parseInt_leading_digit (negative : bool) d r :
  0 <= d < 10 ->
  Js.parseInt (Some ((if negative then "-" else "") +:+ String (JsText.digit_char d) r))
  <> Js.NaN.
Proof.
  intros Hd. rewrite parseInt_NaN_iff.
  pose proof (digit_char_is_digit d Hd) as Hdig.
  pose proof (digit_not_ws _ Hdig) as Hws.
  pose proof (digit_not_sign _ Hdig) as [Hm Hp].
  assert (Hts : Js.take_sign (String (JsText.digit_char d) r)
                = (1, String (JsText.digit_char d) r)).
  { unfold Js.take_sign.
    destruct (JsText.digit_char d) as [[] [] [] [] [] [] [] []];
      try reflexivity; congruence. }
  destruct negative; cbn [Js.ToString].
  - change ("-" +:+ ?s) with (String "-" s). cbn [Js.skip_ws].
    change (Js.is_ws "-") with false. cbn [Js.take_sign snd Decimal.no_leading_digit].
    rewrite Hdig. discriminate.
  - change ("" +:+ ?s) with s. cbn [Js.skip_ws]. rewrite Hws, Hts.
    cbn [snd Decimal.no_leading_digit]. rewrite Hdig. discriminate.
Qed.

Lemma parseInt_Number_toString_finite n :
  Js.parseInt (Some (JsText.Number_toString (Js.Int n))) <> Js.NaN.
Proof.
  unfold JsText.Number_toString. destruct (Z.ltb_spec n 0).
  - destruct (magnitude_toString_head (- n) ltac:(lia)) as (d & r & Hd & ->).
    apply (parseInt_leading_digit true d r Hd).
  - destruct (magnitude_toString_head n ltac:(lia)) as (d & r & Hd & ->).
    apply (parseInt_leading_digit false d r Hd).
Qed.

(** A text that [parseInt] reads without a radix is read with radix 10
    as well. *)
Lemma parseInt_auto_not_NaN v :
  Js.isNaN (JsText.parseInt_auto v) = false -> Js.isNaN (Js.parseInt v) = false.
Proof.
  unfold JsText.parseInt_auto, Js.parseInt.
  destruct (Js.take_sign (Js.skip_ws (Js.ToString v))) as [sign text].
  destruct (JsText.strip_hex_prefix text) as [hex|] eqn:Hhex.
  - intros _. unfold JsText.strip_hex_prefix in Hhex.
    destruct text as [|c text]; [done|].
    destruct (Ascii.eqb_spec c "0") as [->|Hc].
    + cbn [Js.read_digits]. change (Js.digit_of "0") with (Some 0).
      cbv iota beta.
      destruct (Js.read_digits text (Some (10 * default 0 None + 0))) as [n|] eqn:Hr;
        [apply round_double_not_NaN|].
      exfalso. revert Hr. generalize (10 * default 0 None + 0). clear.
      induction text as [|c text IH]; cbn [Js.read_digits]; intros a; [done|].
      destruct (Js.digit_of c); [apply IH|done].
    + exfalso. destruct c as [[] [] [] [] [] [] [] []]; try discriminate; congruence.
  - destruct (Js.read_digits text None) as [n|]; [intros _; apply round_double_not_NaN|done].
Qed.

(** ** The admin upload form *)

Section AdminSubmit.
Context (fetch : Admin.FormData -> Admin.Fetched) (st : Admin.State).

(** X14. A form with a blank title or description (after trimming), a
    duration that [parseInt] cannot read, a missing file, or a blank user or
    team identifier is not submitted: nothing is posted, the inputs stay as
    they are, and the page shows its own error message with the spinner
    off. *)
Theorem admin_invalid_form_sends_nothing :
  Js.trim (Admin.title st) = "" \/
  Js.trim (Admin.description st) = "" \/
  JsText.parseInt_auto (Some (Admin.duration st)) = Js.NaN \/
  Admin.videoFile st = None \/
  Admin.thumbnailFile st = None \/
  Js.trim (Admin.appwriteUserId st) = "" \/
  Js.trim (Admin.appwriteTeamId st) = "" ->
  exists st',
    Admin.handleSubmit fetch st = (st', None) /\
    Admin.errorMessage st'
    = "Please fill in all required fields, select both files, and provide valid Appwrite User/Team IDs." /\
    Admin.successMessage st' = "" /\
    Admin.loading st' = false /\
    Admin.setLoading false (Admin.setSuccessMessage "" (Admin.setErrorMessage "" st'))
    = Admin.setLoading false (Admin.setSuccessMessage "" (Admin.setErrorMessage "" st)).
Proof.
  intros Hbad. unfold Admin.handleSubmit.
  match goal with
  | |- context [if ?c then _ else _] => assert (Hc : c = true)
  end.
  { destruct Hbad as [H|[H|[H|[H|[H|[H|H]]]]]]; rewrite H; simpl;
      rewrite ?orb_true_r; reflexivity. }
  rewrite Hc. eexists. repeat split; reflexivity.
Qed.

Lemma admin_sent st' fd :
  Admin.handleSubmit fetch st = (st', Some fd) ->
  fd = Admin.formData_of st /\
  Js.truthy (Some (Js.trim (Admin.title st))) = true /\
  Js.truthy (Some (Js.trim (Admin.description st))) = true /\
  Js.isNaN (JsText.parseInt_auto (Some (Admin.duration st))) = false /\
  is_Some (Admin.videoFile st) /\
  is_Some (Admin.thumbnailFile st) /\
  Js.truthy (Some (Js.trim (Admin.appwriteUserId st))) = true /\
  Js.truthy (Some (Js.trim (Admin.appwriteTeamId st))) = true.
Proof.
  unfold Admin.handleSubmit.
  destruct (Js.truthy (Some (Js.trim (Admin.title st)))); cbn [negb orb];
    [|discriminate].
  destruct (Js.truthy (Some (Js.trim (Admin.description st)))); cbn [negb orb];
    [|discriminate].
  destruct (Js.isNaN (JsText.parseInt_auto (Some (Admin.duration st))));
    cbn [negb orb]; [discriminate|].
  destruct (Admin.videoFile st) as [v|]; cbn [negb orb];
    [rewrite bool_decide_eq_true_2 by eauto|discriminate].
  destruct (Admin.thumbnailFile st) as [t|]; cbn [negb orb];
    [rewrite bool_decide_eq_true_2 by eauto|discriminate].
  cbn [negb orb].
  destruct (Js.truthy (Some (Js.trim (Admin.appwriteUserId st)))); cbn [negb orb];
    [|discriminate].
  destruct (Js.truthy (Some (Js.trim (Admin.appwriteTeamId st)))); cbn [negb orb];
    [|discriminate].
  intros H. inversion H; subst. repeat split; eauto.
Qed.

(** X15. Whenever the form is submitted, [parseInt] reads its duration
    text with radix 10 too; the page sends what [toString] writes for that
    Number, and the server's [parseInt] reads the same Number back from it
    as long as its value does not exceed 2^53; whatever the value, a finite
    Number is sent as a text that the server's [parseInt] can read, and an
    infinite one as a text that it cannot. *)
Theorem admin_duration_round_trip st' fd :
  Admin.handleSubmit fetch st = (st', Some fd) ->
  exists sent,
    Admin.text_of fd "duration" = Some sent /\
    sent = JsText.Number_toString (Js.parseInt (Some (Admin.duration st))) /\
    Js.isNaN (Js.parseInt (Some (Admin.duration st))) = false /\
    (forall n, Js.parseInt (Some (Admin.duration st)) = Js.Int n ->
               Z.abs n <= 2 ^ 53 -> Js.parseInt (Some sent) = Js.Int n) /\
    (forall n, Js.parseInt (Some (Admin.duration st)) = Js.Int n ->
               Js.parseInt (Some sent) <> Js.NaN) /\
    (forall negative, Js.parseInt (Some (Admin.duration st)) = Js.Inf negative ->
                      Js.parseInt (Some sent) = Js.NaN).
Proof.
  intros Hsub. destruct (admin_sent _ _ Hsub) as (-> & _ & _ & Hn & _).
  eexists. split; [reflexivity|]. split; [reflexivity|].
  split; [by apply parseInt_auto_not_NaN|].
  split; [|split].
  - intros n -> Hb. by apply parseInt_Number_toString.
  - intros n ->. apply parseInt_Number_toString_finite.
  - intros negative ->. by destruct negative.
Qed.

(** X16. What the form sends passes the server's validation unless its
    duration is beyond the range of doubles: for a run of the handler on a
    request whose parsed form carries the page's texts and both files, the
    answer is not 400 when the duration is finite, and it is 400, with no
    collaborator called, when the duration is an infinity. *)
Theorem admin_request_and_server_validation st' fd w req s form s1 :
  Admin.handleSubmit fetch st = (st', Some fd) ->
  method req = "POST" ->
  parseForm w req s = (inr form, s1) ->
  Admin.delivered fd form ->
  ((exists n, Js.parseInt (Some (Admin.duration st)) = Js.Int n) ->
   exists resp s2, handler w req s = (inr resp, s2) /\ status resp <> 400) /\
  ((exists negative, Js.parseInt (Some (Admin.duration st)) = Js.Inf negative) ->
   exists resp s2, handler w req s = (inr resp, s2) /\ status resp = 400 /\
                   calls (events_since s s2) = []).
Proof.
  intros Hsub Hm Hp (Htexts & [vf Hv] & [tf Hth]).
  destruct (admin_sent _ _ Hsub) as (-> & Ht & Hd & Hn & [v Hvf] & [t Htf] & _ & Hteam).
  pose proof (Htexts "duration" _ eq_refl) as Hdur.
  assert (Hid : Js.first_or_self (fields form !! "teamId")
                = Some (Js.trim (Admin.appwriteTeamId st))).
  { apply Htexts. unfold Admin.formData_of. rewrite Hvf, Htf. reflexivity. }
  split.
  - intros [n Hparse].
    assert (Hwf : well_formed form vf tf).
    { unfold well_formed, title_of, description_of, duration_of, duration_text_of, teamId_of.
      rewrite (Htexts "title" _ eq_refl), (Htexts "description" _ eq_refl),
        Hid, Hdur, Hparse.
      pose proof (parseInt_Number_toString_finite n) as Hfin.
      repeat split; try done.
      destruct (Js.parseInt (Some (JsText.Number_toString (Js.Int n)))); done. }
    destruct (handler_well_formed _ _ _ _ _ _ _ Hm Hp Hwf) as (resp & s2 & Hrun & Hpipe).
    exists resp, s2. split; [done|].
    destruct (pipeline_status _ _ _ _ _ _ _ Hpipe) as [E|E]; rewrite E; done.
  - intros [negative Hparse].
    assert (Hrej : rejected form).
    { unfold rejected, duration_of, duration_text_of.
      right; right; left. rewrite Hdur, Hparse. by destruct negative. }
    destruct (handler_rejected _ _ _ _ _ Hm Hp Hrej) as (s2 & Hrun & Hc & _).
    eauto.
Qed.

(** X17. The premium flag survives the trip: the text sent for
    [isPremium] makes every version of the server's extraction return the
    state of the checkbox. *)
Theorem admin_isPremium_round_trip st' fd :
  Admin.handleSubmit fetch st = (st', Some fd) ->
  exists sent,
    Admin.text_of fd "isPremium" = Some sent /\
    extract_isPremium (Some (Js.PStr sent)) = Admin.isPremium st /\
    extract_isPremium (Some (Js.PArr [sent])) = Admin.isPremium st /\
    Busboy.isPremium_of [("isPremium", Busboy.EStr sent)] = Admin.isPremium st.
Proof.
  intros Hsub. destruct (admin_sent _ _ Hsub) as (-> & _).
  eexists. split; [reflexivity|]. by destruct (Admin.isPremium st).
Qed.

End AdminSubmit.

Lemma form_from_fields fd k v :
  Admin.text_of fd k = Some v ->
  fields (Cases4.form_from fd) !! k = Some (Js.PArr [v]).
Proof.
  unfold Cases4.form_from. cbn [fields].
  induction fd as [|[k' [s|f]] fd IH]; cbn [Admin.text_of omap list_to_map fst snd];
    [done|..].
  - destruct (String.eqb_spec k' k) as [->|Hne].
    + intros [= ->]. cbn. apply lookup_insert_eq.
    + intros H. cbn. rewrite lookup_insert_ne by done. by apply IH.
  - destruct (String.eqb_spec k' k) as [->|Hne]; [done|]. exact IH.
Qed.

Lemma form_from_delivered fd : Admin.delivered fd (Cases4.form_from fd).
Proof.
  split; [|split; eexists; reflexivity].
  intros k v H. by rewrite (form_from_fields _ _ _ H).
Qed.

Lemma admin_invalid_form_sends_nothing_witness :
  exists st',
    Admin.handleSubmit Cases4.offline (Cases4.filled "abc") = (st', None) /\
    Admin.errorMessage st'
    = "Please fill in all required fields, select both files, and provide valid Appwrite User/Team IDs." /\
    Admin.successMessage st' = "" /\
    Admin.loading st' = false /\
    Admin.setLoading false (Admin.setSuccessMessage "" (Admin.setErrorMessage "" st'))
    = Admin.setLoading false
        (Admin.setSuccessMessage "" (Admin.setErrorMessage "" (Cases4.filled "abc"))).
Proof.
  apply (admin_invalid_form_sends_nothing Cases4.offline (Cases4.filled "abc")).
  right; right; left. reflexivity.
Defined.

Lemma admin_duration_round_trip_witness :
  exists sent,
    Admin.text_of (Cases6.posted "120abc") "duration" = Some sent /\
    sent = JsText.Number_toString (Js.parseInt (Some "120abc")) /\
    Js.isNaN (Js.parseInt (Some "120abc")) = false /\
    (forall n, Js.parseInt (Some "120abc") = Js.Int n ->
               Z.abs n <= 2 ^ 53 -> Js.parseInt (Some sent) = Js.Int n) /\
    (forall n, Js.parseInt (Some "120abc") = Js.Int n ->
               Js.parseInt (Some sent) <> Js.NaN) /\
    (forall negative, Js.parseInt (Some "120abc") = Js.Inf negative ->
                      Js.parseInt (Some sent) = Js.NaN).
Proof.
  apply (admin_duration_round_trip Cases4.offline (Cases4.filled "120abc")
           (fst (Admin.handleSubmit Cases4.offline (Cases4.filled "120abc")))
           (Cases6.posted "120abc")).
  reflexivity.
Defined.

Lemma admin_request_and_server_validation_witness :
  ((exists n, Js.parseInt (Some "120abc") = Js.Int n) ->
   exists resp s2,
     handler Scenario.world_ok (Cases6.request_from (Cases6.posted "120abc"))
             Scenario.state0 = (inr resp, s2) /\ status resp <> 400) /\
  ((exists negative, Js.parseInt (Some "120abc") = Js.Inf negative) ->
   exists resp s2,
     handler Scenario.world_ok (Cases6.request_from (Cases6.posted "120abc"))
             Scenario.state0 = (inr resp, s2) /\ status resp = 400 /\
     calls (events_since Scenario.state0 s2) = []).
Proof.
  apply (admin_request_and_server_validation
           Cases4.offline (Cases4.filled "120abc")
           (fst (Admin.handleSubmit Cases4.offline (Cases4.filled "120abc")))
           (Cases6.posted "120abc")
           Scenario.world_ok (Cases6.request_from (Cases6.posted "120abc"))
           Scenario.state0 (Cases4.form_from (Cases6.posted "120abc"))
           (snd (parseForm Scenario.world_ok (Cases6.request_from (Cases6.posted "120abc"))
                           Scenario.state0))).
  - reflexivity.
  - reflexivity.
  - vm_compute. reflexivity.
  - apply form_from_delivered.
Defined.

Lemma admin_isPremium_round_trip_witness :
  exists sent,
    Admin.text_of (Cases6.posted "120") "isPremium" = Some sent /\
    extract_isPremium (Some (Js.PStr sent)) = true /\
    extract_isPremium (Some (Js.PArr [sent])) = true /\
    Busboy.isPremium_of [("isPremium", Busboy.EStr sent)] = true.
Proof.
  apply (admin_isPremium_round_trip Cases4.offline (Cases4.filled "120")
           (fst (Admin.handleSubmit Cases4.offline (Cases4.filled "120")))
           (Cases6.posted "120")).
  reflexivity.
Defined.

(** ** Files held by the page *)

Lemma handleSubmit_files fetch st :
  (Admin.videoFile (fst (Admin.handleSubmit fetch st)) = Admin.videoFile st /\
   Admin.thumbnailFile (fst (Admin.handleSubmit fetch st)) = Admin.thumbnailFile st) \/
  (Admin.videoFile (fst (Admin.handleSubmit fetch st)) = None /\
   Admin.thumbnailFile (fst (Admin.handleSubmit fetch st)) = None).
Proof.
  unfold Admin.handleSubmit.
  destruct (_ || _); [left; split; reflexivity|].
  destruct (fetch (Admin.formData_of st)) as [|ok|[|] msg err];
    [left|left|right|left]; split; reflexivity.
Qed.

Lemma step_checked_types st ev : checked_types st -> checked_types (Admin.step st ev).
Proof.
  intros [Hv Ht]. destruct ev as [input value|checked|files|files|fetch];
    cbn [Admin.step].
  - split; [exact Hv|exact Ht].
  - split; [exact Hv|exact Ht].
  - unfold Admin.handleVideoFileChange.
    destruct (Admin.first_chosen files) as [file|]; [|split; [done|exact Ht]].
    destruct (JsText.startsWith (Admin.type file) "video/") eqn:E;
      (split; [|exact Ht]); cbn; [|done].
    by intros f [= <-].
  - unfold Admin.handleThumbnailFileChange.
    destruct (Admin.first_chosen files) as [file|]; [|split; [exact Hv|done]].
    destruct (JsText.startsWith (Admin.type file) "image/") eqn:E;
      (split; [exact Hv|]); cbn; [|done].
    by intros f [= <-].
  - unfold checked_types.
    destruct (handleSubmit_files fetch st) as [[-> ->]|[-> ->]]; split; done.
Qed.

(** X18. Whatever happens on the page, the video it holds has a type
    that starts with [video/] and the thumbnail it holds a type that starts
    with [image/]: a file of another type is never kept, and never sent. *)
Theorem admin_holds_only_checked_files evs f :
  Admin.videoFile (Admin.run evs) = Some f \/
  Admin.thumbnailFile (Admin.run evs) = Some f ->
  (Admin.videoFile (Admin.run evs) = Some f ->
   JsText.startsWith (Admin.type f) "video/" = true) /\
  (Admin.thumbnailFile (Admin.run evs) = Some f ->
   JsText.startsWith (Admin.type f) "image/" = true).
Proof.
  intros _.
  assert (H : forall st, checked_types st -> checked_types (fold_left Admin.step evs st)).
  { induction evs as [|ev evs IH]; intros st Hst; [exact Hst|].
    cbn [fold_left]. apply IH. by apply step_checked_types. }
  destruct (H Admin.initial) as [Hv Ht]; [split; intros ? [=]|].
  split; [apply Hv|apply Ht].
Qed.

Lemma admin_holds_only_checked_files_witness :
  (Admin.videoFile (Admin.run Cases7.visit) = Some Cases4.clip ->
   JsText.startsWith (Admin.type Cases4.clip) "video/" = true) /\
  (Admin.thumbnailFile (Admin.run Cases7.visit) = Some Cases4.clip ->
   JsText.startsWith (Admin.type Cases4.clip) "image/" = true).
Proof.
  apply (admin_holds_only_checked_files Cases7.visit Cases4.clip).
  left. reflexivity.
Defined.

(** ** What the page shows of the server's answer *)

Lemma handler_answer_shape w req s resp s' :
  handler w req s = (inr resp, s') ->
  (status resp = 200 /\
   exists doc v t,
     body resp = SuccessBody "Video uploaded and metadata saved successfully!" doc v t) \/
  (status resp <> 200 /\ 300 <= status resp /\
   exists error text details,
     body resp = ErrorBody error (Some text) details /\ text <> "").
Proof.
  intros Hrun.
  destruct (decide (method req = "POST")) as [Hm|Hm].
  2:{ rewrite handler_not_post in Hrun by done. inversion Hrun; subst.
      right. cbn. repeat split; try lia. eexists _, _, _. split; [reflexivity|done]. }
  destruct (parseForm w req s) as [[e|form] s1] eqn:Hp.
  { rewrite (handler_parse_failed _ _ _ _ _ Hm Hp) in Hrun. inversion Hrun; subst.
    right. cbn. repeat split; try lia. eexists _, _, _. split; [reflexivity|done]. }
  destruct (rejected_or_well_formed form) as [Hrej|(vf & tf & Hwf)].
  { destruct (handler_rejected _ _ _ _ _ Hm Hp Hrej) as (s2 & Hrun' & _).
    rewrite Hrun' in Hrun. inversion Hrun; subst.
    right. cbn. repeat split; try lia. eexists _, _, _. split; [reflexivity|done]. }
  destruct Hwf as (Ht & Hd & Hn & Hv & Hth & Hteam).
  revert Hrun. unfold handler. rewrite Hm. simpl.
  unfold try_catch at 1. unfold mbind at 1, Eff_bind at 1. rewrite Hp.
  fold (title_of form) (description_of form) (duration_text_of form) (teamId_of form)
       (videoFile_of form) (thumbnailFile_of form).
  fold (duration_of form).
  rewrite Ht, Hd, Hn, Hv, Hth, Hteam. simpl.
  destruct s1 as [d1 x1 t1]. destruct s as [d0 x0 t0]; simpl in *.
  unfold_run. case_innermost.
  all: intros Hrun; inversion Hrun; subst; clear Hrun; cbn.
  all: first [ left; split; [reflexivity|]; eexists _, _, _; reflexivity
             | right; repeat split; try lia; eexists _, _, _;
               split; [reflexivity|done] ].
Qed.

Section AdminAnswer.
Context (fetch : Admin.FormData -> Admin.Fetched) (st : Admin.State).

(** X19. When what the page posted is answered by the handler, the page
    shows the outcome as the server worded it: on 200 its success banner,
    with every input and both files cleared; otherwise the [message] of the
    server's answer, never the fallback text and never the [details], with
    the inputs kept for another try.  The spinner is off either way. *)
Theorem admin_shows_server_answer st' fd w req s resp s' :
  Admin.handleSubmit fetch st = (st', Some fd) ->
  handler w req s = (inr resp, s') ->
  fetch fd = Admin.answer_of resp ->
  Admin.loading st' = false /\
  (status resp = 200 ->
   Admin.successMessage st' = "Video uploaded and metadata saved successfully!" /\
   Admin.errorMessage st' = "" /\
   Admin.title st' = "" /\ Admin.description st' = "" /\ Admin.duration st' = "" /\
   Admin.isPremium st' = false /\ Admin.genre st' = "" /\ Admin.tags st' = "" /\
   Admin.videoFile st' = None /\ Admin.thumbnailFile st' = None /\
   Admin.appwriteUserId st' = Admin.appwriteUserId st /\
   Admin.appwriteTeamId st' = Admin.appwriteTeamId st) /\
  (status resp <> 200 ->
   exists error text details,
     body resp = ErrorBody error (Some text) details /\
     Admin.errorMessage st' = text /\
     Admin.successMessage st' = "" /\
     Admin.setLoading false (Admin.setSuccessMessage "" (Admin.setErrorMessage "" st'))
     = Admin.setLoading false (Admin.setSuccessMessage "" (Admin.setErrorMessage "" st))).
Proof.
  intros Hsub Hrun Hfetch.
  destruct (admin_sent _ _ _ _ Hsub) as (-> & Ht & Hd & Hn & [v Hv] & [t Hth] & Hu & Hteam).
  revert Hsub. unfold Admin.handleSubmit.
  rewrite Ht, Hd, Hn, Hv, Hth, Hu, Hteam.
  rewrite !bool_decide_eq_true_2 by eauto. cbn [negb orb].
  rewrite Hfetch.
  destruct (handler_answer_shape _ _ _ _ _ Hrun)
    as [(Hst & doc & vu & tu & Hb)|(Hst & Hge & error & text & details & Hb & Htext)].
  - unfold Admin.answer_of. rewrite Hst, Hb. cbn.
    intros [= <-]. cbn. split; [reflexivity|]. split; [|done].
    intros _. repeat split; reflexivity.
  - unfold Admin.answer_of. rewrite Hb.
    assert (Hok : (200 <=? status resp) && (status resp <=? 299) = false).
    { apply andb_false_iff. right. apply Z.leb_gt. lia. }
    rewrite Hok. cbn [Js.or_else].
    intros [= <-]. split; [reflexivity|]. split; [done|].
    intros _. exists error, text, details. split; [reflexivity|].
    destruct text as [|c text]; [done|]. cbn. repeat split; reflexivity.
Qed.

End AdminAnswer.

Lemma admin_shows_server_answer_witness :
  exists resp s',
    handler Scenario.world_ok (Cases6.request_from (Cases6.posted "120")) Scenario.state0
    = (inr resp, s') /\
    let st := Cases4.filled "120" in
    let st' := fst (Admin.handleSubmit Cases6.served st) in
    Admin.loading st' = false /\
    (status resp = 200 ->
     Admin.successMessage st' = "Video uploaded and metadata saved successfully!" /\
     Admin.errorMessage st' = "" /\
     Admin.title st' = "" /\ Admin.description st' = "" /\ Admin.duration st' = "" /\
     Admin.isPremium st' = false /\ Admin.genre st' = "" /\ Admin.tags st' = "" /\
     Admin.videoFile st' = None /\ Admin.thumbnailFile st' = None /\
     Admin.appwriteUserId st' = Admin.appwriteUserId st /\
     Admin.appwriteTeamId st' = Admin.appwriteTeamId st) /\
    (status resp <> 200 ->
     exists error text details,
       body resp = ErrorBody error (Some text) details /\
       Admin.errorMessage st' = text /\
       Admin.successMessage st' = "" /\
       Admin.setLoading false (Admin.setSuccessMessage "" (Admin.setErrorMessage "" st'))
       = Admin.setLoading false (Admin.setSuccessMessage "" (Admin.setErrorMessage "" st))).
Proof.
  eexists _, _. split; [vm_compute; reflexivity|].
  eapply (admin_shows_server_answer Cases6.served (Cases4.filled "120")
            (fst (Admin.handleSubmit Cases6.served (Cases4.filled "120")))
            (Cases6.posted "120")
            Scenario.world_ok (Cases6.request_from (Cases6.posted "120")) Scenario.state0).
  - vm_compute. reflexivity.
  - vm_compute. reflexivity.
  - vm_compute. reflexivity.
Defined.

(** ** Navigation between the pages *)

Lemma app_run_snoc evs ev : App.run (evs ++ [ev]) = App.step (App.run evs) ev.
Proof. unfold App.run. by rewrite fold_left_app. Qed.

Lemma app_invariant evs :
  (App.currentPage (App.run evs) = "home" /\ App.selectedVideoId (App.run evs) = None) \/
  (App.currentPage (App.run evs) = "upload") \/
  (App.currentPage (App.run evs) = "detail" /\
   exists video, App.selectedVideoId (App.run evs) = Some (doc_id video) /\
                 In (App.ClickVideo video) evs).
Proof.
  induction evs as [|ev evs IH] using rev_ind; [left; split; reflexivity|].
  rewrite app_run_snoc.
  assert (Hin : forall video, In (App.ClickVideo video) evs ->
                              In (App.ClickVideo video) (evs ++ [ev]))
    by (intros; apply in_or_app; by left).
  destruct ev as [| |video|]; cbn [App.step].
  - left. split; reflexivity.
  - right; left. reflexivity.
  - unfold App.renderPage, App.branch.
    destruct IH as [[Hp Hs]|[Hp|(Hp & v & Hs & Hv)]]; rewrite Hp; cbn.
    + right; right. split; [reflexivity|]. exists video. split; [reflexivity|].
      apply in_or_app. right. by left.
    + right; left. exact Hp.
    + right; right. split; [exact Hp|]. exists v. split; [exact Hs|]. exact (Hin _ Hv).
  - unfold App.renderPage, App.branch.
    destruct IH as [[Hp Hs]|[Hp|(Hp & v & Hs & Hv)]]; rewrite Hp; cbn.
    + left. split; [exact Hp|exact Hs].
    + right; left. exact Hp.
    + left. split; reflexivity.
Qed.

(** X20. Whatever a visitor clicks, the shell shows one of its three
    pages and never falls to the default branch of its switch; the home page
    is shown with no video selected; the detail page is shown for the
    identifier of a video that was clicked, and a click on a video of the
    home page opens the detail page for that video's identifier; the Upload
    button keeps whatever identifier was selected. *)
Theorem app_navigation evs :
  App.branch (App.run evs) <> App.CaseDefault /\
  (App.renderPage (App.run evs) = App.HomePage ->
   App.selectedVideoId (App.run evs) = None) /\
  (forall videoId,
      App.renderPage (App.run evs) = App.VideoDetailPage videoId ->
      exists video, videoId = Some (doc_id video) /\ In (App.ClickVideo video) evs) /\
  (forall video,
      App.renderPage (App.run evs) = App.HomePage ->
      App.renderPage (App.run (evs ++ [App.ClickVideo video]))
      = App.VideoDetailPage (Some (doc_id video))) /\
  App.selectedVideoId (App.run (evs ++ [App.ClickUpload]))
  = App.selectedVideoId (App.run evs).
Proof.
  pose proof (app_invariant evs) as Hinv.
  assert (Hclick : forall video,
            App.renderPage (App.run evs) = App.HomePage ->
            App.renderPage (App.run (evs ++ [App.ClickVideo video]))
            = App.VideoDetailPage (Some (doc_id video))).
  { intros video Hhome. rewrite app_run_snoc. cbn [App.step]. rewrite Hhome. reflexivity. }
  rewrite app_run_snoc. cbn [App.step App.openUpload App.selectedVideoId].
  split; [|split; [|split; [|split; [exact Hclick|reflexivity]]]];
    unfold App.renderPage, App.branch;
    destruct Hinv as [[Hp Hs]|[Hp|(Hp & v & Hs & Hv)]]; rewrite Hp; cbn; try done.
  intros videoId [= <-]. eauto.
Qed.

(** ** The home page *)

(** X21. The error banner of the home page cannot appear: when listing
    the videos fails, the [catch] block throws a [ReferenceError] before it
    logs or sets the error, so the promise of [fectchVideos] rejects, the
    spinner is turned off, and the page looks as if the list had not
    changed; a first load that fails shows the empty-catalogue text. *)
Theorem home_failure_is_never_shown listing e st :
  Home.banner (Home.render (fst (fst (Home.fectchVideos listing st)))) = None /\
  Home.fectchVideos (Home.ListFailed e) st
  = ({| Home.videos := Home.videos st; Home.loading := false; Home.error := None |},
     [], Some Home.err_is_not_defined) /\
  Home.render (fst (fst (Home.fectchVideos (Home.ListFailed e) Home.initial)))
  = {| Home.spinner := false; Home.banner := None;
       Home.stay_tuned := true; Home.grid := [] |}.
Proof.
  split; [|split; reflexivity].
  destruct listing; reflexivity.
Qed.

(** X22. When the database lists the videos, the page ends up showing
    exactly them, in the order listed, with the spinner off, or the
    empty-catalogue text when there is none; never both, and nothing is
    logged. *)
Theorem home_shows_the_listed_videos documents st :
  let done := Home.fectchVideos (Home.Listed documents) st in
  snd done = None /\
  snd (fst done) = [] /\
  Home.spinner (Home.render (fst (fst done))) = false /\
  Home.banner (Home.render (fst (fst done))) = None /\
  Home.grid (Home.render (fst (fst done))) = documents /\
  (Home.stay_tuned (Home.render (fst (fst done))) = true <-> documents = []).
Proof.
  cbn. repeat split; try reflexivity.
  - destruct documents; reflexivity.
  - destruct documents; [reflexivity|discriminate].
  - intros ->. reflexivity.
Qed.

(** ** The detail page *)

(** X23. Without a video identifier (none, or an empty one) the detail
    page asks the database for nothing: it shows "No video ID provided."
    with the spinner off and no details. *)
Theorem detail_without_id_asks_nothing getDocument videoId st :
  Js.truthy videoId = false ->
  snd (Detail.fetchVideo getDocument videoId st) = [] /\
  Detail.render (fst (Detail.fetchVideo getDocument videoId st))
  = {| Detail.spinner := false;
       Detail.banner := Some "No video ID provided.";
       Detail.details := None |}.
Proof.
  intros H. unfold Detail.fetchVideo.
  destruct videoId as [id|]; [rewrite H|]; split; reflexivity.
Qed.

Lemma detail_without_id_asks_nothing_witness :
  snd (Detail.fetchVideo Cases8.getDocument (Some "") Detail.initial) = [] /\
  Detail.render (fst (Detail.fetchVideo Cases8.getDocument (Some "") Detail.initial))
  = {| Detail.spinner := false;
       Detail.banner := Some "No video ID provided.";
       Detail.details := None |}.
Proof.
  apply (detail_without_id_asks_nothing Cases8.getDocument (Some "") Detail.initial).
  reflexivity.
Defined.

(** X24. With an identifier the detail page asks the database once, for
    that identifier, and then shows either the document found or the error
    banner, never both: after a failure no video is shown, not even one
    that an earlier fetch had left in the state. *)
Theorem detail_shows_video_or_error getDocument id st :
  id <> "" ->
  let done := Detail.fetchVideo getDocument (Some id) st in
  snd done = [id] /\
  Detail.spinner (Detail.render (fst done)) = false /\
  (forall document,
      getDocument id = Detail.Found document ->
      Detail.details (Detail.render (fst done)) = Some document /\
      Detail.banner (Detail.render (fst done)) = None) /\
  (forall e,
      getDocument id = Detail.GetFailed e ->
      Detail.details (Detail.render (fst done)) = None /\
      Detail.banner (Detail.render (fst done))
      = Some "Failed to load video. It might not exist or there's a network issue.").
Proof.
  intros Hid. unfold Detail.fetchVideo.
  assert (Ht : Js.truthy (Some id) = true) by (by destruct id).
  rewrite Ht. cbv zeta.
  destruct (getDocument id) as [document|e]; cbn; repeat split; congruence.
Qed.

Lemma detail_shows_video_or_error_witness :
  let done := Detail.fetchVideo Cases8.getDocument (Some "v1") Detail.initial in
  snd done = ["v1"] /\
  Detail.spinner (Detail.render (fst done)) = false /\
  (forall document,
      Cases8.getDocument "v1" = Detail.Found document ->
      Detail.details (Detail.render (fst done)) = Some document /\
      Detail.banner (Detail.render (fst done)) = None) /\
  (forall e,
      Cases8.getDocument "v1" = Detail.GetFailed e ->
      Detail.details (Detail.render (fst done)) = None /\
      Detail.banner (Detail.render (fst done))
      = Some "Failed to load video. It might not exist or there's a network issue.").
Proof.
  apply (detail_shows_video_or_error Cases8.getDocument "v1" Detail.initial).
  discriminate.
Defined.

Lemma split_commas_length s :
  List.length (JsText.split_commas s) = S (Detail.commas s).
Proof.
  induction s as [|c s IH]; [reflexivity|].
  cbn [JsText.split_commas Detail.commas].
  destruct (Ascii.eqb c ","); cbn [List.length]; [by rewrite IH|].
  destruct (JsText.split_commas s); [discriminate|exact IH].
Qed.

(** X25. The detail page shows no tag chip for a video without tags, and
    otherwise one chip per piece between commas, one more than there are
    commas, each a [#] followed by the trimmed piece: "trailer, action"
    gives [#trailer] and [#action], and a doubled comma gives a bare [#]. *)
Theorem detail_tag_chips text :
  text <> "" ->
  List.length (Detail.chips (Some text)) = S (Detail.commas text) /\
  Forall (fun chip => exists tag, chip = String "#" (Js.trim tag) /\
                                  In tag (JsText.split_commas text))
         (Detail.chips (Some text)) /\
  Detail.chips None = [] /\
  Detail.chips (Some "") = [] /\
  Detail.chips (Some "trailer, action") = ["#trailer"; "#action"] /\
  Detail.chips (Some "a,,b") = ["#a"; "#"; "#b"].
Proof.
  intros Ht. unfold Detail.chips at 1 2.
  assert (Htr : Js.truthy (Some text) = true) by (by destruct text).
  rewrite Htr. split; [by rewrite length_map, split_commas_length|].
  split; [|repeat split; reflexivity].
  apply List.Forall_forall. intros chip Hin. apply in_map_iff in Hin as (tag & <- & Hin).
  exists tag. split; [reflexivity|exact Hin].
Qed.

Lemma detail_tag_chips_witness :
  List.length (Detail.chips (Some "trailer, action")) = S (Detail.commas "trailer, action") /\
  Forall (fun chip => exists tag, chip = String "#" (Js.trim tag) /\
                                  In tag (JsText.split_commas "trailer, action"))
         (Detail.chips (Some "trailer, action")) /\
  Detail.chips None = [] /\
  Detail.chips (Some "") = [] /\
  Detail.chips (Some "trailer, action") = ["#trailer"; "#action"] /\
  Detail.chips (Some "a,,b") = ["#a"; "#"; "#b"].
Proof.
  apply (detail_tag_chips "trailer, action"). discriminate.
Defined.

